(** * Yandex Maps scraper: a shallow embedding of [src/scraper.py] and
    [src/storage.py], with the properties its specification states.

    The Python code drives a browser, the network and the disk.  Here every
    such call is an operation of an abstract environment (class [Env]); the
    program itself is written in a state-and-exception monad over it, one
    definition per source function, under the source's name.

    Text is modelled by [string] (a sequence of bytes, UTF-8 for the Russian
    labels of the source).  The character classes of [Py] ([isspace],
    [isdigit], [isalnum]) are those of Python restricted to ASCII; [lower]
    also maps the Cyrillic capitals, which the tab labels of the source need. *)

From Stdlib Require Import String Ascii List ZArith Lia Bool Sorted.
From stdpp Require Import base tactics option list gmap strings pretty.

Local Open Scope string_scope.
Local Open Scope Z_scope.

(** ** Python's [str] methods used by the source *)

Module Py.

Definition code (c : ascii) : nat := nat_of_ascii c.

Definition isdigit (c : ascii) : bool :=
  (48 <=? code c)%nat && (code c <=? 57)%nat.

Definition isupper (c : ascii) : bool :=
  (65 <=? code c)%nat && (code c <=? 90)%nat.

Definition isalpha (c : ascii) : bool :=
  isupper c || ((97 <=? code c)%nat && (code c <=? 122)%nat).

Definition isalnum (c : ascii) : bool := isalpha c || isdigit c.

(** [str.isspace] on ASCII: tab, line feed, vertical tab, form feed,
    carriage return, the four separators 28..31, and space. *)
Definition isspace (c : ascii) : bool :=
  ((9 <=? code c)%nat && (code c <=? 13)%nat)
  || ((28 <=? code c)%nat && (code c <=? 32)%nat).

(** Truth value of a string: [if s:] holds for a non-empty [s]. *)
Definition truthy (s : string) : bool :=
  match s with EmptyString => false | String _ _ => true end.

(** Truth value of what [get_attribute] returns ([None] or a string). *)
Definition truthy_opt (o : option string) : bool :=
  match o with None => false | Some s => truthy s end.

Fixpoint mem (c : ascii) (chars : string) : bool :=
  match chars with
  | EmptyString => false
  | String d chars' => Ascii.eqb c d || mem c chars'
  end.

Fixpoint lstrip_by (p : ascii → bool) (s : string) : string :=
  match s with
  | EmptyString => EmptyString
  | String c s' => if p c then lstrip_by p s' else s
  end.

Definition rstrip_by (p : ascii → bool) (s : string) : string :=
  String.rev (lstrip_by p (String.rev s)).

(** [s.strip()] *)
Definition strip (s : string) : string := rstrip_by isspace (lstrip_by isspace s).

(** [s.rstrip(chars)] *)
Definition rstrip (chars s : string) : string := rstrip_by (λ c, mem c chars) s.

(** [s.lower()]: ASCII capitals, and the Cyrillic capitals U+0400..U+042F in
    their two-byte UTF-8 form (lead byte 0xD0). *)
Fixpoint lower (s : string) : string :=
  match s with
  | EmptyString => EmptyString
  | String c s' =>
      if isupper c then String (ascii_of_nat (code c + 32)) (lower s')
      else if (code c =? 208)%nat then
        match s' with
        | EmptyString => String c EmptyString
        | String d s'' =>
            let m := code d in
            if (144 <=? m)%nat && (m <=? 159)%nat
            then String c (String (ascii_of_nat (m + 32)) (lower s''))
            else if (160 <=? m)%nat && (m <=? 175)%nat
            then String (ascii_of_nat 209) (String (ascii_of_nat (m - 32)) (lower s''))
            else if (128 <=? m)%nat && (m <=? 143)%nat
            then String (ascii_of_nat 209) (String (ascii_of_nat (m + 16)) (lower s''))
            else String c (String d (lower s''))
        end
      else String c (lower s')
  end.

(** [s.title()] on ASCII: a letter is a capital exactly when it follows no
    letter. *)
Fixpoint title_go (after_letter : bool) (s : string) : string :=
  match s with
  | EmptyString => EmptyString
  | String c s' =>
      let c' := if isalpha c
                then if after_letter
                     then (if isupper c then ascii_of_nat (code c + 32) else c)
                     else (if isupper c then c else ascii_of_nat (code c - 32))
                else c in
      String c' (title_go (isalpha c) s')
  end.

Definition title (s : string) : string := title_go false s.

(** [sub in s] *)
Fixpoint contains (sub s : string) : bool :=
  String.prefix sub s
  || match s with
     | EmptyString => false
     | String _ s' => contains sub s'
     end.

(** [s.replace(old, new)] for a non-empty [old]: the occurrences are
    found left to right and do not overlap.  [skip] counts the characters
    of a matched occurrence still to be dropped. *)
Fixpoint replace_go (old new s : string) (skip : nat) : string :=
  match s with
  | EmptyString => EmptyString
  | String c s' =>
      match skip with
      | S k => replace_go old new s' k
      | O =>
          if String.prefix old s
          then new +:+ replace_go old new s' (String.length old - 1)
          else String c (replace_go old new s' 0)
      end
  end.

(** [s.replace("", new)] puts [new] before every character and at the end. *)
Fixpoint intersperse (new s : string) : string :=
  match s with
  | EmptyString => new
  | String c s' => new +:+ String c (intersperse new s')
  end.

Definition replace (old new s : string) : string :=
  match old with
  | EmptyString => intersperse new s
  | String _ _ => replace_go old new s 0
  end.

(** [s.split(sep)] for a one-character separator: always at least one
    piece. *)
Fixpoint split (sep : ascii) (s : string) : list string :=
  match s with
  | EmptyString => [EmptyString]
  | String c s' =>
      if Ascii.eqb c sep then EmptyString :: split sep s'
      else match split sep s' with
           | [] => [String c EmptyString]
           | p :: ps => String c p :: ps
           end
  end.

(** [s.split(sep, 1)]: the text before the first separator, and the text
    after it when there is one. *)
Fixpoint split1 (sep : ascii) (s : string) : string * option string :=
  match s with
  | EmptyString => (EmptyString, None)
  | String c s' =>
      if Ascii.eqb c sep then (EmptyString, Some s')
      else let '(a, b) := split1 sep s' in (String c a, b)
  end.

(** [l[0]] and [l[-1]] of a result of [split], which is never empty. *)
Definition first (l : list string) : string := hd EmptyString l.
Definition last (l : list string) : string := List.last l EmptyString.

(** [sep.join(l)] *)
Definition join (sep : string) (l : list string) : string := String.concat sep l.

(** [s[:n]] for [n >= 0] *)
Definition prefix_of (n : nat) (s : string) : string := String.substring 0 n s.

(** [l[:n]] for any integer [n]: a negative [n] counts from the end. *)
Definition slice_to {A} (n : Z) (l : list A) : list A :=
  if 0 <=? n then take (Z.to_nat n) l
  else take (length l - Z.to_nat (- n)) l.

(** [str(n)] and the format [{n:03d}] for a natural number. *)
Definition str (n : nat) : string := pretty n.

Definition zfill3 (n : nat) : string :=
  let s := str n in
  String.concat EmptyString (repeat "0" (3 - String.length s)) +:+ s.

(** [os.path.join] of the POSIX flavour. *)
Definition path_join2 (a b : string) : string :=
  if String.prefix "/" b then b
  else if negb (truthy a) || String.prefix "/" (String.rev a) then a +:+ b
  else a +:+ "/" +:+ b.

Definition path_join (a : string) (ps : list string) : string :=
  fold_left path_join2 ps a.

(** The two regular expressions of the source, [(\d+(?:\.\d+)?)] and
    [(\d+)], as [re.search] applies them: the leftmost match, each [\d+]
    as long as it can be. *)
Fixpoint span_digits (s : string) : string * string :=
  match s with
  | EmptyString => (EmptyString, EmptyString)
  | String c s' =>
      if isdigit c then let '(d, r) := span_digits s' in (String c d, r)
      else (EmptyString, s)
  end.

Fixpoint search_digits (s : string) : option (string * string) :=
  match s with
  | EmptyString => None
  | String c s' => if isdigit c then Some (span_digits s) else search_digits s'
  end.

(** [re.search(r'(\d+)', s)]: [group(1)] of the match, if any. *)
Definition re_search_int (s : string) : option string :=
  fst <$> search_digits s.

(** [re.search(r'(\d+(?:\.\d+)?)', s)]: [group(1)] of the match, if any. *)
Definition re_search_decimal (s : string) : option string :=
  match search_digits s with
  | None => None
  | Some (d, EmptyString) => Some d
  | Some (d, String c r) =>
      if Ascii.eqb c "."
      then let '(f, _) := span_digits r in
           if truthy f then Some (d +:+ String c f) else Some d
      else Some d
  end.

(** [re.sub(r'tab=gallery&?', '', s)] *)
Fixpoint sub_tab_gallery_go (s : string) (skip : nat) : string :=
  match s with
  | EmptyString => EmptyString
  | String c s' =>
      match skip with
      | S k => sub_tab_gallery_go s' k
      | O =>
          if String.prefix "tab=gallery&" s then sub_tab_gallery_go s' 11
          else if String.prefix "tab=gallery" s then sub_tab_gallery_go s' 10
          else String c (sub_tab_gallery_go s' 0)
      end
  end.

Definition sub_tab_gallery (s : string) : string := sub_tab_gallery_go s 0.

End Py.

(** ** Exceptions, outcomes, and the data model *)

(** The exception classes the source names or can meet; all of them derive
    from Python's [Exception], so [except Exception] and a bare [except]
    catch every one. *)
Inductive exn_class : Type :=
| NoSuchElementException
| StaleElementReferenceException
| TimeoutException
| WebDriverException
| NameError
| ValueError
| AttributeError
| TypeError
| OSError
| OtherException.

Record exn : Type := Exn { exn_class_of : exn_class; exn_msg : string }.

Definition exn_class_eqb (a b : exn_class) : bool :=
  match a, b with
  | NoSuchElementException, NoSuchElementException
  | StaleElementReferenceException, StaleElementReferenceException
  | TimeoutException, TimeoutException
  | WebDriverException, WebDriverException
  | NameError, NameError
  | ValueError, ValueError
  | AttributeError, AttributeError
  | TypeError, TypeError
  | OSError, OSError
  | OtherException, OtherException => true
  | _, _ => false
  end.

(** What a call of the environment answers: a value, or a raised exception. *)
Definition answer (A : Type) : Type := (A + exn)%type.

(** What a run of the program yields.  [OutOfFuel] stands for a loop that
    has not finished within the steps granted; no handler catches it and no
    [finally] block runs after it. *)
Inductive outcome (A : Type) : Type :=
| Ok (a : A)
| Raise (e : exn)
| OutOfFuel.
Arguments Ok {A} a.
Arguments Raise {A} e.
Arguments OutOfFuel {A}.

Inductive level : Type := DEBUG | INFO | WARNING | ERROR | CRITICAL.

Module Review.
(** One entry of a record's [reviews] list. *)
Record t : Type := mk { author : string; text : string; rating : string; date : string }.
End Review.

(** A value of the [features] dict: [True] for a boolean feature, the text
    of a valued one. *)
Inductive feature_value : Type :=
| FBool (b : bool)
| FStr (s : string).

Module Place.
(** The dict [_extract_details] builds, key by key.  [search_query] is
    [None] until [run] stamps the query onto the record. *)
Record t : Type := mk {
    id : nat;
    name : string;
    category : string;
    description : string;
    features : list (string * feature_value);
    address : string;
    website : string;
    phone : string;
    rating : string;
    reviews_count : string;
    working_hours : list string;
    folder_path : string;
    link : string;
    social_media : list string;
    photos : list string;
    reviews : list Review.t;
    search_query : option string
}.
End Place.

(** A value of the flattened dicts the tabular exports build: a Python
    value of a record, or ([CJson]) the text [json.dumps] makes of one. *)
Inductive cell : Type :=
| CInt (n : Z)
| CStr (s : string)
| CBool (b : bool)
| CFeatures (f : list (string * feature_value))
| CStrings (l : list string)
| CReviews (l : list Review.t)
| CJson (c : cell).

Definition row : Type := list (string * cell).

(** What a file is written with. *)
Inductive content : Type :=
| Bytes (b : list Byte.byte)
| JsonDoc (data : list Place.t)
| CsvTable (rows : list row)
| XlsxTable (rows : list row)
| SqliteTable (table : string) (rows : list row).

Inductive By : Type := CSS_SELECTOR | XPATH.

Inductive condition : Type :=
| presence_of_element_located
| visibility_of_element_located.

(** ** The environment: browser, network, disk, clock

    One operation per external call of the source.  [W] is the state of the
    outside world, [E] the type of web elements; every operation may change
    the world, and every one but [time_sleep] may raise. *)
Class Env (W E : Type) : Type := {
  (* webdriver_manager and selenium.webdriver *)
  manager_install : string → W → answer string * W;
  webdriver_new : string → bool → string → W → answer unit * W;
  driver_quit : W → answer unit * W;
  driver_get : string → W → answer unit * W;
  driver_current_url : W → answer string * W;
  driver_find_element : By → string → W → answer E * W;
  driver_find_elements : By → string → W → answer (list E) * W;
  driver_execute_script : string → option E → W → answer unit * W;
  driver_get_cookies : W → answer (list (string * string)) * W;
  wait_until : condition → string → W → answer E * W;
  (* selenium's WebElement *)
  element_find_element : E → string → W → answer E * W;
  element_text : E → W → answer string * W;
  element_get_attribute : E → string → W → answer (option string) * W;
  element_clear : E → W → answer unit * W;
  element_send_keys : E → string → W → answer unit * W;
  (* time.sleep, in milliseconds *)
  time_sleep : nat → W → W;
  (* requests.Session.get: status code and payload *)
  session_get : string → list (string * string) → W → answer (Z * list Byte.byte) * W;
  (* PIL: Image.open of the payload and its encoding in the given format *)
  image_encode : string → list Byte.byte → W → answer (list Byte.byte) * W;
  (* os.makedirs(exist_ok=True), and the writing of a file *)
  os_makedirs : string → W → answer unit * W;
  file_write : string → content → W → answer unit * W;
  (* the progress callback, when one is set *)
  on_progress : nat → Z → string → W → answer unit * W
}.

(** ** Program state and the monad of the embedding *)

(** The scraper object: the arguments of [__init__] and the attributes set
    from outside.  [timestamp] is what [datetime.now()] gave when the
    [DataManager] was built. *)
Record scraper : Type := Scraper {
  headless : bool;
  max_results : Z;
  scrape_photos : bool;
  scrape_reviews : bool;
  photo_format : string;
  max_photos : Z;
  browser_type : string;
  progress_set : bool;
  base_dir : string;
  timestamp : string
}.

(** [YandexMapsScraper.__init__]: the two names are lower-cased, no
    callback is set, and the [DataManager] gets its default directory. *)
Definition YandexMapsScraper (headless : bool) (max_results : Z)
    (scrape_photos scrape_reviews : bool) (photo_format : string)
    (max_photos : Z) (browser_type : string) (now : string) : scraper :=
  {| headless := headless; max_results := max_results;
     scrape_photos := scrape_photos; scrape_reviews := scrape_reviews;
     photo_format := Py.lower photo_format; max_photos := max_photos;
     browser_type := Py.lower browser_type; progress_set := false;
     base_dir := "output_data"; timestamp := now |}.

(** What changes during a run: the outside world, what the logger was
    given, the files written so far, and the mutable attributes of the
    scraper ([self.driver] set or not, the cookies of [self.session], the
    session directory of the data manager).  [quits] counts the calls of
    [driver.quit()]. *)
Record state (W : Type) : Type := State {
  env : W;
  log : list (level * string);
  files : list (string * content);
  driver : bool;
  quits : nat;
  cookies : list (string * string);
  current_session_dir : string
}.
Arguments State {W}.
Arguments env {W}.
Arguments log {W}.
Arguments files {W}.
Arguments driver {W}.
Arguments quits {W}.
Arguments cookies {W}.
Arguments current_session_dir {W}.

Definition set_env {W} (w : W) (s : state W) : state W :=
  State w (log s) (files s) (driver s) (quits s) (cookies s) (current_session_dir s).

Definition add_log {W} (l : level) (msg : string) (s : state W) : state W :=
  State (env s) (log s ++ [(l, msg)])%list (files s) (driver s) (quits s) (cookies s)
        (current_session_dir s).

Definition add_file {W} (path : string) (c : content) (s : state W) : state W :=
  State (env s) (log s) (files s ++ [(path, c)])%list (driver s) (quits s) (cookies s)
        (current_session_dir s).

Definition set_driver {W} (s : state W) : state W :=
  State (env s) (log s) (files s) true (quits s) (cookies s) (current_session_dir s).

Definition add_quit {W} (s : state W) : state W :=
  State (env s) (log s) (files s) (driver s) (S (quits s)) (cookies s)
        (current_session_dir s).

Definition set_cookie {W} (name value : string) (s : state W) : state W :=
  State (env s) (log s) (files s) (driver s) (quits s)
        ((name, value) :: filter (λ c, negb (String.eqb c.1 name)) (cookies s))
        (current_session_dir s).

Definition set_session_dir {W} (dir : string) (s : state W) : state W :=
  State (env s) (log s) (files s) (driver s) (quits s) (cookies s) dir.

(** The state of a scraper just built, in the world [w]. *)
Definition fresh {W} (w : W) : state W := State w [] [] false 0 [] "".

Definition M (W A : Type) : Type := state W → outcome A * state W.

Definition ret {W A} (a : A) : M W A := λ s, (Ok a, s).

Definition bind {W A B} (m : M W A) (k : A → M W B) : M W B :=
  λ s, match m s with
       | (Ok a, s') => k a s'
       | (Raise e, s') => (Raise e, s')
       | (OutOfFuel, s') => (OutOfFuel, s')
       end.

Global Instance M_ret {W} : MRet (M W) := λ A, ret.
Global Instance M_bind {W} : MBind (M W) := λ A B k m, bind m k.

Definition raise {W A} (e : exn) : M W A := λ s, (Raise e, s).

Definition out_of_fuel {W A} : M W A := λ s, (OutOfFuel, s).

Definition gets {W A} (f : state W → A) : M W A := λ s, (Ok (f s), s).

Definition modify {W} (f : state W → state W) : M W unit := λ s, (Ok tt, f s).

(** A call of the environment. *)
Definition call {W A} (op : W → answer A * W) : M W A :=
  λ s, let '(r, w) := op (env s) in
       (match r with inl a => Ok a | inr e => Raise e end, set_env w s).

(** [time.sleep] *)
Definition sleep {W E} `{!Env W E} (ms : nat) : M W unit :=
  modify (λ s, set_env (time_sleep ms (env s)) s).

(** [logger.debug], [logger.info], ... *)
Definition logger {W} (l : level) (msg : string) : M W unit := modify (add_log l msg).

(** The body of a [try] with what it ended in, a value or an exception, as
    a value: the handlers are written by a [match] on it. *)
Definition attempt {W A} (m : M W A) : M W (answer A) :=
  λ s, match m s with
       | (Ok a, s') => (Ok (inl a), s')
       | (Raise e, s') => (Ok (inr e), s')
       | (OutOfFuel, s') => (OutOfFuel, s')
       end.

(** [try: m  except Exception as e: handler e] (a bare [except:] alike). *)
Definition try_except {W A} (m : M W A) (handler : exn → M W A) : M W A :=
  r ← attempt m;
  match r with
  | inl a => ret a
  | inr e => handler e
  end.

(** [try: m  except cls: handler]: any other exception goes on. *)
Definition try_except_on {W A} (cls : exn_class) (m : M W A) (handler : exn → M W A) : M W A :=
  try_except m (λ e, if exn_class_eqb (exn_class_of e) cls then handler e else raise e).

(** [try: m  finally: fin] *)
Definition try_finally {W A} (m : M W A) (fin : M W unit) : M W A :=
  r ← attempt m;
  fin;;
  match r with
  | inl a => ret a
  | inr e => raise e
  end.

(** How the body of a loop ends one round. *)
Inductive flow (B : Type) : Type :=
| Continue (b : B)
| Break (b : B).
Arguments Continue {B} b.
Arguments Break {B} b.

(** [for x in l: body], where the body updates local variables [b].  The
    loop gives the variables as they are when it ends, and the exception
    that ended it, if one did: the source keeps using the variables in the
    [except] clause around the loop.  In every loop of the source the body
    updates them as its last step, so a round that raises leaves them as
    they were. *)
Fixpoint for_ {W A B} (l : list A) (body : A → B → M W (flow B)) (b : B)
    : M W (B * option exn) :=
  match l with
  | [] => ret (b, None)
  | x :: l' =>
      λ s, match body x b s with
           | (Ok (Continue b'), s') => for_ l' body b' s'
           | (Ok (Break b'), s') => (Ok (b', None), s')
           | (Raise e, s') => (Ok (b, Some e), s')
           | (OutOfFuel, s') => (OutOfFuel, s')
           end
  end.

(** An exception that ended a loop goes on when no [try] is around it. *)
Definition reraise {W} (pending : option exn) : M W unit :=
  match pending with
  | Some e => raise e
  | None => ret tt
  end.

(** [enumerate(l)] *)
Fixpoint enumerate_from {A} (start : nat) (l : list A) : list (nat * A) :=
  match l with
  | [] => []
  | x :: l' => (start, x) :: enumerate_from (S start) l'
  end.

Definition enumerate {A} (l : list A) : list (nat * A) := enumerate_from 0 l.

(** ** src/decorators.py *)

Definition log_execution {W A} (func_name : string) (func : M W A) : M W A :=
  logger DEBUG ("▶️ Starting: " +:+ func_name);;
  try_except
    (result ← func;
     logger DEBUG ("✅ Completed: " +:+ func_name);;
     ret result)
    (λ e, logger ERROR ("❌ Error in " +:+ func_name +:+ ": " +:+ exn_msg e);;
          raise e).

Definition handle_errors {W A} (default_return : A) (raise_error : bool)
    (func_name : string) (func : M W A) : M W A :=
  try_except func
    (λ e, logger WARNING ("⚠️ Handled error in " +:+ func_name +:+ ": " +:+ exn_msg e);;
          if raise_error then raise e else ret default_return).

(** ** src/storage.py: class DataManager *)

(** Python dicts keep their keys in the order of first insertion. *)
Fixpoint dict_set {V} (k : string) (v : V) (d : list (string * V)) : list (string * V) :=
  match d with
  | [] => [(k, v)]
  | (k', v') :: d' => if String.eqb k' k then (k, v) :: d' else (k', v') :: dict_set k v d'
  end.

Definition dict_del {V} (k : string) (d : list (string * V)) : list (string * V) :=
  filter (λ kv, negb (String.eqb kv.1 k)) d.

Fixpoint str_filter (p : ascii → bool) (s : string) : string :=
  match s with
  | EmptyString => EmptyString
  | String c s' => if p c then String c (str_filter p s') else str_filter p s'
  end.

(** [c.isalnum() or c in (' ', '-', '_')] *)
Definition name_char (c : ascii) : bool := Py.isalnum c || Py.mem c " -_".

(** [c.isalnum() or c == '_'] *)
Definition column_char (c : ascii) : bool := Py.isalnum c || Py.mem c "_".

(** [open(path, ...)] and the writing of [c]: the file counts as written
    when the environment reports no error. *)
Definition write_file {W E} `{!Env W E} (path : string) (c : content) : M W unit :=
  call (file_write path c);;
  modify (add_file path c).

Definition setup_session_directory {W E} `{!Env W E} (self : scraper) (query : string)
    : M W string :=
  log_execution "setup_session_directory"
    (let safe_query := Py.strip (str_filter name_char query) in
     let folder_name := timestamp self +:+ "_" +:+ safe_query in
     modify (set_session_dir (Py.path_join (base_dir self) [folder_name]));;
     dir ← gets current_session_dir;
     call (os_makedirs dir);;
     ret dir).

Definition create_place_folder {W E} `{!Env W E} (place_name : string) (index : nat)
    : M W string :=
  log_execution "create_place_folder"
    (dir ← gets current_session_dir;
     if negb (Py.truthy dir)
     then raise (Exn ValueError "Session directory not set. Call setup_session_directory first.")
     else
       let safe_name := Py.prefix_of 50 (Py.strip (str_filter name_char place_name)) in
       let folder_name := Py.zfill3 index +:+ "_" +:+ safe_name in
       let place_path := Py.path_join dir [folder_name] in
       call (os_makedirs place_path);;
       call (os_makedirs (Py.path_join place_path ["photos"]));;
       ret place_path).

Definition save_json {W E} `{!Env W E} (data : list Place.t) : M W string :=
  log_execution "save_json"
    (dir ← gets current_session_dir;
     if negb (Py.truthy dir) then ret ""
     else
       let filepath := Py.path_join dir ["places_data.json"] in
       try_except
         (write_file filepath (JsonDoc data);;
          logger INFO ("💾 JSON saved: " +:+ filepath);;
          ret filepath)
         (λ e, logger ERROR ("Failed to save JSON: " +:+ exn_msg e);;
               ret "")).

(** [item.copy()]: the keys of a record in the order [_extract_details]
    and [run] set them. *)
Definition item_copy (item : Place.t) : row :=
  ([ ("id", CInt (Z.of_nat (Place.id item)));
    ("name", CStr (Place.name item));
    ("category", CStr (Place.category item));
    ("description", CStr (Place.description item));
    ("features", CFeatures (Place.features item));
    ("address", CStr (Place.address item));
    ("website", CStr (Place.website item));
    ("phone", CStr (Place.phone item));
    ("rating", CStr (Place.rating item));
    ("reviews_count", CStr (Place.reviews_count item));
    ("working_hours", CStrings (Place.working_hours item));
    ("folder_path", CStr (Place.folder_path item));
    ("link", CStr (Place.link item));
    ("social_media", CStrings (Place.social_media item));
    ("photos", CStrings (Place.photos item));
    ("reviews", CReviews (Place.reviews item)) ]
  ++ match Place.search_query item with
     | Some q => [("search_query", CStr q)]
     | None => []
     end)%list.

Definition feature_cell (v : feature_value) : cell :=
  match v with
  | FBool b => CBool b
  | FStr s => CStr s
  end.

(** The steps the three tabular exports share: counts and first entries
    of [photos] and [reviews]. *)
Definition flat_photos_summary (item : Place.t) (flat_item : row) : row :=
  let flat_item := dict_set "photos_count" (CInt (Z.of_nat (length (Place.photos item)))) flat_item in
  match Place.photos item with
  | first_photo :: _ => dict_set "primary_photo" (CStr first_photo) flat_item
  | [] => flat_item
  end.

Definition flat_reviews_summary (item : Place.t) (flat_item : row) : row :=
  let flat_item := dict_set "reviews_count" (CInt (Z.of_nat (length (Place.reviews item)))) flat_item in
  match Place.reviews item with
  | top :: _ => dict_set "top_review" (CStr (Py.prefix_of 200 (Review.text top))) flat_item
  | [] => flat_item
  end.

Definition flat_joined_lists (item : Place.t) (flat_item : row) : row :=
  let flat_item := dict_set "working_hours" (CStr (Py.join "; " (Place.working_hours item))) flat_item in
  dict_set "social_media" (CStr (Py.join "; " (Place.social_media item))) flat_item.

(** The flattening loop of [export_to_csv], repeated in [export_to_excel]. *)
Definition flatten_item (item : Place.t) : row :=
  let flat_item := item_copy item in
  let flat_item :=
    fold_left (λ d kv, dict_set ("feat_" +:+ str_filter column_char kv.1) (feature_cell kv.2) d)
              (Place.features item) flat_item in
  let flat_item := dict_del "features" flat_item in
  let flat_item := dict_del "photos" (flat_photos_summary item flat_item) in
  let flat_item := dict_del "reviews" (flat_reviews_summary item flat_item) in
  flat_joined_lists item flat_item.

(** The flattening loop of [save_to_sqlite]: the nested values are kept,
    as JSON text. *)
Definition flatten_item_sqlite (item : Place.t) : row :=
  let flat_item := item_copy item in
  let flat_item := dict_set "features" (CJson (CFeatures (Place.features item))) flat_item in
  let flat_item := dict_set "photos" (CJson (CStrings (Place.photos item)))
                            (flat_photos_summary item flat_item) in
  let flat_item := dict_set "reviews" (CJson (CReviews (Place.reviews item)))
                            (flat_reviews_summary item flat_item) in
  flat_joined_lists item flat_item.

(** [not data] for a list *)
Definition is_empty {A} (l : list A) : bool :=
  match l with [] => true | _ :: _ => false end.

Definition export_to_csv {W E} `{!Env W E} (data : list Place.t) : M W string :=
  log_execution "export_to_csv"
    (dir ← gets current_session_dir;
     if negb (Py.truthy dir) || is_empty data then ret ""
     else
       let filepath := Py.path_join dir ["places_data.csv"] in
       try_except
         (let flat_data := map flatten_item data in
          write_file filepath (CsvTable flat_data);;
          logger INFO ("📊 CSV exported: " +:+ filepath);;
          ret filepath)
         (λ e, logger ERROR ("Failed to export CSV: " +:+ exn_msg e);;
               ret "")).

Definition export_to_excel {W E} `{!Env W E} (data : list Place.t) : M W string :=
  log_execution "export_to_excel"
    (dir ← gets current_session_dir;
     if negb (Py.truthy dir) || is_empty data then ret ""
     else
       let filepath := Py.path_join dir ["places_data.xlsx"] in
       try_except
         (let flat_data := map flatten_item data in
          write_file filepath (XlsxTable flat_data);;
          logger INFO ("📊 Excel exported: " +:+ filepath);;
          ret filepath)
         (λ e, logger ERROR ("Failed to export Excel: " +:+ exn_msg e);;
               ret "")).

Definition save_to_sqlite {W E} `{!Env W E} (data : list Place.t) : M W string :=
  log_execution "save_to_sqlite"
    (dir ← gets current_session_dir;
     if negb (Py.truthy dir) || is_empty data then ret ""
     else
       let filepath := Py.path_join dir ["places_data.db"] in
       try_except
         (let flat_data := map flatten_item_sqlite data in
          write_file filepath (SqliteTable "places" flat_data);;
          logger INFO ("🗄️ SQLite saved: " +:+ filepath);;
          ret filepath)
         (λ e, logger ERROR ("Failed to save SQLite: " +:+ exn_msg e);;
               ret "")).

(** ** src/scraper.py: the extraction helpers *)

(** [v.strip()] for what [get_attribute] returned: [None] has no [strip]. *)
Definition strip_attr {W} (v : option string) : M W string :=
  match v with
  | Some a => ret (Py.strip a)
  | None => raise (Exn AttributeError "'NoneType' object has no attribute 'strip'")
  end.

(** [sub in v] for what [get_attribute] returned: [None] is not iterable. *)
Definition attr_contains {W} (sub : string) (v : option string) : M W bool :=
  match v with
  | Some a => ret (Py.contains sub a)
  | None => raise (Exn TypeError "argument of type 'NoneType' is not iterable")
  end.

Fixpoint _get_text {W E} `{!Env W E} (selectors : list string) : M W string :=
  match selectors with
  | [] => ret ""
  | selector :: rest =>
      found ← try_except_on NoSuchElementException
        (el ← call (driver_find_element CSS_SELECTOR selector);
         t ← call (element_text el);
         let text := Py.strip t in
         if Py.truthy text then ret (Some text)
         else
           a ← call (element_get_attribute el "textContent");
           text ← strip_attr a;
           if Py.truthy text then ret (Some text) else ret None)
        (λ _, ret None);
      match found with
      | Some text => ret text
      | None => _get_text rest
      end
  end.

Fixpoint _get_attribute {W E} `{!Env W E} (selectors : list string) (attribute : string)
    : M W string :=
  match selectors with
  | [] => ret ""
  | selector :: rest =>
      found ← try_except_on NoSuchElementException
        (el ← call (driver_find_element CSS_SELECTOR selector);
         val ← call (element_get_attribute el attribute);
         if Py.truthy_opt val then ret (Some (Py.strip (default "" val))) else ret None)
        (λ _, ret None);
      match found with
      | Some val => ret val
      | None => _get_attribute rest attribute
      end
  end.

(** The text of one element as [_get_text_list] reads it. *)
Definition text_or_content {W E} `{!Env W E} (el : E) : M W string :=
  t ← call (element_text el);
  let text := Py.strip t in
  if negb (Py.truthy text)
  then a ← call (element_get_attribute el "textContent"); strip_attr a
  else ret text.

Definition _get_text_list {W E} `{!Env W E} (selectors : list string) : M W (list string) :=
  '(results, _) ← for_ selectors
    (λ selector results,
       r ← attempt (call (driver_find_elements CSS_SELECTOR selector));
       match r with
       | inr _ => ret (Continue results)
       | inl elements =>
           '(results, pending) ← for_ elements
             (λ el results,
                text ← text_or_content el;
                ret (Continue (if Py.truthy text && negb (bool_decide (text ∈ results))
                               then (results ++ [text])%list else results)))
             results;
           match pending with
           | Some _ => ret (Continue results)
           | None => if negb (is_empty results) then ret (Break results)
                     else ret (Continue results)
           end
       end)
    [];
  ret results.

Definition _get_all_attributes {W E} `{!Env W E} (selector attribute : string)
    : M W (list string) :=
  r ← attempt (call (driver_find_elements CSS_SELECTOR selector));
  match r with
  | inr _ => ret []
  | inl elements =>
      '(results, _) ← for_ elements
        (λ el results,
           val ← call (element_get_attribute el attribute);
           ret (Continue (if Py.truthy_opt val
                          then (results ++ [Py.strip (default "" val)])%list
                          else results)))
        [];
      ret results
  end.

Definition _get_text_from_element {W E} `{!Env W E} (parent : E) (selector : string)
    : M W string :=
  try_except
    (el ← call (element_find_element parent selector);
     t ← call (element_text el);
     ret (Py.strip t))
    (λ _, ret "").

(** The numeric step of [_extract_rating]: what is returned for the text
    [_get_text] found. *)
Definition rating_number (rating_text : string) : string :=
  if Py.truthy rating_text
  then match Py.re_search_decimal rating_text with
       | Some m => m
       | None => ""
       end
  else "".

Definition _extract_rating {W E} `{!Env W E} : M W string :=
  rating_text ← _get_text [".business-rating-view__rating";
                           ".business-rating-badge-view__rating"];
  ret (rating_number rating_text).

(** The numeric step of [_extract_reviews_count]. *)
Definition count_number (count_text : string) : string :=
  if Py.truthy count_text
  then match Py.re_search_int count_text with
       | Some m => m
       | None => ""
       end
  else "".

Definition _extract_reviews_count {W E} `{!Env W E} : M W string :=
  count_text ← _get_text [".business-header-rating-view__text";
                          ".business-rating-view__count";
                          ".business-rating-badge-view__count";
                          ".business-header-rating-view__count";
                          "span.business-rating-amount-view";
                          ".orgpage-header-view__rating-label"];
  ret (count_number count_text).

Definition _extract_social_links {W E} `{!Env W E} : M W (list string) :=
  r ← attempt (call (driver_find_elements CSS_SELECTOR
                       ".business-contacts-view__social-button a"));
  match r with
  | inr _ => ret []
  | inl elements =>
      '(links, _) ← for_ elements
        (λ el links,
           href ← call (element_get_attribute el "href");
           ret (Continue (if Py.truthy_opt href
                          then (links ++ [default "" href])%list else links)))
        [];
      ret links
  end.

Definition overview_tabs_xpath : string :=
  "//div[contains(@class, 'tabs-view__tab')] | //div[contains(text(), 'Обзор')] | //div[contains(text(), 'Overview')] | //div[contains(@class, '_name_overview')]".

Definition _switch_to_overview {W E} `{!Env W E} : M W unit :=
  try_except
    (tabs ← call (driver_find_elements XPATH overview_tabs_xpath);
     '(_, pending) ← for_ tabs
       (λ tab _,
          t ← call (element_text tab);
          let text := Py.lower t in
          if Py.contains "обзор" text || Py.contains "overview" text
             || Py.contains "about" text
          then
            cls ← call (element_get_attribute tab "class");
            selected ← attr_contains "_selected" cls;
            (if negb selected
             then try_except
                    (call (driver_execute_script "arguments[0].click();" (Some tab));;
                     sleep 1500)
                    (λ _, ret tt)
             else ret tt);;
            ret (Break tt)
          else ret (Continue tt))
       tt;
     reraise pending)
    (λ _, ret tt).

(** ** src/scraper.py: the photo pipeline *)

(** The source of an image: the last candidate of [srcset] when there is
    one, the [src] attribute otherwise. *)
Definition resolve_src (src srcset : option string) : option string :=
  if Py.truthy_opt srcset
  then Some (Py.first (Py.split " " (Py.strip (Py.last (Py.split "," (default "" srcset))))))
  else src.

(** The last segment of the path of [src], without the query. *)
Definition url_path (src : string) : string :=
  if Py.contains "/" src then Py.last (Py.split "/" (Py.first (Py.split "?" src)))
  else src.

Definition is_icon_path (src : string) : bool :=
  let p := Py.lower (url_path src) in
  Py.contains "icon" p || Py.contains "logo" p || Py.contains "svg" p.

(** The rewriting of size markers, lines 635 to 643 of the source, in the
    order the source chains its [replace] calls. *)
Definition upgrade_src (src : string) : string :=
  let src :=
    if Py.contains "S_height" src || Py.contains "XXS" src || Py.contains "XS_height" src
    then Py.replace "XS_height" "XL"
           (Py.replace "XXS_height" "XL" (Py.replace "S_height" "XL" src))
    else src in
  let src := Py.replace "L_height" "XL" (Py.replace "M_height" "XL" src) in
  let src := Py.replace "600x600" "orig"
               (Py.replace "400x400" "orig" (Py.replace "200x200" "orig" src)) in
  Py.replace "priority-headline-background" "XL" src.

(** [resp.status_code == 200 and len(resp.content) > 1000] *)
Definition accepted (status_code : Z) (payload : list Byte.byte) : bool :=
  (status_code =? 200) && (1000 <? Z.of_nat (length payload)).

(** [self.photo_format in ["webp", "png"] and self.photo_format != "jpg"] *)
Definition converts (self : scraper) : bool :=
  (String.eqb (photo_format self) "webp" || String.eqb (photo_format self) "png")
  && negb (String.eqb (photo_format self) "jpg").

Definition photo_filename (number : nat) (ext : string) : string :=
  "photo_" +:+ Py.str number +:+ "." +:+ ext.

Definition photo_path (folder : string) (number : nat) (ext : string) : string :=
  Py.path_join folder ["photos"; photo_filename number ext].

(** The [try] block of the photo loop: fetch image [i] (counted from 0)
    and save it. *)
Definition download_photo {W E} `{!Env W E} (self : scraper) (folder : string) (i : nat)
    (src : string) (downloaded_paths : list string) : M W (list string) :=
  try_except
    (let path := photo_path folder (i + 1) "jpg" in
     jar ← gets cookies;
     '(status_code, payload) ← call (session_get src jar);
     logger DEBUG ("Image " +:+ Py.str (i + 1) +:+ ": HTTP " +:+ pretty status_code
                   +:+ ", size " +:+ Py.str (length payload) +:+ " bytes");;
     if accepted status_code payload
     then
       if converts self
       then
         r ← attempt
               (encoded ← call (image_encode (photo_format self) payload);
                let path := photo_path folder (i + 1) (photo_format self) in
                write_file path (Bytes encoded);;
                ret path);
         match r with
         | inl path =>
             logger INFO ("📷 Saved photo " +:+ Py.str (i + 1) +:+ " as "
                          +:+ photo_format self +:+ ": "
                          +:+ photo_filename (i + 1) (photo_format self));;
             ret (downloaded_paths ++ [path])%list
         | inr conversion_error =>
             logger WARNING ("Failed to convert image " +:+ Py.str (i + 1)
                             +:+ ", saving as original: " +:+ exn_msg conversion_error);;
             let path := photo_path folder (i + 1) "jpg" in
             write_file path (Bytes payload);;
             ret (downloaded_paths ++ [path])%list
         end
       else
         write_file path (Bytes payload);;
         logger INFO ("📷 Downloaded photo " +:+ Py.str (i + 1) +:+ ": "
                      +:+ photo_filename (i + 1) "jpg");;
         ret (downloaded_paths ++ [path])%list
     else
       logger DEBUG ("Image " +:+ Py.str (i + 1) +:+ ": skipped (status="
                     +:+ pretty status_code +:+ ", size="
                     +:+ Py.str (length payload) +:+ ")");;
       ret downloaded_paths)
    (λ e, logger WARNING ("Failed to download photo " +:+ Py.str (i + 1) +:+ ": "
                          +:+ exn_msg e);;
          ret downloaded_paths).

(** One round of the photo loop. *)
Definition photo_round {W E} `{!Env W E} (self : scraper) (folder : string)
    (candidate : nat * E) (downloaded_paths : list string) : M W (flow (list string)) :=
  let '(i, img) := candidate in
  src ← call (element_get_attribute img "src");
  srcset ← call (element_get_attribute img "srcset");
  let src := resolve_src src srcset in
  if negb (Py.truthy_opt src)
  then logger DEBUG ("Image " +:+ Py.str (i + 1) +:+ ": no src attribute");;
       ret (Continue downloaded_paths)
  else
    let src := default "" src in
    if is_icon_path src
    then logger DEBUG ("Image " +:+ Py.str (i + 1) +:+ ": skipping (icon/logo/svg in path)");;
         ret (Continue downloaded_paths)
    else
      logger DEBUG ("Image " +:+ Py.str (i + 1) +:+ " original src: "
                    +:+ Py.prefix_of 80 src +:+ "...");;
      paths ← download_photo self folder i (upgrade_src src) downloaded_paths;
      ret (Continue paths).

Definition gallery_images_selector : string :=
  "img.media-wrapper__media, .media-wrapper__media[src], .media-gallery img, .business-photos-view__photo-image img, .orgpage-photos-view__photo img".

Definition _extract_photos {W E} `{!Env W E} (self : scraper) (folder : string)
    : M W (list string) :=
  r ← attempt
        (jar ← call driver_get_cookies;
         modify (λ s, fold_left (λ s c, set_cookie c.1 c.2 s) jar s);;
         imgs ← call (driver_find_elements CSS_SELECTOR gallery_images_selector);
         logger INFO ("Found " +:+ Py.str (length imgs) +:+ " potential images in gallery");;
         ret imgs);
  match r with
  | inr e =>
      logger WARNING ("Photo extraction error: " +:+ exn_msg e);;
      ret []
  | inl imgs =>
      '(downloaded_paths, pending) ←
        for_ (enumerate (Py.slice_to (max_photos self) imgs)) (photo_round self folder) [];
      match pending with
      | Some e =>
          logger WARNING ("Photo extraction error: " +:+ exn_msg e);;
          ret downloaded_paths
      | None => ret downloaded_paths
      end
  end.

(** ** src/scraper.py: the review pipeline *)

Definition reviews_tabs_xpath : string :=
  "//div[contains(@class, 'tabs-view__tab')] | //div[contains(text(), 'Отзывы')] | //div[contains(text(), 'Reviews')] | //div[contains(@class, '_name_reviews')]".

(** [rating != "" and (text != "" or author != "")], as line 766 tests it. *)
Definition review_kept (r : Review.t) : bool :=
  (Py.truthy (Review.text r) || Py.truthy (Review.author r)) && Py.truthy (Review.rating r).

(** The rating of one review: the rating text, else the number in the
    [aria-label] of the stars. *)
Definition review_rating {W E} `{!Env W E} (item : E) : M W string :=
  rating_text ← try_except
    (rating_el ← call (element_find_element item ".business-rating-badge-view__rating-text");
     t ← call (element_text rating_el);
     ret (Py.strip t))
    (λ _, ret "");
  if negb (Py.truthy rating_text)
  then
    try_except
      (stars_el ← call (element_find_element item ".business-rating-badge-view__stars");
       aria_label ← call (element_get_attribute stars_el "aria-label");
       if Py.truthy_opt aria_label
       then match Py.re_search_decimal (default "" aria_label) with
            | Some m => ret m
            | None => ret rating_text
            end
       else ret rating_text)
      (λ _, ret rating_text)
  else ret rating_text.

(** One round of the review loop. *)
Definition review_round {W E} `{!Env W E} (item : E) (reviews : list Review.t)
    : M W (flow (list Review.t)) :=
  try_except
    (rating_text ← review_rating item;
     author_text ← _get_text_from_element item
       ".business-review-view__author-name span[itemprop='name']";
     author_text ← (if negb (Py.truthy author_text)
                    then _get_text_from_element item ".business-review-view__author-name"
                    else ret author_text);
     review_body ← _get_text_from_element item
       ".business-review-view__body .spoiler-view__text";
     review_body ← (if negb (Py.truthy review_body)
                    then _get_text_from_element item ".business-review-view__body"
                    else ret review_body);
     date ← _get_text_from_element item ".business-review-view__date";
     let r := Review.mk author_text review_body rating_text date in
     if review_kept r then ret (Continue (reviews ++ [r])%list)
     else ret (Continue reviews))
    (λ e, logger DEBUG ("Failed to parse individual review: " +:+ exn_msg e);;
          ret (Continue reviews)).

(** The part of [_extract_reviews] before the loop: open the reviews tab
    and collect the review items. *)
Definition open_reviews {W E} `{!Env W E} : M W (list E) :=
  tabs ← call (driver_find_elements XPATH reviews_tabs_xpath);
  '(_, pending) ← for_ tabs
    (λ tab _,
       t ← call (element_text tab);
       is_reviews ← (if Py.contains "отзывы" (Py.lower t) then ret true
                     else t' ← call (element_text tab);
                          ret (Py.contains "reviews" (Py.lower t')));
       if is_reviews : bool
       then
         cls ← call (element_get_attribute tab "class");
         selected ← attr_contains "_selected" cls;
         (if negb selected
          then call (driver_execute_script "arguments[0].click();" (Some tab));;
               sleep 2000
          else ret tt);;
         ret (Break tt)
       else ret (Continue tt))
    tt;
  reraise pending;;
  review_items ← call (driver_find_elements CSS_SELECTOR ".business-review-view");
  if is_empty review_items
  then call (driver_execute_script "window.scrollBy(0, 500);" None);;
       sleep 1000;;
       call (driver_find_elements CSS_SELECTOR ".business-review-view")
  else ret review_items.

Definition _extract_reviews {W E} `{!Env W E} : M W (list Review.t) :=
  r ← attempt open_reviews;
  match r with
  | inr e =>
      logger WARNING ("Review extraction error: " +:+ exn_msg e);;
      ret []
  | inl review_items =>
      '(reviews, pending) ← for_ (take 5 review_items) review_round [];
      match pending with
      | Some e =>
          logger WARNING ("Review extraction error: " +:+ exn_msg e);;
          ret reviews
      | None => ret reviews
      end
  end.

(** ** src/scraper.py: [_extract_details] *)

(** STEP 1: the name, from the header or from the page's metadata. *)
Definition details_name {W E} `{!Env W E} : M W string :=
  name ← _get_text [".orgpage-header-view__title";
                    ".card-title-view__title";
                    "h1";
                    ".business-card-title-view__title"];
  if negb (Py.truthy name)
  then _get_attribute ["meta[itemprop='name']"] "content"
  else ret name.

(** STEP 2: the category, from the category links (at most three, no
    repeats), else from the header. *)
Definition details_category {W E} `{!Env W E} : M W string :=
  category ← try_except
    (category_links ← call (driver_find_elements CSS_SELECTOR "a[href*='/category/']");
     '(categories, pending) ← for_ category_links
       (λ link categories,
          t ← call (element_text link);
          let text := Py.strip t in
          ret (Continue (if Py.truthy text && negb (bool_decide (text ∈ categories))
                         then (categories ++ [text])%list else categories)))
       [];
     reraise pending;;
     if negb (is_empty categories)
     then ret (Py.join ", " (take 3 categories))
     else ret "")
    (λ _, ret "");
  if negb (Py.truthy category)
  then _get_text [".orgpage-header-view__categories a";
                  ".business-categories-view__category";
                  ".business-card-title-view__category";
                  ".card-title-view__category"]
  else ret category.

(** STEP 4, first half: click what opens the gallery, if it is there. *)
Definition open_gallery {W E} `{!Env W E} : M W unit :=
  try_except
    (photo_gallery_buttons ← call (driver_find_elements CSS_SELECTOR
       ".business-photos-view__more, .business-card-title-view__photo, .business-photos-view");
     match photo_gallery_buttons with
     | button :: _ =>
         logger INFO "Opening photo gallery...";;
         call (driver_execute_script "arguments[0].click();" (Some button));;
         sleep 3500
     | [] => ret tt
     end)
    (λ e, logger DEBUG ("Failed to open photo gallery: " +:+ exn_msg e)).

(** [f"{base}gallery/?{qry}"], or [f"{current_url.rstrip('/')}/gallery/"] *)
Definition gallery_url_of (current_url : string) : string :=
  if Py.contains "?" current_url
  then let '(base, qry) := Py.split1 "?" current_url in
       base +:+ "gallery/?" +:+ default "" qry
  else Py.rstrip "/" current_url +:+ "/gallery/".

(** STEP 4, second half: go to the gallery URL when no image shows. *)
Definition goto_gallery {W E} `{!Env W E} : M W unit :=
  media ← call (driver_find_elements CSS_SELECTOR ".media-wrapper__media");
  if is_empty media
  then
    current_url ← call driver_current_url;
    if negb (Py.contains "/gallery/" current_url)
    then
      try_except
        (let gallery_url := gallery_url_of current_url in
         logger INFO ("Navigating to gallery URL: " +:+ gallery_url);;
         call (driver_get gallery_url);;
         sleep 3500)
        (λ e, logger DEBUG ("Failed to navigate to gallery URL: " +:+ exn_msg e))
    else ret tt
  else ret tt.

(** STEP 6: back to the overview when the browser is on the gallery. *)
Definition leave_gallery {W E} `{!Env W E} : M W unit :=
  url ← call driver_current_url;
  if Py.contains "/gallery/" url
  then
    url' ← call driver_current_url;
    let main_url := Py.replace "/gallery/" "/" url' in
    call (driver_get main_url);;
    sleep 2000;;
    _switch_to_overview;;
    call (driver_execute_script "window.scrollBy(0, 1000);" None);;
    sleep 1000
  else ret tt.

(** The [features] dict: boolean features, then valued ones. *)
Definition details_features {W E} `{!Env W E} : M W (list (string * feature_value)) :=
  r ← attempt (call (driver_find_elements CSS_SELECTOR ".business-features-view__bool-text"));
  match r with
  | inr e =>
      logger DEBUG ("Features extraction error: " +:+ exn_msg e);;
      ret []
  | inl bool_features =>
      '(features, pending) ← for_ bool_features
        (λ bf features,
           t ← call (element_text bf);
           let text := Py.strip t in
           ret (Continue (if Py.truthy text then dict_set text (FBool true) features
                          else features)))
        [];
      match pending with
      | Some e =>
          logger DEBUG ("Features extraction error: " +:+ exn_msg e);;
          ret features
      | None =>
          r ← attempt (call (driver_find_elements CSS_SELECTOR ".business-features-view__valued"));
          match r with
          | inr e =>
              logger DEBUG ("Features extraction error: " +:+ exn_msg e);;
              ret features
          | inl valued_features =>
              '(features, pending) ← for_ valued_features
                (λ vf features,
                   try_except
                     (title_el ← call (element_find_element vf
                                         ".business-features-view__valued-title");
                      t ← call (element_text title_el);
                      let title := Py.rstrip ":" (Py.strip t) in
                      value_el ← call (element_find_element vf
                                         ".business-features-view__valued-value");
                      v ← call (element_text value_el);
                      let value := Py.strip v in
                      ret (Continue (if Py.truthy title && Py.truthy value
                                     then dict_set title (FStr value) features
                                     else features)))
                     (λ _, ret (Continue features)))
                features;
              match pending with
              | Some e =>
                  logger DEBUG ("Features extraction error: " +:+ exn_msg e);;
                  ret features
              | None => ret features
              end
          end
      end
  end.

Definition details_address {W E} `{!Env W E} : M W string :=
  address ← _get_attribute ["meta[itemprop='address']"] "content";
  if negb (Py.truthy address)
  then _get_text [".business-contacts-view__address-link";
                  ".business-contacts-view__address";
                  "[data-id='address']"]
  else ret address.

Definition details_website {W E} `{!Env W E} : M W string :=
  website ← _get_attribute [".business-urls-view__link"; "a[itemprop='url']"] "href";
  if negb (Py.truthy website)
  then _get_text [".business-urls-view__text"]
  else ret website.

Definition details_working_hours {W E} `{!Env W E} : M W (list string) :=
  working_hours ← _get_all_attributes "meta[itemprop='openingHours']" "content";
  if is_empty working_hours
  then
    working_hours_text ← _get_text [".business-working-status-view__text"];
    if Py.truthy working_hours_text then ret [working_hours_text]
    else ret working_hours
  else ret working_hours.

(** STEPS 3 to 6: the photos of a listing, when photos are asked for. *)
Definition details_photos {W E} `{!Env W E} (self : scraper) (place_folder : string)
    : M W (list string) :=
  if scrape_photos self
  then
    open_gallery;;
    goto_gallery;;
    photos ← _extract_photos self place_folder;
    leave_gallery;;
    ret photos
  else ret [].

Definition _extract_details {W E} `{!Env W E} (self : scraper) (index : nat) (query : string)
    : M W (option Place.t) :=
  handle_errors None false "_extract_details"
    (loaded ← try_except_on TimeoutException
       (call (wait_until visibility_of_element_located
                ".card-title-view__title, .orgpage-header-view__title, .business-card-view");;
        ret true)
       (λ _, logger WARNING "Details panel didn't load in time.";;
             ret false);
     if negb loaded then ret None
     else
       _switch_to_overview;;
       call (driver_execute_script "window.scrollBy(0, 1000);" None);;
       sleep 1000;;
       call (driver_execute_script "window.scrollBy(0, 1000);" None);;
       sleep 1000;;
       name ← details_name;
       category ← details_category;
       description ← _get_text [".orgpage-header-view__description";
                                ".business-card-title-view__description";
                                ".card-title-view__description";
                                ".business-card-title-view__subtitle";
                                ".orgpage-header-view__subtitle"];
       place_folder ← create_place_folder
         (if Py.truthy name then name else "Place_" +:+ Py.str index) index;
       photos ← details_photos self place_folder;
       features ← details_features;
       address ← details_address;
       website ← details_website;
       phone ← _get_text ["span[itemprop='telephone']";
                          ".card-phones-view__number";
                          ".business-phone-view__number"];
       working_hours ← details_working_hours;
       social_media ← _extract_social_links;
       rating ← _extract_rating;
       reviews_count ← _extract_reviews_count;
       link ← call driver_current_url;
       reviews ← (if scrape_reviews self then _extract_reviews else ret []);
       ret (Some (Place.mk index name category description features address website
                           phone rating reviews_count working_hours place_folder link
                           social_media photos reviews None))).

(** ** src/scraper.py: listing discovery *)

Definition snippet_link_selectors : list string :=
  [".search-snippet-view__link-overlay";
   ".search-snippet-view__title-link";
   "a.search-snippet-view__link-overlay";
   ".search-snippet-view__body a"].

(** The link of one snippet: the first selector that gives a non-empty
    [href]. *)
Definition snippet_href {W E} `{!Env W E} (el : E) : M W (option string) :=
  '(href, pending) ← for_ snippet_link_selectors
    (λ sel href,
       try_except
         (link_el ← call (element_find_element el sel);
          href ← call (element_get_attribute link_el "href");
          if Py.truthy_opt href then ret (Break href) else ret (Continue href))
         (λ _, ret (Continue href)))
    None;
  reraise pending;;
  ret href.

(** The links of the snippets now rendered, added to the set. *)
Definition collect_links {W E} `{!Env W E} (elements : list E) (links : gset string)
    : M W (gset string) :=
  '(links, pending) ← for_ elements
    (λ el links,
       try_except
         (href ← snippet_href el;
          ret (Continue (if Py.truthy_opt href then links ∪ {[ default "" href ]}
                         else links)))
         (λ _, ret (Continue links)))
    links;
  reraise pending;;
  ret links.

(** Which of the three [return] statements ended the loop: line 253 (the
    target is reached), line 259 (no new snippet for [max_attempts]
    rounds), line 273 (after the [break] of a failed scroll). *)
Inductive scroll_exit : Type := TargetReached | Stalled | ScrollFailed.

(** What the loop returns, [found], with how it ended and the snippet
    counts the rounds saw, oldest first; the last two are kept for the
    statements about the loop and are not part of the Python value. *)
Record discovery : Type := Discovery {
  exit_by : scroll_exit;
  counts : list nat;
  found : list string
}.

Definition max_attempts : nat := 5.

(** [list(links)[:self.max_results]] *)
Definition first_links (self : scraper) (links : gset string) : list string :=
  Py.slice_to (max_results self) (elements links).

(** The [while True] loop of [_scroll_and_collect_results], one round per
    unit of [fuel]. *)
Fixpoint scroll_loop {W E} `{!Env W E} (fuel : nat) (self : scraper)
    (last_count attempts : nat) (links : gset string) (seen : list nat)
    : M W discovery :=
  match fuel with
  | O => out_of_fuel
  | S fuel' =>
      elements ← call (driver_find_elements CSS_SELECTOR ".search-snippet-view");
      let current_count := length elements in
      let seen := (seen ++ [current_count])%list in
      links ← collect_links elements links;
      if max_results self <=? Z.of_nat (size links)
      then
        logger INFO ("✅ Collected " +:+ Py.str (size links) +:+ " links (Target: "
                     +:+ pretty (max_results self) +:+ ")");;
        ret (Discovery TargetReached seen (first_links self links))
      else
        let scroll attempts :=
          logger INFO ("   Loaded " +:+ Py.str current_count +:+ " snippets, "
                       +:+ Py.str (size links) +:+ " unique links...");;
          r ← attempt
                (match last elements with
                 | Some el =>
                     call (driver_execute_script "arguments[0].scrollIntoView(true);" (Some el));;
                     sleep 1500
                 | None => ret tt
                 end);
          match r with
          | inr _ => ret (Discovery ScrollFailed seen (first_links self links))
          | inl _ => scroll_loop fuel' self current_count attempts links seen
          end in
        if (current_count =? last_count)%nat
        then
          let attempts := (attempts + 1)%nat in
          if (max_attempts <=? attempts)%nat
          then
            logger WARNING "⚠️ No new results loaded after multiple scrolls. Stopping.";;
            ret (Discovery Stalled seen (first_links self links))
          else scroll attempts
        else scroll 0%nat
  end.

Definition _scroll_and_collect_results {W E} `{!Env W E} (fuel : nat) (self : scraper)
    : M W (list string) :=
  logger INFO "📜 Scrolling to load results...";;
  d ← scroll_loop fuel self 0 0 ∅ [];
  ret (found d).

(** ** src/scraper.py: the session orchestrator *)

(** [sys] is not imported in [scraper.py]: the branches for Chrome and
    Safari read [sys.platform], which raises [NameError], before any
    browser is started. *)
Definition sys_platform {W A} : M W A :=
  raise (Exn NameError "name 'sys' is not defined").

Definition setup_driver {W E} `{!Env W E} (self : scraper) : M W unit :=
  log_execution "setup_driver"
    ((if String.eqb (browser_type self) "chrome" then sys_platform
      else if String.eqb (browser_type self) "firefox" then
        path ← call (manager_install "firefox");
        call (webdriver_new "firefox" (headless self) path);;
        modify set_driver
      else if String.eqb (browser_type self) "edge" then
        path ← call (manager_install "edge");
        call (webdriver_new "edge" (headless self) path);;
        modify set_driver
      else if String.eqb (browser_type self) "safari" then sys_platform
      else raise (Exn ValueError ("Unsupported browser: " +:+ browser_type self)));;
     logger INFO ("🖥️  " +:+ Py.title (browser_type self) +:+ " WebDriver initialized")).

(** [Keys.RETURN], the code point U+E006 in UTF-8. *)
Definition Keys_RETURN : string :=
  String (ascii_of_nat 238) (String (ascii_of_nat 128) (String (ascii_of_nat 134) EmptyString)).

Definition _perform_search {W E} `{!Env W E} (query : string) : M W unit :=
  try_except_on TimeoutException
    (search_input ← call (wait_until presence_of_element_located
                            "input.input__control, input[type='text']");
     call (element_clear search_input);;
     call (element_send_keys search_input query);;
     call (element_send_keys search_input Keys_RETURN);;
     call (wait_until presence_of_element_located
             ".search-list-view, .search-snippet-view");;
     sleep 2000)
    (λ e, logger ERROR "Search box not found or results didn't load.";;
          raise e).

(** [if self.on_progress: self.on_progress(done, total, msg)] *)
Definition progress {W E} `{!Env W E} (self : scraper) (done : nat) (total : Z)
    (msg : string) : M W unit :=
  if progress_set self then call (on_progress done total msg) else ret tt.

(** The URL a listing is opened at: the gallery markers are taken out. *)
Definition normalize_link (link : string) : string :=
  let main_url := link in
  let main_url := if Py.contains "/gallery/" main_url
                  then Py.replace "/gallery/" "/" main_url else main_url in
  if Py.contains "tab=gallery" main_url then Py.sub_tab_gallery main_url else main_url.

(** One round of the loop over the links. *)
Definition process_place {W E} `{!Env W E} (self : scraper) (query : string)
    (total_links : nat) (entry : nat * string) (extracted_data : list Place.t)
    : M W (flow (list Place.t)) :=
  let '(i, link) := entry in
  let msg := "Processing place " +:+ Py.str (i + 1) +:+ "/" +:+ Py.str total_links in
  logger INFO ("🏢 " +:+ msg +:+ "...");;
  progress self i (Z.of_nat total_links) msg;;
  try_except
    (call (driver_get (normalize_link link));;
     sleep 3000;;
     place_data ← _extract_details self (i + 1) query;
     match place_data with
     | Some d => ret (Continue (extracted_data ++ [d])%list)
     | None => ret (Continue extracted_data)
     end)
    (λ e, logger ERROR ("Error processing place " +:+ Py.str (i + 1) +:+ ": " +:+ exn_msg e);;
          ret (Continue extracted_data)).

(** [item['search_query'] = query] *)
Definition stamp (query : string) (item : Place.t) : Place.t :=
  Place.mk (Place.id item) (Place.name item) (Place.category item)
           (Place.description item) (Place.features item) (Place.address item)
           (Place.website item) (Place.phone item) (Place.rating item)
           (Place.reviews_count item) (Place.working_hours item)
           (Place.folder_path item) (Place.link item) (Place.social_media item)
           (Place.photos item) (Place.reviews item) (Some query).

(** Lines 177 to 180: the four exports, one after the other. *)
Definition save_results {W E} `{!Env W E} (extracted_data : list Place.t) : M W unit :=
  save_json extracted_data;;
  export_to_csv extracted_data;;
  save_to_sqlite extracted_data;;
  export_to_excel extracted_data;;
  ret tt.

(** The [try] block of [run]. *)
Definition run_body {W E} `{!Env W E} (fuel : nat) (self : scraper) (query : string)
    : M W unit :=
  setup_driver self;;
  setup_session_directory self query;;
  call (driver_get "https://yandex.ru/maps");;
  logger INFO ("🔍 Searching for: " +:+ query);;
  _perform_search query;;
  progress self 0 (max_results self) "Scrolling and collecting links...";;
  place_links ← _scroll_and_collect_results fuel self;
  let total_links := length place_links in
  logger INFO ("📍 Found " +:+ Py.str total_links +:+ " places to process");;
  '(extracted_data, pending) ←
    for_ (enumerate place_links) (process_place self query total_links) [];
  reraise pending;;
  progress self total_links (Z.of_nat total_links) "Saving data...";;
  save_results (map (stamp query) extracted_data).

(** The [finally] block of [run]. *)
Definition quit_driver {W E} `{!Env W E} : M W unit :=
  created ← gets driver;
  if created : bool
  then modify add_quit;;
       call driver_quit
  else ret tt.

Definition run {W E} `{!Env W E} (fuel : nat) (self : scraper) (query : string) : M W unit :=
  log_execution "run"
    (try_finally
       (try_except
          (run_body fuel self query)
          (λ e, logger CRITICAL ("Critical failure: " +:+ exn_msg e)))
       quit_driver).

(** ** main.py *)

Module Args.
(** What [argparse] gives [main]. *)
Record t : Type := mk { query : string; max : Z; headless : bool; screenshots : bool }.
End Args.

Section Main.
Context {W E : Type} `{!Env W E}.

(** [os.path.exists], and [WebsiteScreenshotter(csv_path).process_websites()],
    the screenshot stage, which drives a browser of its own: any program. *)
Variable os_path_exists : string → W → bool.
Variable process_websites : string → M W unit.

(** [main], from the parsed arguments on; the scraper is built with the
    defaults of [__init__], the browser among them.  The banner [main]
    prints is not part of the state. *)
Definition main (fuel : nat) (args : Args.t) (now : string) : M W unit :=
  let scraper := YandexMapsScraper (Args.headless args) (Args.max args) true true "jpg" 5
                                   "chrome" now in
  run fuel scraper (Args.query args);;
  if Args.screenshots args
  then
    session_dir ← gets current_session_dir;
    if Py.truthy session_dir
    then
      let csv_path := Py.path_join session_dir ["places_data.csv"] in
      found ← gets (λ s, os_path_exists csv_path (env s));
      if found : bool
      then logger INFO "📸 Starting website screenshots...";;
           process_websites csv_path
      else logger WARNING "No CSV found to screenshot."
    else ret tt
  else ret tt.

End Main.

(** ** streamlit_app.py: [show_gallery] *)

(** [all(p(c) for c in s)] *)
Fixpoint str_forall (p : ascii → bool) (s : string) : bool :=
  match s with
  | EmptyString => true
  | String c s' => p c && str_forall p s'
  end.

(** [s.isdigit()]: at least one character, and all of them digits. *)
Definition str_isdigit (s : string) : bool := Py.truthy s && str_forall Py.isdigit s.

(** [int(s)] for a string of digits. *)
Fixpoint int_go (acc : nat) (s : string) : nat :=
  match s with
  | EmptyString => acc
  | String c s' => int_go (10 * acc + (Py.code c - 48)) s'
  end.

Definition int (s : string) : nat := int_go 0 s.

(** Lines 70 to 72: the index in front of the first underscore of a
    folder name. *)
Definition folder_index (place_dir : string) : option nat :=
  let idx_str := Py.first (Py.split "_" place_dir) in
  if str_isdigit idx_str then Some (int idx_str) else None.

(** Line 85: the name a place is shown under. *)
Definition display_name (place_dir : string) : string :=
  if Py.contains "_" place_dir then default "" (Py.split1 "_" place_dir).2 else place_dir.

Definition items_per_page : Z := 10.

(** [(total_places + items_per_page - 1) // items_per_page] *)
Definition total_pages (total_places : Z) : Z :=
  (total_places + items_per_page - 1) `div` items_per_page.

Definition start_idx (current_page : Z) : Z := (current_page - 1) * items_per_page.

Definition end_idx (current_page total_places : Z) : Z :=
  Z.min (start_idx current_page + items_per_page) total_places.

(** A bound of a slice [l[a:b]]: a negative one counts from the end, and
    both are cut to the list. *)
Definition slice_bound (len : nat) (i : Z) : nat :=
  if i <? 0 then Z.to_nat (Z.max (i + Z.of_nat len) 0) else Z.to_nat (Z.min i (Z.of_nat len)).

(** [l[a:b]] *)
Definition slice {A} (a b : Z) (l : list A) : list A :=
  take (slice_bound (length l) b - slice_bound (length l) a)
       (drop (slice_bound (length l) a) l).

(** [place_dirs[start_idx:end_idx]] *)
Definition current_places {A} (place_dirs : list A) (current_page : Z) : list A :=
  slice (start_idx current_page)
        (end_idx current_page (Z.of_nat (length place_dirs))) place_dirs.

(** The two buttons under the gallery, lines 111 to 122; each is shown,
    and so can be pressed, only under its condition. *)
Inductive button : Type := Previous | Next.

Definition press (b : button) (total_pages current_page : Z) : Z :=
  if 1 <? total_pages
  then match b with
       | Previous => if 1 <? current_page then current_page - 1 else current_page
       | Next => if current_page <? total_pages then current_page + 1 else current_page
       end
  else current_page.

(** ** A scripted environment, for running the program on concrete pages

    A page that does not change: what each selector finds, what each URL
    answers, and which operations fail.  Elements are trees: their text
    (or the exception reading it raises), their attributes, and what
    selectors find below them. *)

#[warnings="-register-all"]
Inductive node : Type :=
| Node (text : answer string) (attrs : list (string * string))
       (children : list (string * node)).

Definition node_text (n : node) : answer string :=
  match n with Node t _ _ => t end.

Definition node_attrs (n : node) : list (string * string) :=
  match n with Node _ a _ => a end.

Definition node_children (n : node) : list (string * node) :=
  match n with Node _ _ c => c end.

Fixpoint assoc {V} (k : string) (d : list (string * V)) : option V :=
  match d with
  | [] => None
  | (k', v) :: d' => if String.eqb k' k then Some v else assoc k d'
  end.

Record page : Type := Page {
  page_css : list (string * list node);
  page_xpath : list (string * list node);
  page_url : string;
  page_cookies : list (string * string);
  page_http : list (string * (Z * list Byte.byte));
  page_encoder : answer (list Byte.byte);
  page_scroll_fails : bool;
  page_unwritable : list string;
  page_quit_fails : bool
}.

Definition page_find (b : By) (selector : string) (p : page) : list node :=
  default [] (assoc selector (match b with
                              | CSS_SELECTOR => page_css p
                              | XPATH => page_xpath p
                              end)).

Definition no_such_element {A} (selector : string) : answer A :=
  inr (Exn NoSuchElementException ("no such element: " +:+ selector)).

Definition page_goto (url : string) (p : page) : page :=
  Page (page_css p) (page_xpath p) url (page_cookies p) (page_http p) (page_encoder p)
       (page_scroll_fails p) (page_unwritable p) (page_quit_fails p).

Definition page_env : Env page node := {|
  manager_install kind p := (inl ("/drivers/" +:+ kind), p);
  webdriver_new kind headless path p := (inl tt, p);
  driver_quit p :=
    (if page_quit_fails p then inr (Exn WebDriverException "quit failed") else inl tt, p);
  driver_get url p := (inl tt, page_goto url p);
  driver_current_url p := (inl (page_url p), p);
  driver_find_element b selector p :=
    (match page_find b selector p with
     | n :: _ => inl n
     | [] => no_such_element selector
     end, p);
  driver_find_elements b selector p := (inl (page_find b selector p), p);
  driver_execute_script script arg p :=
    (if page_scroll_fails p && Py.contains "scrollIntoView" script
     then inr (Exn StaleElementReferenceException "stale element reference")
     else inl tt, p);
  driver_get_cookies p := (inl (page_cookies p), p);
  wait_until c selector p :=
    (match page_find CSS_SELECTOR selector p with
     | n :: _ => inl n
     | [] => inr (Exn TimeoutException "timeout")
     end, p);
  element_find_element n selector p :=
    (match assoc selector (node_children n) with
     | Some c => inl c
     | None => no_such_element selector
     end, p);
  element_text n p := (node_text n, p);
  element_get_attribute n a p := (inl (assoc a (node_attrs n)), p);
  element_clear n p := (inl tt, p);
  element_send_keys n keys p := (inl tt, p);
  time_sleep ms p := p;
  session_get url jar p :=
    (match assoc url (page_http p) with
     | Some resp => inl resp
     | None => inr (Exn OtherException "connection error")
     end, p);
  image_encode fmt payload p := (page_encoder p, p);
  os_makedirs path p := (inl tt, p);
  file_write path c p :=
    (if bool_decide (path ∈ page_unwritable p)
     then inr (Exn OSError "permission denied") else inl tt, p);
  on_progress done total msg p := (inl tt, p)
|}.

(** An element with text and nothing else, and a link. *)
Definition text_node (t : string) : node := Node (inl t) [] [].

Definition link_node (href : string) : node := Node (inl "") [("href", href)] [].

(** A result snippet whose overlay link goes to [href]. *)
Definition snippet (href : string) : node :=
  Node (inl "") [] [(".search-snippet-view__link-overlay", link_node href)].

Definition details_panel_selector : string :=
  ".card-title-view__title, .orgpage-header-view__title, .business-card-view".

(** An empty page at the start URL, every operation working. *)
Definition blank_page : page :=
  Page [] [] "about:blank" [] [] (inr (Exn OtherException "cannot identify image file"))
       false [] false.

Definition with_css (css : list (string * list node)) (p : page) : page :=
  Page css (page_xpath p) (page_url p) (page_cookies p) (page_http p) (page_encoder p)
       (page_scroll_fails p) (page_unwritable p) (page_quit_fails p).

Definition with_http (http : list (string * (Z * list Byte.byte))) (p : page) : page :=
  Page (page_css p) (page_xpath p) (page_url p) (page_cookies p) http (page_encoder p)
       (page_scroll_fails p) (page_unwritable p) (page_quit_fails p).

Definition with_encoder (enc : answer (list Byte.byte)) (p : page) : page :=
  Page (page_css p) (page_xpath p) (page_url p) (page_cookies p) (page_http p) enc
       (page_scroll_fails p) (page_unwritable p) (page_quit_fails p).

Definition with_scroll_failing (p : page) : page :=
  Page (page_css p) (page_xpath p) (page_url p) (page_cookies p) (page_http p)
       (page_encoder p) true (page_unwritable p) (page_quit_fails p).

Definition with_unwritable (paths : list string) (p : page) : page :=
  Page (page_css p) (page_xpath p) (page_url p) (page_cookies p) (page_http p)
       (page_encoder p) (page_scroll_fails p) paths (page_quit_fails p).

(** A scraper for Firefox, built as the dashboard builds one. *)
Definition firefox_scraper (max_results : Z) (scrape_photos scrape_reviews : bool)
    (photo_format : string) (max_photos : Z) : scraper :=
  YandexMapsScraper true max_results scrape_photos scrape_reviews photo_format
                    max_photos "Firefox" "20260101_120000".

(** * The vocabulary of the properties *)

(** [post m s Q]: run from [s], the program [m] ends in an outcome and a
    state that [Q] holds of. *)
Definition post {W A} (m : M W A) (s : state W) (Q : outcome A → state W → Prop) : Prop :=
  Q (m s).1 (m s).2.

Fixpoint all_digits (s : string) : bool :=
  match s with
  | EmptyString => true
  | String c s' => Py.isdigit c && all_digits s'
  end.

(** A string that does not go on with a digit. *)
Definition no_digit_ahead (s : string) : Prop :=
  match s with
  | EmptyString => True
  | String c _ => Py.isdigit c = false
  end.

(** What one export does between [s] and [s'], returning [r]: nothing when
    its guard holds; else it writes [c] to [path] and returns the path,
    or, when the writing fails, logs the error and returns the empty
    string.  In every case the session directory stays. *)
Definition export_step {W E} `{!Env W E} (guard : bool) (error_prefix path : string)
    (c : content) (s s' : state W) (r : string) : Prop :=
  current_session_dir s' = current_session_dir s
  ∧ ∃ logged, log s' = (log s ++ logged)%list
  ∧ if guard then r = "" ∧ files s' = files s ∧ env s' = env s
    else match (file_write path c (env s)).1 with
         | inl _ => r = path ∧ files s' = (files s ++ [(path, c)])%list
         | inr e => r = "" ∧ files s' = files s
                    ∧ In (ERROR, error_prefix +:+ exn_msg e) logged
         end.

(** [tame strict m]: the program [m] never calls [driver.quit()], and, when
    [strict] is set, it ends whatever fuel it is given (it has no unbounded
    loop inside). *)
Definition tame {W A} (strict : bool) (m : M W A) : Prop :=
  ∀ s, quits (m s).2 = quits s ∧ (strict = true → (m s).1 ≠ OutOfFuel).

(** [blame m D]: when [m] does not end within its fuel, [D] holds. *)
Definition blame {W A} (m : M W A) (D : Prop) : Prop :=
  ∀ s, (m s).1 = OutOfFuel → D.

(** [diverges m s]: the program [m], run from [s], does not end, whatever
    fuel it is given. *)
Definition diverges {W A} (m : nat → M W A) (s : state W) : Prop :=
  ∀ fuel, (m fuel s).1 = OutOfFuel.

(** What the bytes of a saved photo are: the payload of a response with
    status 200 and more than 1000 bytes, under the name [photo_N.jpg]; or,
    for a scraper that converts, what the encoder made of such a payload,
    under the extension of the format. *)
Definition saved_content {W E} `{!Env W E} (self : scraper) (ext : string) (c : content)
    : Prop :=
  ∃ url jar w payload,
    (session_get url jar w).1 = inl (200, payload)
    ∧ (1000 < length payload)%nat
    ∧ ((ext = "jpg" ∧ c = Bytes payload)
       ∨ (converts self = true ∧ ext = photo_format self
          ∧ ∃ w' encoded, (image_encode (photo_format self) payload w').1 = inl encoded
                          ∧ c = Bytes encoded)).

(** What one round of the photo loop does to the list of paths and to the
    files: nothing, or one more photo saved under the number [i + 1]. *)
Definition photo_saved {W E} `{!Env W E} (self : scraper) (folder : string) (i : nat)
    (paths paths' : list string) (s s' : state W) : Prop :=
  (paths' = paths ∧ files s' = files s)
  ∨ ∃ ext c,
      paths' = (paths ++ [photo_path folder (i + 1) ext])%list
      ∧ files s' = (files s ++ [(photo_path folder (i + 1) ext, c)])%list
      ∧ saved_content self ext c.

(** The photos saved so far, each with its number, its extension and its
    bytes: the numbers grow, none is above [k], and there are at most [k]
    of them. *)
Definition saved_upto {W E} `{!Env W E} (self : scraper) (k : nat)
    (saved : list (nat * string * content)) : Prop :=
  Forall (λ x, saved_content self x.1.2 x.2 ∧ (1 ≤ x.1.1 ≤ k)%nat) saved
  ∧ StronglySorted lt (map (λ x, x.1.1) saved)
  ∧ (length saved ≤ k)%nat.

Definition saved_path (folder : string) (x : nat * string * content) : string :=
  photo_path folder x.1.1 x.1.2.

Definition saved_file (folder : string) (x : nat * string * content) : string * content :=
  (photo_path folder x.1.1 x.1.2, x.2).

(** [rating != "" AND (text != "" OR author != "")] *)
Definition review_valid (r : Review.t) : Prop :=
  Review.rating r ≠ "" ∧ (Review.text r ≠ "" ∨ Review.author r ≠ "").

(** The counts of the last five rounds each equal the count of the round
    before; before the first round the count is 0. *)
Definition stalled_tail (seen : list nat) : Prop :=
  ∃ pre c, (0%nat :: seen) = (pre ++ repeat c 6)%list.

(** What holds of a finished discovery for the target [max_results]. *)
Definition discovery_ok (self : scraper) (d : discovery) : Prop :=
  Z.of_nat (length (found d)) ≤ max_results self
  ∧ NoDup (found d)
  ∧ (Z.of_nat (length (found d)) < max_results self →
     exit_by d = ScrollFailed ∨ (exit_by d = Stalled ∧ stalled_tail (counts d))).

(** No selector of the list finds an element. *)
Definition nothing_found {W E} `{!Env W E} (selectors : list string) : Prop :=
  ∀ selector (w : W), selector ∈ selectors →
    ∃ e, (driver_find_element CSS_SELECTOR selector w).1 = inr e
         ∧ exn_class_of e = NoSuchElementException.

(** The markers [upgrade_src] knows. *)
Definition size_markers : list string :=
  ["S_height"; "XXS"; "XS_height"; "M_height"; "L_height"; "200x200"; "400x400";
   "600x600"; "priority-headline-background"].

(** A value a table holds as it is: a number, a text or a truth value. *)
Definition scalar (c : cell) : bool :=
  match c with
  | CInt _ | CStr _ | CBool _ => true
  | _ => false
  end.

(** A value kept as the text [json.dumps] makes of it. *)
Definition json_text (c : cell) : bool :=
  match c with
  | CJson _ => true
  | _ => false
  end.

(** The column a feature named [k] is written to. *)
Definition feature_column (k : string) : string := "feat_" +:+ str_filter column_char k.

(** The keys of a record whose values are lists or dicts. *)
Definition nested_keys : list string :=
  ["features"; "working_hours"; "social_media"; "photos"; "reviews"].

(** Every value of the dict is a scalar, but for the keys of [K]. *)
Definition flat_except (K : list string) (d : row) : Prop :=
  ∀ k c, assoc k d = Some c → scalar c = true ∨ k ∈ K.

(** A string whose first character, if it has one, is not of [p]; and one
    whose last character is not of [p]. *)
Definition starts_kept (p : ascii → bool) (s : string) : bool :=
  match s with
  | EmptyString => true
  | String c _ => negb (p c)
  end.

Fixpoint ends_kept (p : ascii → bool) (s : string) : bool :=
  match s with
  | EmptyString => true
  | String c EmptyString => negb (p c)
  | String _ s' => ends_kept p s'
  end.

(** [stripped t]: the text has no white space at either end. *)
Definition stripped (t : string) : Prop := Py.strip t = t.

(** What the list of [_get_text_list] holds, round after round. *)
Definition text_list_ok (results : list string) : Prop :=
  NoDup results ∧ Forall (λ t, Py.truthy t = true ∧ stripped t) results.

(** What the [features] dict holds, round after round. *)
Definition features_ok (features : list (string * feature_value)) : Prop :=
  NoDup features.*1 ∧ Forall (λ kv, Py.truthy kv.1 = true) features.

(** A rating as [_extract_rating] returns it: a number the expression
    matches as a whole, or the empty string. *)
Definition clean_rating (r : string) : Prop := r = "" ∨ Py.re_search_decimal r = Some r.

(** What holds of the record [_extract_details] builds for the listing at
    position [index]. *)
Definition clean_record (self : scraper) (index : nat) (d : Place.t) : Prop :=
  Place.id d = index
  ∧ Place.search_query d = None
  ∧ stripped (Place.name d)
  ∧ stripped (Place.description d)
  ∧ stripped (Place.address d)
  ∧ stripped (Place.website d)
  ∧ stripped (Place.phone d)
  ∧ Forall stripped (Place.working_hours d)
  ∧ features_ok (Place.features d)
  ∧ Forall (λ href, Py.truthy href = true) (Place.social_media d)
  ∧ clean_rating (Place.rating d)
  ∧ all_digits (Place.reviews_count d) = true
  ∧ (scrape_photos self = false → Place.photos d = [])
  ∧ (scrape_reviews self = false → Place.reviews d = []).

(** What [setup_driver] raises for a browser other than Firefox and Edge. *)
Definition no_browser_error (self : scraper) : exn :=
  if String.eqb (browser_type self) "chrome" || String.eqb (browser_type self) "safari"
  then Exn NameError "name 'sys' is not defined"
  else Exn ValueError ("Unsupported browser: " +:+ browser_type self).

(** [appends D P m]: run with the session directory [D], the program [m]
    leaves the directory as it is, and the files it leaves are those it
    found and, after them, new ones that [P] holds of. *)
Definition appends {W A} (D : string) (P : string * content → Prop) (m : M W A) : Prop :=
  ∀ s, current_session_dir s = D →
    ∃ new, files (m s).2 = (files s ++ new)%list ∧ Forall P new
           ∧ current_session_dir (m s).2 = D.

(** [writes P m]: whatever [m] does, the files it leaves are those it
    found and, after them, new ones that [P] holds of. *)
Definition writes {W A} (P : string * content → Prop) (m : M W A) : Prop :=
  ∀ s, ∃ new, files (m s).2 = (files s ++ new)%list ∧ Forall P new.

(** A path that starts with the directory [D]. *)
Definition under (D path : string) : Prop := String.prefix D path = true.

(** The directory [setup_session_directory] sets for a query. *)
Definition session_path (self : scraper) (query : string) : string :=
  Py.path_join (base_dir self)
               [timestamp self +:+ "_" +:+ Py.strip (str_filter name_char query)].

(** A photo file of the folder [folder]: image bytes under a name of the
    photo loop. *)
Definition photo_file (folder : string) (f : string * content) : Prop :=
  ∃ number ext bytes, f = (photo_path folder number ext, Bytes bytes).

(** A document of the exports, under its name in the directory [D]. *)
Definition export_file (D : string) (f : string * content) : Prop :=
  match f.2 with
  | Bytes _ => False
  | JsonDoc _ => f.1 = Py.path_join D ["places_data.json"]
  | CsvTable _ => f.1 = Py.path_join D ["places_data.csv"]
  | XlsxTable _ => f.1 = Py.path_join D ["places_data.xlsx"]
  | SqliteTable _ _ => f.1 = Py.path_join D ["places_data.db"]
  end.

(** A photo of a listing: written when photos are on, into a folder
    below the session directory. *)
Definition listing_photo (D : string) (self : scraper) (f : string * content) : Prop :=
  scrape_photos self = true ∧ ∃ folder, under D folder ∧ photo_file folder f.

(** The records of a run, as they are when they are saved: each carries
    the query, and the ids are positions in the list of links, in order. *)
Definition run_records (query : string) (data : list Place.t) : Prop :=
  Forall (λ d, Place.search_query d = Some query ∧ (1 ≤ Place.id d)%nat) data
  ∧ StronglySorted lt (map Place.id data).

(** What a run may write: a photo of a listing, or a document of the
    exports; the JSON document holds records of the run. *)
Definition run_file (self : scraper) (query : string) (f : string * content) : Prop :=
  listing_photo (session_path self query) self f
  ∨ (export_file (session_path self query) f
     ∧ match f.2 with
       | JsonDoc data => run_records query data
       | _ => True
       end).

(** The records collected from the first [k] links: their ids are
    positions up to [k], in order. *)
Definition collected (self : scraper) (k : nat) (data : list Place.t) : Prop :=
  Forall (λ d, (1 ≤ Place.id d ≤ k)%nat ∧ ∃ i, clean_record self i d) data
  ∧ StronglySorted lt (map Place.id data).

(** One poll of the results panel, and the world after [n] polls. *)
Definition poll_snippets {W E} `{!Env W E} (w : W) : answer (list E) * W :=
  driver_find_elements CSS_SELECTOR ".search-snippet-view" w.

Definition after_polls {W E} `{!Env W E} (n : nat) (w : W) : W :=
  Nat.iter n (λ w, (poll_snippets w).2) w.

(** * Concrete pages and scrapers *)

(** A search for cafes: the search box, one result, and its detail page
    with a title, a rating and two review items, the second without a
    rating. *)
Definition cafe_link : string := "https://yandex.ru/maps/org/cafe/1/".

Definition search_css : list (string * list node) :=
  [ ("input.input__control, input[type='text']", [text_node ""]);
    (".search-list-view, .search-snippet-view", [text_node ""]);
    (".search-snippet-view", [snippet cafe_link]) ].

Definition cafe_reviews : list node :=
  [ Node (inl "") []
         [ (".business-rating-badge-view__rating-text", text_node "5");
           (".business-review-view__body", text_node "Great coffee") ];
    Node (inl "") [] [ (".business-review-view__body", text_node "no rating given") ] ].

Definition cafe_css (title : node) : list (string * list node) :=
  (search_css ++
   [ (details_panel_selector, [text_node "Cafe Pushkin"]);
     (".orgpage-header-view__title", [title]);
     (".business-rating-view__rating", [text_node "Rating 4.9"]);
     (".business-review-view", cafe_reviews) ])%list.

Definition cafe_page : page := with_css (cafe_css (text_node " Cafe Pushkin ")) blank_page.

(** The same page, but the title element goes stale between being found
    and being read. *)
Definition stale : exn := Exn StaleElementReferenceException "stale element reference".

Definition stale_title_page : page := with_css (cafe_css (Node (inr stale) [] [])) blank_page.

Definition title_selectors : list string :=
  [".orgpage-header-view__title"; ".card-title-view__title"; "h1";
   ".business-card-title-view__title"].

Definition cafe_scraper : scraper := firefox_scraper 1 false true "jpg" 5.

Definition session_dir : string := "output_data/20260101_120000_Coffee shop Moscow".

(** A gallery: an icon, then a real photo behind a thumbnail URL. *)
Definition payload_1001 : list Byte.byte := repeat Byte.x2a 1001.

Definition gallery_css : list (string * list node) :=
  [ (gallery_images_selector,
     [ Node (inl "") [("src", "https://avatars.mds.yandex.net/i/icon.png")] [];
       Node (inl "") [("src", "https://avatars.mds.yandex.net/get-altay/1/S_height")] [] ]) ].

Definition gallery_http : list (string * (Z * list Byte.byte)) :=
  [ ("https://avatars.mds.yandex.net/get-altay/1/XL", (200, payload_1001)) ].

Definition gallery_page : page := with_http gallery_http (with_css gallery_css blank_page).

Definition tiny_image : list Byte.byte := repeat Byte.x00 120.

(** One photo, and an encoder whose output is 120 bytes long. *)
Definition photo_css : list (string * list node) :=
  [ (gallery_images_selector,
     [ Node (inl "") [("src", "https://avatars.mds.yandex.net/get-altay/1/XL")] [] ]) ].

Definition tiny_png_page : page :=
  with_encoder (inl tiny_image) (with_http gallery_http (with_css photo_css blank_page)).

Definition jpg_scraper : scraper := firefox_scraper 10 true false "jpg" 5.
Definition png_scraper : scraper := firefox_scraper 10 true false "PNG" 5.

(** One result that never grows, with a scroll that works and one that
    raises. *)
Definition one_result_page : page := with_css search_css blank_page.
Definition failing_scroll_page : page := with_scroll_failing one_result_page.

Definition three_scraper : scraper := firefox_scraper 3 false false "jpg" 5.

(** A search that finds nothing. *)
Definition no_result_css : list (string * list node) :=
  [ ("input.input__control, input[type='text']", [text_node ""]);
    (".search-list-view, .search-snippet-view", [text_node ""]) ].

Definition no_result_page : page := with_css no_result_css blank_page.

(** The cafe page on a disk that refuses the CSV file. *)
Definition csv_refused_page : page :=
  with_unwritable [session_dir +:+ "/places_data.csv"] cafe_page.

(** A results panel that never stops growing: the world is the number of
    snippets rendered, a scroll adds one, and no snippet has a link. *)
Definition growing_env : Env nat unit := {|
  manager_install kind n := (inl kind, n);
  webdriver_new kind headless path n := (inl tt, n);
  driver_quit n := (inl tt, n);
  driver_get url n := (inl tt, n);
  driver_current_url n := (inl "https://yandex.ru/maps", n);
  driver_find_element b selector n := (inl tt, n);
  driver_find_elements b selector n := (inl (repeat tt n), n);
  driver_execute_script script arg n := (inl tt, S n);
  driver_get_cookies n := (inl [], n);
  wait_until c selector n := (inl tt, n);
  element_find_element el selector n := (no_such_element selector, n);
  element_text el n := (inl "", n);
  element_get_attribute el a n := (inl None, n);
  element_clear el n := (inl tt, n);
  element_send_keys el keys n := (inl tt, n);
  time_sleep ms n := n;
  session_get url jar n := (inr (Exn OtherException "connection error"), n);
  image_encode fmt payload n := (inr (Exn OtherException "cannot identify image file"), n);
  os_makedirs path n := (inl tt, n);
  file_write path c n := (inl tt, n);
  on_progress done total msg n := (inl tt, n)
|}.

(** A record with two features whose names differ in a hyphen only. *)
Definition wifi_record : Place.t :=
  Place.mk 1 "Cafe Pushkin" "" "" [("Wi-Fi", FBool true); ("WiFi", FStr "free")]
           "" "" "" "4.9" "1611" [] (session_dir +:+ "/001_Cafe Pushkin") cafe_link [] [] []
           (Some "Coffee shop Moscow").

(** The scraper [main] builds, and one whose target is 0. *)
Definition chrome_scraper : scraper :=
  YandexMapsScraper false 10 true true "jpg" 5 "chrome" "20260101_120000".

Definition zero_scraper : scraper := firefox_scraper 0 false false "jpg" 5.

(** * Properties *)

(** ** The string functions on the texts of the source's comments *)

Example lower_tab_label : Py.lower "ОБЗОР Overview" = "обзор overview".
Proof. reflexivity. Qed.

Example strip_label : Py.strip "  4.9 " = "4.9".
Proof. reflexivity. Qed.

Example replace_twice : Py.replace "ab" "X" "abab-aab" = "XX-aX".
Proof. reflexivity. Qed.

Example split_srcset : Py.split "," "a 1x, b 2x" = ["a 1x"; " b 2x"].
Proof. reflexivity. Qed.

Example resolve_srcset :
  resolve_src (Some "small.jpg") (Some "a.jpg 1x, b.jpg 2x") = Some "b.jpg".
Proof. reflexivity. Qed.

Example path_join_photo :
  Py.path_join "out/001_Cafe" ["photos"; "photo_1.jpg"] = "out/001_Cafe/photos/photo_1.jpg".
Proof. reflexivity. Qed.

Example zfill3_7 : Py.zfill3 7 = "007".
Proof. reflexivity. Qed.

Example sub_tab_gallery_query : Py.sub_tab_gallery "u/?tab=gallery&z=1" = "u/?z=1".
Proof. reflexivity. Qed.

Example gallery_url_with_query :
  gallery_url_of "https://yandex.ru/maps/org/cafe/1/?ll=37.6" = "https://yandex.ru/maps/org/cafe/1/gallery/?ll=37.6".
Proof. reflexivity. Qed.

Example count_from_label : count_number "1611 ratings" = "1611".
Proof. reflexivity. Qed.

(** ** Reasoning about programs: postconditions *)

Section Post.
Context {W : Type}.
Implicit Types s : state W.

Lemma post_any {A} (m : M W A) s Q : (∀ r s', Q r s') → post m s Q.
Proof. intros H. apply H. Qed.

Lemma post_mono {A} (m : M W A) s (Q Q' : outcome A → state W → Prop) :
  post m s Q → (∀ r s', Q r s' → Q' r s') → post m s Q'.
Proof. unfold post. intros H HQ. by apply HQ. Qed.

Lemma post_ret {A} (a : A) s (Q : outcome A → state W → Prop) :
  Q (Ok a) s → post (ret a) s Q.
Proof. done. Qed.

Lemma post_raise {A} (e : exn) s (Q : outcome A → state W → Prop) :
  Q (Raise e) s → post (raise e) s Q.
Proof. done. Qed.

Lemma post_bind {A B} (m : M W A) (k : A → M W B) s Q :
  post m s (λ r s1, match r with
                    | Ok a => post (k a) s1 Q
                    | Raise e => Q (Raise e) s1
                    | OutOfFuel => Q OutOfFuel s1
                    end) →
  post (m ≫= k) s Q.
Proof.
  unfold post, mbind, M_bind, bind. destruct (m s) as [[a|e|] s1]; simpl; done.
Qed.

Lemma post_attempt {A} (m : M W A) s Q :
  post m s (λ r s1, match r with
                    | Ok a => Q (Ok (inl a)) s1
                    | Raise e => Q (Ok (inr e)) s1
                    | OutOfFuel => Q OutOfFuel s1
                    end) →
  post (attempt m) s Q.
Proof.
  unfold post, attempt. destruct (m s) as [[a|e|] s1]; simpl; done.
Qed.

Lemma post_try_except {A} (m : M W A) (h : exn → M W A) s Q :
  post m s (λ r s1, match r with
                    | Ok a => Q (Ok a) s1
                    | Raise e => post (h e) s1 Q
                    | OutOfFuel => Q OutOfFuel s1
                    end) →
  post (try_except m h) s Q.
Proof.
  intros H. unfold try_except. apply post_bind, post_attempt.
  eapply post_mono; [exact H|]. intros [a|e|] s1; simpl; done.
Qed.

Lemma post_modify (f : state W → state W) s (Q : outcome unit → state W → Prop) :
  Q (Ok tt) (f s) → post (modify f) s Q.
Proof. done. Qed.

Lemma post_logger l msg s (Q : outcome unit → state W → Prop) :
  Q (Ok tt) (add_log l msg s) → post (logger l msg) s Q.
Proof. done. Qed.

Lemma post_gets {A} (f : state W → A) s (Q : outcome A → state W → Prop) :
  Q (Ok (f s)) s → post (gets f) s Q.
Proof. done. Qed.

Lemma post_call {A} (op : W → answer A * W) s (Q : outcome A → state W → Prop) :
  (∀ a w, op (env s) = (inl a, w) → Q (Ok a) (set_env w s)) →
  (∀ e w, op (env s) = (inr e, w) → Q (Raise e) (set_env w s)) →
  post (call op) s Q.
Proof.
  unfold post, call. intros Ha He. destruct (op (env s)) as [[a|e] w] eqn:Hop; simpl; auto.
Qed.

(** The rule of the [for] loop: [I] holds of what is left of the list,
    the local variables and the state, round after round. *)
Lemma post_for_ {A B} (I : list A → B → state W → Prop) (l : list A)
    (body : A → B → M W (flow B)) (b : B) s (Q : outcome (B * option exn) → state W → Prop) :
  I l b s →
  (∀ x l' b s, I (x :: l') b s →
     post (body x b) s (λ r s', match r with
                               | Ok (Continue b') => I l' b' s'
                               | Ok (Break b') => Q (Ok (b', None)) s'
                               | Raise e => Q (Ok (b, Some e)) s'
                               | OutOfFuel => Q OutOfFuel s'
                               end)) →
  (∀ b s, I [] b s → Q (Ok (b, None)) s) →
  post (for_ l body b) s Q.
Proof.
  intros HI Hbody Hend. revert b s HI.
  induction l as [|x l IH]; intros b s HI.
  - by apply Hend.
  - specialize (Hbody x l b s HI). unfold post in *. simpl.
    destruct (body x b s) as [[[b'|b']|e|] s1]; simpl in *; auto.
Qed.

End Post.

(** ** Numeric extraction (rating and review count) *)

Lemma append_cons (c : ascii) (s t : string) : String c s +:+ t = String c (s +:+ t).
Proof. reflexivity. Qed.

Lemma append_empty_l (t : string) : "" +:+ t = t.
Proof. reflexivity. Qed.

Lemma append_empty_r (s : string) : s +:+ "" = s.
Proof. induction s as [|c s IH]; [done|]. by rewrite append_cons, IH. Qed.

Lemma truthy_append_l (a b : string) : Py.truthy a = true → Py.truthy (a +:+ b) = true.
Proof. by destruct a. Qed.

Lemma span_digits_spec (s : string) :
  all_digits (Py.span_digits s).1 = true
  ∧ no_digit_ahead (Py.span_digits s).2
  ∧ s = (Py.span_digits s).1 +:+ (Py.span_digits s).2.
Proof.
  induction s as [|c s IH]; simpl; [done|].
  destruct (Py.isdigit c) eqn:Hc.
  - destruct (Py.span_digits s) as [d r]; simpl in *.
    destruct IH as (Hd & Hr & Hs). rewrite Hc, Hd, append_cons. by subst s.
  - simpl. by rewrite Hc.
Qed.

Lemma span_digits_app (d r : string) :
  all_digits d = true → no_digit_ahead r → Py.span_digits (d +:+ r) = (d, r).
Proof.
  intros Hd Hr. induction d as [|c d IH]; simpl in *.
  - rewrite append_empty_l. destruct r as [|c r]; simpl in *; [done|]. by rewrite Hr.
  - apply andb_prop in Hd as [Hc Hd]. by rewrite Hc, IH.
Qed.

Lemma search_digits_spec (s d r : string) :
  Py.search_digits s = Some (d, r) →
  Py.truthy d = true ∧ all_digits d = true ∧ no_digit_ahead r.
Proof.
  induction s as [|c s IH]; simpl; [done|].
  destruct (Py.isdigit c) eqn:Hc; [|done].
  pose proof (span_digits_spec s) as (Hd & Hr & _).
  destruct (Py.span_digits s) as [d' r']; simpl in *.
  intros [= <- <-]. simpl. by rewrite Hc, Hd.
Qed.

Lemma search_digits_app (d r : string) :
  Py.truthy d = true → all_digits d = true → no_digit_ahead r →
  Py.search_digits (d +:+ r) = Some (d, r).
Proof.
  intros Ht Hd Hr. destruct d as [|c d]; [done|].
  pose proof (span_digits_app (String c d) r Hd Hr) as Hspan.
  rewrite append_cons in *. simpl in *.
  apply andb_prop in Hd as [Hc Hd]. rewrite Hc in *. by rewrite Hspan.
Qed.

(** What [re_search_decimal] finds is a number, and searching a number
    finds all of it. *)
Lemma re_search_decimal_fixed (s m : string) :
  Py.re_search_decimal s = Some m →
  Py.truthy m = true ∧ Py.re_search_decimal m = Some m.
Proof.
  unfold Py.re_search_decimal.
  destruct (Py.search_digits s) as [[d r]|] eqn:Hs; [|done].
  apply search_digits_spec in Hs as (Ht & Hd & Hr).
  assert (Hplain : Py.truthy d = true ∧
            match Py.search_digits d with
            | None => None
            | Some (d, EmptyString) => Some d
            | Some (d, String c r) =>
                if Ascii.eqb c "."
                then let '(f, _) := Py.span_digits r in
                     if Py.truthy f then Some (d +:+ String c f) else Some d
                else Some d
            end = Some d).
  { split; [done|]. rewrite <- (append_empty_r d) at 1.
    by rewrite search_digits_app. }
  destruct r as [|c r]; [by intros [= <-]|].
  destruct (Ascii.eqb c ".") eqn:Hdot; [|by intros [= <-]].
  pose proof (span_digits_spec r) as (Hf & Hrest & _).
  destruct (Py.span_digits r) as [f rest]; simpl in *.
  destruct (Py.truthy f) eqn:Hft; [|by intros [= <-]].
  intros [= <-]. split; [by apply truthy_append_l|].
  rewrite search_digits_app; [|done..].
  rewrite Hdot.
  rewrite <- (append_empty_r f) at 1. rewrite span_digits_app; [|done..].
  by rewrite Hft.
Qed.

Lemma re_search_int_fixed (s m : string) :
  Py.re_search_int s = Some m →
  Py.truthy m = true ∧ Py.re_search_int m = Some m.
Proof.
  unfold Py.re_search_int.
  destruct (Py.search_digits s) as [[d r]|] eqn:Hs; [|done].
  apply search_digits_spec in Hs as (Ht & Hd & Hr). simpl. intros [= <-].
  split; [done|]. rewrite <- (append_empty_r d) at 1.
  by rewrite search_digits_app.
Qed.

Lemma rating_number_idempotent (t : string) :
  rating_number (rating_number t) = rating_number t.
Proof.
  unfold rating_number at 2 3. destruct (Py.truthy t); [|done].
  destruct (Py.re_search_decimal t) as [m|] eqn:Hm; [|done].
  apply re_search_decimal_fixed in Hm as [Ht Hm].
  unfold rating_number. by rewrite Ht, Hm.
Qed.

Lemma count_number_idempotent (t : string) :
  count_number (count_number t) = count_number t.
Proof.
  unfold count_number at 2 3. destruct (Py.truthy t); [|done].
  destruct (Py.re_search_int t) as [m|] eqn:Hm; [|done].
  apply re_search_int_fixed in Hm as [Ht Hm].
  unfold count_number. by rewrite Ht, Hm.
Qed.


(** ** The exports *)

Local Arguments Py.path_join : simpl never.
Local Arguments String.append : simpl never.

Ltac run_export :=
  unfold log_execution, try_except, write_file, logger, modify, gets, call, attempt,
         ret, raise, mbind, M_bind, bind; simpl.

Section Exports.
Context {W E : Type} `{!Env W E}.
Implicit Types s : state W.

Ltac export_cases s :=
  destruct (file_write _ _ (env s)) as [[[]|?] ?]; simpl;
  eexists _, _; (split; [reflexivity|]); simpl;
  (split; [done|]); eexists; (split; [by rewrite <- !(assoc_L (++))|]); simpl; auto.

Ltac export_skipped :=
  eexists _, _; (split; [reflexivity|]); simpl;
  (split; [done|]); eexists; (split; [by rewrite <- !(assoc_L (++))|]); done.

Lemma save_json_spec (data : list Place.t) s :
  ∃ r s', save_json data s = (Ok r, s')
  ∧ export_step (negb (Py.truthy (current_session_dir s))) "Failed to save JSON: "
      (Py.path_join (current_session_dir s) ["places_data.json"]) (JsonDoc data) s s' r.
Proof.
  unfold save_json, export_step. run_export.
  destruct (Py.truthy (current_session_dir s)); simpl;
    [export_cases s|export_skipped].
Qed.

Lemma export_to_csv_spec (data : list Place.t) s :
  ∃ r s', export_to_csv data s = (Ok r, s')
  ∧ export_step (negb (Py.truthy (current_session_dir s)) || is_empty data)
      "Failed to export CSV: "
      (Py.path_join (current_session_dir s) ["places_data.csv"])
      (CsvTable (map flatten_item data)) s s' r.
Proof.
  unfold export_to_csv, export_step. run_export.
  destruct (Py.truthy (current_session_dir s)), data; simpl;
    first [export_skipped|export_cases s].
Qed.

Lemma save_to_sqlite_spec (data : list Place.t) s :
  ∃ r s', save_to_sqlite data s = (Ok r, s')
  ∧ export_step (negb (Py.truthy (current_session_dir s)) || is_empty data)
      "Failed to save SQLite: "
      (Py.path_join (current_session_dir s) ["places_data.db"])
      (SqliteTable "places" (map flatten_item_sqlite data)) s s' r.
Proof.
  unfold save_to_sqlite, export_step. run_export.
  destruct (Py.truthy (current_session_dir s)), data; simpl;
    first [export_skipped|export_cases s].
Qed.

Lemma export_to_excel_spec (data : list Place.t) s :
  ∃ r s', export_to_excel data s = (Ok r, s')
  ∧ export_step (negb (Py.truthy (current_session_dir s)) || is_empty data)
      "Failed to export Excel: "
      (Py.path_join (current_session_dir s) ["places_data.xlsx"])
      (XlsxTable (map flatten_item data)) s s' r.
Proof.
  unfold export_to_excel, export_step. run_export.
  destruct (Py.truthy (current_session_dir s)), data; simpl;
    first [export_skipped|export_cases s].
Qed.

(** C7. The four exports are isolated from each other.  From any state
    and for any records, each of the four runs to its end and returns,
    whatever the others did: it writes its file and returns the path, or
    its writing fails, the error is logged, its file alone is missing and
    it returns the empty string (or its guard skips it).  Then
    [save_results], the export block of [run], returns normally: no failure
    of an export reaches [run]. *)
Theorem exports_isolated (data : list Place.t) s :
  let dir := current_session_dir s in
  let unset := negb (Py.truthy dir) in
  ∃ r1 r2 r3 r4 s1 s2 s3 s4,
    save_json data s = (Ok r1, s1)
    ∧ export_step unset "Failed to save JSON: "
        (Py.path_join dir ["places_data.json"]) (JsonDoc data) s s1 r1
    ∧ export_to_csv data s1 = (Ok r2, s2)
    ∧ export_step (unset || is_empty data) "Failed to export CSV: "
        (Py.path_join dir ["places_data.csv"]) (CsvTable (map flatten_item data)) s1 s2 r2
    ∧ save_to_sqlite data s2 = (Ok r3, s3)
    ∧ export_step (unset || is_empty data) "Failed to save SQLite: "
        (Py.path_join dir ["places_data.db"])
        (SqliteTable "places" (map flatten_item_sqlite data)) s2 s3 r3
    ∧ export_to_excel data s3 = (Ok r4, s4)
    ∧ export_step (unset || is_empty data) "Failed to export Excel: "
        (Py.path_join dir ["places_data.xlsx"]) (XlsxTable (map flatten_item data)) s3 s4 r4
    ∧ save_results data s = (Ok tt, s4).
Proof.
  intros dir unset. subst dir unset.
  destruct (save_json_spec data s) as (r1 & s1 & H1 & E1).
  destruct (export_to_csv_spec data s1) as (r2 & s2 & H2 & E2).
  destruct (save_to_sqlite_spec data s2) as (r3 & s3 & H3 & E3).
  destruct (export_to_excel_spec data s3) as (r4 & s4 & H4 & E4).
  pose proof E1 as [D1 _]. pose proof E2 as [D2 _]. pose proof E3 as [D3 _].
  rewrite D1 in E2. rewrite D2, D1 in E3. rewrite D3, D2, D1 in E4.
  exists r1, r2, r3, r4, s1, s2, s3, s4.
  repeat (split; [done|]).
  unfold save_results, mbind, M_bind, bind. by rewrite H1, H2, H3, H4.
Qed.

(** C10. With no record to export, [export_to_csv], [export_to_excel] and
    [save_to_sqlite] return the empty string without touching the
    environment: no file is written.  [save_json], when the session
    directory is set, still writes the document of the empty list (and
    returns its path, unless the writing itself fails).  So after the
    exports of an empty run the only file that can be new is the JSON
    document: the tables the screenshot tool reads do not exist. *)
Theorem empty_run_exports s :
  ((export_to_csv [] s).1 = Ok "" ∧ files (export_to_csv [] s).2 = files s
   ∧ env (export_to_csv [] s).2 = env s)
  ∧ ((export_to_excel [] s).1 = Ok "" ∧ files (export_to_excel [] s).2 = files s
     ∧ env (export_to_excel [] s).2 = env s)
  ∧ ((save_to_sqlite [] s).1 = Ok "" ∧ files (save_to_sqlite [] s).2 = files s
     ∧ env (save_to_sqlite [] s).2 = env s)
  ∧ (let json_path := Py.path_join (current_session_dir s) ["places_data.json"] in
     Py.truthy (current_session_dir s) = true →
     match (file_write json_path (JsonDoc []) (env s)).1 with
     | inl _ =>
         (save_json [] s).1 = Ok json_path
         ∧ files (save_json [] s).2 = (files s ++ [(json_path, JsonDoc [])])%list
         ∧ files (save_results [] s).2 = (files s ++ [(json_path, JsonDoc [])])%list
     | inr _ =>
         (save_json [] s).1 = Ok ""
         ∧ files (save_json [] s).2 = files s
         ∧ files (save_results [] s).2 = files s
     end).
Proof.
  assert (Hskip : ∀ guard pre path c (s1 s2 : state W) r,
            export_step (guard || true) pre path c s1 s2 r →
            r = "" ∧ files s2 = files s1 ∧ env s2 = env s1).
  { intros guard pre path c s1 s2 r (_ & l & _ & H). by rewrite orb_true_r in H. }
  split; [|split; [|split]].
  - destruct (export_to_csv_spec [] s) as (r & s' & -> & Hs). simpl.
    apply Hskip in Hs as (-> & ? & ?). done.
  - destruct (export_to_excel_spec [] s) as (r & s' & -> & Hs). simpl.
    apply Hskip in Hs as (-> & ? & ?). done.
  - destruct (save_to_sqlite_spec [] s) as (r & s' & -> & Hs). simpl.
    apply Hskip in Hs as (-> & ? & ?). done.
  - intros json_path Hdir.
    destruct (save_json_spec [] s) as (r1 & s1 & H1 & E1).
    destruct (export_to_csv_spec [] s1) as (r2 & s2 & H2 & E2).
    destruct (save_to_sqlite_spec [] s2) as (r3 & s3 & H3 & E3).
    destruct (export_to_excel_spec [] s3) as (r4 & s4 & H4 & E4).
    unfold save_results, mbind, M_bind, bind. rewrite H1, H2, H3, H4. simpl.
    apply Hskip in E2 as (_ & F2 & _). apply Hskip in E3 as (_ & F3 & _).
    apply Hskip in E4 as (_ & F4 & _).
    destruct E1 as (_ & l & _ & E1). rewrite Hdir in E1. simpl in E1.
    fold json_path in E1. rewrite F4, F3, F2.
    destruct (file_write json_path (JsonDoc []) (env s)).1;
      [destruct E1 as (-> & ->)|destruct E1 as (-> & -> & _)]; done.
Qed.

End Exports.

(** ** Programs that end and leave the browser alone *)

Create HintDb tame discriminated.

Section Tame.
Context {W E : Type} `{!Env W E}.
Implicit Types s : state W.
Implicit Types strict : bool.

Lemma tame_weaken {A} strict (m : M W A) : tame true m → tame strict m.
Proof. intros H s. destruct (H s) as [? ?]. split; auto. Qed.

Lemma tame_ret {A} strict (a : A) : tame (W:=W) strict (ret a).
Proof. intros s. by split. Qed.

Lemma tame_raise {A} strict (e : exn) : tame (W:=W) (A:=A) strict (raise e).
Proof. intros s. by split. Qed.

Lemma tame_out_of_fuel {A} : tame (W:=W) (A:=A) false out_of_fuel.
Proof. intros s. by split. Qed.

Lemma tame_gets {A} strict (f : state W → A) : tame strict (gets f).
Proof. intros s. by split. Qed.

Lemma tame_modify strict (f : state W → state W) :
  (∀ s, quits (f s) = quits s) → tame strict (modify f).
Proof. intros Hf s. split; [apply Hf|done]. Qed.

Lemma tame_logger strict l msg : tame (W:=W) strict (logger l msg).
Proof. intros s. by split. Qed.

Lemma tame_sleep strict ms : tame strict (sleep ms).
Proof. intros s. by split. Qed.

Lemma tame_call {A} strict (op : W → answer A * W) : tame strict (call op).
Proof.
  intros s. unfold call. destruct (op (env s)) as [[a|e] w]; by split.
Qed.

Lemma tame_bind {A B} strict (m : M W A) (k : A → M W B) :
  tame strict m → (∀ a, tame strict (k a)) → tame strict (m ≫= k).
Proof.
  intros Hm Hk s. unfold mbind, M_bind, bind.
  destruct (Hm s) as [Hq Ht]. destruct (m s) as [[a|e|] s1]; simpl in *.
  - destruct (Hk a s1) as [Hq' Ht']. split; [congruence|done].
  - by split.
  - split; [done|]. intros Hs _. by apply Ht.
Qed.

Lemma tame_attempt {A} strict (m : M W A) : tame strict m → tame strict (attempt m).
Proof.
  intros Hm s. unfold attempt. destruct (Hm s) as [Hq Ht].
  destruct (m s) as [[a|e|] s1]; simpl in *; (split; [done|]); intros Hs; try done.
  intros _. by apply Ht.
Qed.

Lemma tame_try_except {A} strict (m : M W A) (h : exn → M W A) :
  tame strict m → (∀ e, tame strict (h e)) → tame strict (try_except m h).
Proof.
  intros Hm Hh. apply tame_bind; [by apply tame_attempt|].
  intros [a|e]; [apply tame_ret|apply Hh].
Qed.

Lemma tame_try_except_on {A} strict cls (m : M W A) (h : exn → M W A) :
  tame strict m → (∀ e, tame strict (h e)) → tame strict (try_except_on cls m h).
Proof.
  intros Hm Hh. apply tame_try_except; [done|].
  intros e. destruct (exn_class_eqb _ _); [apply Hh|apply tame_raise].
Qed.

Lemma tame_reraise strict (pending : option exn) : tame (W:=W) strict (reraise pending).
Proof. destruct pending; [apply tame_raise|apply tame_ret]. Qed.

Lemma tame_for_ {A B} strict (l : list A) (body : A → B → M W (flow B)) (b : B) :
  (∀ x b, tame strict (body x b)) → tame strict (for_ l body b).
Proof.
  intros Hbody. revert b. induction l as [|x l IH]; intros b s; [by split|].
  simpl. destruct (Hbody x b s) as [Hq Ht].
  destruct (body x b s) as [[[b'|b']|e|] s1]; simpl in *.
  - destruct (IH b' s1) as [Hq' Ht']. split; [congruence|done].
  - by split.
  - by split.
  - split; [done|]. intros Hs _. by apply Ht.
Qed.

Lemma tame_log_execution {A} strict name (m : M W A) :
  tame strict m → tame strict (log_execution name m).
Proof.
  intros Hm. unfold log_execution.
  apply tame_bind; [apply tame_logger|intros _].
  apply tame_try_except.
  - apply tame_bind; [done|intros a].
    apply tame_bind; [apply tame_logger|intros _; apply tame_ret].
  - intros e. apply tame_bind; [apply tame_logger|intros _; apply tame_raise].
Qed.

Lemma tame_handle_errors {A} strict (d : A) (re : bool) name (m : M W A) :
  tame strict m → tame strict (handle_errors d re name m).
Proof.
  intros Hm. unfold handle_errors. apply tame_try_except; [done|].
  intros e. apply tame_bind; [apply tame_logger|intros _].
  destruct re; [apply tame_raise|apply tame_ret].
Qed.

Lemma quits_set_cookies (jar : list (string * string)) s :
  quits (fold_left (λ s c, set_cookie c.1 c.2 s) jar s) = quits s.
Proof. revert s. induction jar as [|c jar IH]; intros s; [done|]. simpl. by rewrite IH. Qed.

End Tame.

Global Hint Resolve tame_ret tame_raise tame_gets tame_logger tame_sleep tame_call
  tame_reraise tame_out_of_fuel : tame.
Global Hint Resolve tame_bind tame_attempt tame_try_except tame_try_except_on
  tame_for_ tame_log_execution tame_handle_errors : tame.

(** One step of a proof of [tame]: open the program by its outermost
    construct. *)
Ltac tame_step :=
  match goal with
  | |- tame _ (if ?c then _ else _) => destruct c
  | |- tame _ (match ?x with _ => _ end) => destruct x
  | |- tame _ (_ ≫= _) => apply tame_bind
  | |- tame _ (try_except _ _) => apply tame_try_except
  | |- tame _ (try_except_on _ _ _) => apply tame_try_except_on
  | |- tame _ (attempt _) => apply tame_attempt
  | |- tame _ (for_ _ _ _) => apply tame_for_
  | |- tame _ (log_execution _ _) => apply tame_log_execution
  | |- tame _ (handle_errors _ _ _ _) => apply tame_handle_errors
  | |- tame _ (modify _) => apply tame_modify; intros; try reflexivity
  | |- tame _ _ => solve [auto with tame]
  | |- ∀ _, _ => intros
  end.

Ltac tame_auto := repeat tame_step.

Section TameProgram.
Context {W E : Type} `{!Env W E}.
Implicit Types strict : bool.

Lemma tame_write_file strict path c : tame strict (write_file path c).
Proof. unfold write_file. tame_auto. Qed.

Lemma tame_strip_attr strict v : tame (W:=W) strict (strip_attr v).
Proof. unfold strip_attr. tame_auto. Qed.

Lemma tame_attr_contains strict sub v : tame (W:=W) strict (attr_contains sub v).
Proof. unfold attr_contains. tame_auto. Qed.

Hint Resolve tame_write_file tame_strip_attr tame_attr_contains : tame.

Lemma tame__get_text strict selectors : tame strict (_get_text selectors).
Proof. induction selectors as [|sel rest IH]; simpl; tame_auto. Qed.

Lemma tame__get_attribute strict selectors a : tame strict (_get_attribute selectors a).
Proof. induction selectors as [|sel rest IH]; simpl; tame_auto. Qed.

Hint Resolve tame__get_text tame__get_attribute : tame.

Lemma tame_text_or_content strict el : tame strict (text_or_content el).
Proof. unfold text_or_content. tame_auto. Qed.

Hint Resolve tame_text_or_content : tame.

Lemma tame__get_text_list strict selectors : tame strict (_get_text_list selectors).
Proof. unfold _get_text_list. tame_auto. Qed.

Lemma tame__get_all_attributes strict sel a : tame strict (_get_all_attributes sel a).
Proof. unfold _get_all_attributes. tame_auto. Qed.

Lemma tame__get_text_from_element strict parent sel :
  tame strict (_get_text_from_element parent sel).
Proof. unfold _get_text_from_element. tame_auto. Qed.

Lemma tame__extract_rating strict : tame strict _extract_rating.
Proof. unfold _extract_rating. tame_auto. Qed.

Lemma tame__extract_reviews_count strict : tame strict _extract_reviews_count.
Proof. unfold _extract_reviews_count. tame_auto. Qed.

Lemma tame__extract_social_links strict : tame strict _extract_social_links.
Proof. unfold _extract_social_links. tame_auto. Qed.

Lemma tame__switch_to_overview strict : tame strict _switch_to_overview.
Proof. unfold _switch_to_overview. tame_auto. Qed.

Hint Resolve tame__get_all_attributes tame__get_text_from_element tame__extract_rating
  tame__extract_reviews_count tame__extract_social_links tame__switch_to_overview : tame.

Lemma tame_download_photo strict self folder i src paths :
  tame strict (download_photo self folder i src paths).
Proof. unfold download_photo. tame_auto. Qed.

Hint Resolve tame_download_photo : tame.

Lemma tame_photo_round strict self folder candidate paths :
  tame strict (photo_round self folder candidate paths).
Proof. unfold photo_round. tame_auto. Qed.

Hint Resolve tame_photo_round : tame.

Lemma tame__extract_photos strict self folder : tame strict (_extract_photos self folder).
Proof.
  unfold _extract_photos. tame_auto. apply quits_set_cookies.
Qed.

Lemma tame_review_rating strict item : tame strict (review_rating item).
Proof. unfold review_rating. tame_auto. Qed.

Hint Resolve tame_review_rating : tame.

Lemma tame_review_round strict item reviews : tame strict (review_round item reviews).
Proof. unfold review_round. tame_auto. Qed.

Lemma tame_open_reviews strict : tame strict open_reviews.
Proof. unfold open_reviews. tame_auto. Qed.

Hint Resolve tame_review_round tame_open_reviews tame__extract_photos : tame.

Lemma tame__extract_reviews strict : tame strict _extract_reviews.
Proof. unfold _extract_reviews. tame_auto. Qed.

Lemma tame_create_place_folder strict name index : tame strict (create_place_folder name index).
Proof. unfold create_place_folder. tame_auto. Qed.

Lemma tame_setup_session_directory strict self query :
  tame strict (setup_session_directory self query).
Proof. unfold setup_session_directory. tame_auto. Qed.

Hint Resolve tame__extract_reviews tame_create_place_folder
  tame_setup_session_directory : tame.

Lemma tame_details_name strict : tame strict details_name.
Proof. unfold details_name. tame_auto. Qed.

Lemma tame_details_category strict : tame strict details_category.
Proof. unfold details_category. tame_auto. Qed.

Lemma tame_open_gallery strict : tame strict open_gallery.
Proof. unfold open_gallery. tame_auto. Qed.

Lemma tame_goto_gallery strict : tame strict goto_gallery.
Proof. unfold goto_gallery. tame_auto. Qed.

Lemma tame_leave_gallery strict : tame strict leave_gallery.
Proof. unfold leave_gallery. tame_auto. Qed.

Lemma tame_details_features strict : tame strict details_features.
Proof. unfold details_features. tame_auto. Qed.

Lemma tame_details_address strict : tame strict details_address.
Proof. unfold details_address. tame_auto. Qed.

Lemma tame_details_website strict : tame strict details_website.
Proof. unfold details_website. tame_auto. Qed.

Lemma tame_details_working_hours strict : tame strict details_working_hours.
Proof. unfold details_working_hours. tame_auto. Qed.

Hint Resolve tame_details_name tame_details_category tame_open_gallery tame_goto_gallery
  tame_leave_gallery tame_details_features tame_details_address tame_details_website
  tame_details_working_hours : tame.

Lemma tame_details_photos strict self folder : tame strict (details_photos self folder).
Proof. unfold details_photos. tame_auto. Qed.

Hint Resolve tame_details_photos : tame.

Lemma tame__extract_details strict self index query :
  tame strict (_extract_details self index query).
Proof. unfold _extract_details. tame_auto. Qed.

Lemma tame_save_json strict data : tame strict (save_json data).
Proof. unfold save_json. tame_auto. Qed.

Lemma tame_export_to_csv strict data : tame strict (export_to_csv data).
Proof. unfold export_to_csv. tame_auto. Qed.

Lemma tame_export_to_excel strict data : tame strict (export_to_excel data).
Proof. unfold export_to_excel. tame_auto. Qed.

Lemma tame_save_to_sqlite strict data : tame strict (save_to_sqlite data).
Proof. unfold save_to_sqlite. tame_auto. Qed.

Hint Resolve tame__extract_details tame_save_json tame_export_to_csv tame_export_to_excel
  tame_save_to_sqlite : tame.

Lemma tame_save_results strict data : tame strict (save_results data).
Proof. unfold save_results. tame_auto. Qed.

Lemma tame_setup_driver strict self : tame strict (setup_driver self).
Proof. unfold setup_driver, sys_platform. tame_auto. Qed.

Lemma tame__perform_search strict query : tame strict (_perform_search query).
Proof. unfold _perform_search. tame_auto. Qed.

Lemma tame_progress strict self done total msg : tame strict (progress self done total msg).
Proof. unfold progress. tame_auto. Qed.

Hint Resolve tame_save_results tame_setup_driver tame__perform_search tame_progress : tame.

Lemma tame_process_place strict self query total entry data :
  tame strict (process_place self query total entry data).
Proof. unfold process_place. tame_auto. Qed.

Lemma tame_snippet_href strict el : tame strict (snippet_href el).
Proof. unfold snippet_href. tame_auto. Qed.

Hint Resolve tame_process_place tame_snippet_href : tame.

Lemma tame_collect_links strict elements links : tame strict (collect_links elements links).
Proof. unfold collect_links. tame_auto. Qed.

Hint Resolve tame_collect_links : tame.

(** The discovery loop leaves the browser alone; whether it ends depends
    on the fuel. *)
Lemma tame_scroll_loop fuel self last_count attempts links seen :
  tame false (scroll_loop fuel self last_count attempts links seen).
Proof.
  revert last_count attempts links seen.
  induction fuel as [|fuel IH]; intros; simpl; tame_auto.
Qed.

Hint Resolve tame_scroll_loop : tame.

Lemma tame__scroll_and_collect_results fuel self :
  tame false (_scroll_and_collect_results fuel self).
Proof. unfold _scroll_and_collect_results. tame_auto. Qed.

End TameProgram.

Global Hint Resolve tame_write_file tame_strip_attr tame_attr_contains
  tame__get_text tame__get_attribute tame_text_or_content
  tame__get_text_list tame__get_all_attributes tame__get_text_from_element
  tame__extract_rating tame__extract_reviews_count tame__extract_social_links
  tame__switch_to_overview tame_download_photo tame_photo_round
  tame__extract_photos tame_review_rating tame_review_round
  tame_open_reviews tame__extract_reviews tame_create_place_folder
  tame_setup_session_directory tame_details_name tame_details_category
  tame_open_gallery tame_goto_gallery tame_leave_gallery
  tame_details_features tame_details_address tame_details_website
  tame_details_working_hours tame_details_photos tame__extract_details
  tame_save_json tame_export_to_csv tame_export_to_excel
  tame_save_to_sqlite tame_save_results tame_setup_driver
  tame__perform_search tame_progress tame_process_place
  tame_snippet_href tame_collect_links tame_scroll_loop
  tame__scroll_and_collect_results : tame.


(** ** The browser is closed on every way out of [run] *)

Section Run.
Context {W E : Type} `{!Env W E}.
Implicit Types s : state W.

Lemma blame_tame {A} (m : M W A) D : tame true m → blame m D.
Proof. intros Hm s Hs. by destruct (Hm s) as [_ []]. Qed.

Lemma blame_bind {A B} (m : M W A) (k : A → M W B) D :
  blame m D → (∀ a, blame (k a) D) → blame (m ≫= k) D.
Proof.
  intros Hm Hk s. specialize (Hm s). unfold mbind, M_bind, bind.
  destruct (m s) as [[a|e|] s1]; simpl in *; [apply Hk|done|auto].
Qed.

Lemma blame_attempt {A} (m : M W A) D : blame m D → blame (attempt m) D.
Proof.
  intros Hm s. specialize (Hm s). unfold attempt.
  destruct (m s) as [[a|e|] s1]; simpl in *; [done|done|auto].
Qed.

Lemma blame_run_body fuel self query :
  blame (run_body fuel self query)
        (∃ s1 : state W, (_scroll_and_collect_results fuel self s1).1 = OutOfFuel).
Proof.
  unfold run_body.
  repeat (apply blame_bind; [apply blame_tame; auto with tame|intros _]).
  apply blame_bind; [intros s1 Hs1; by exists s1|intros place_links].
  apply blame_tame. tame_auto.
Qed.

Lemma tame_run_body fuel self query : tame false (run_body fuel self query).
Proof.
  unfold run_body. pose proof (tame__scroll_and_collect_results fuel self).
  tame_auto.
Qed.

(** C8, as the code has it.  Every way out of [run] goes through
    [driver.quit()] when a browser was created: if [run] returns, [quit]
    was called exactly once when [self.driver] is set, and not at all
    otherwise, and [run] raises only what that call of [quit] raised.
    [run] returns whenever the discovery loop ends: nothing else in it
    loops without bound. *)
Theorem run_closes_browser (fuel : nat) (self : scraper) (query : string) s :
  match (run fuel self query s).1 with
  | Ok _ =>
      quits (run fuel self query s).2
      = (quits s + (if driver (run fuel self query s).2 then 1 else 0))%nat
  | Raise e =>
      driver (run fuel self query s).2 = true
      ∧ quits (run fuel self query s).2 = (quits s + 1)%nat
      ∧ ∃ w, (driver_quit w).1 = inr e
  | OutOfFuel =>
      ∃ s1 : state W, (_scroll_and_collect_results fuel self s1).1 = OutOfFuel
  end.
Proof.
  pose proof (tame_run_body fuel self query
                (add_log DEBUG ("▶️ Starting: " +:+ "run") s)) as [Hq _].
  pose proof (blame_run_body fuel self query
                (add_log DEBUG ("▶️ Starting: " +:+ "run") s)) as Hb.
  unfold run, log_execution, try_finally, try_except, quit_driver, logger, modify, gets,
    call, attempt, ret, raise, mbind, M_bind, bind.
  simpl in *.
  destruct (run_body fuel self query _) as [[[]|e|] s1]; simpl in *.
  - destruct (driver s1) eqn:Hd; simpl.
    + destruct (driver_quit (env s1)) as [[[]|e'] w] eqn:Hquit; simpl.
      * rewrite Hd, Hq. lia.
      * rewrite Hd, Hq. split; [done|]. split; [lia|].
        exists (env s1). by rewrite Hquit.
    + rewrite Hd, Hq. lia.
  - destruct (driver s1) eqn:Hd; simpl.
    + destruct (driver_quit (env s1)) as [[[]|e'] w] eqn:Hquit; simpl.
      * rewrite Hd, Hq. lia.
      * rewrite Hd, Hq. split; [done|]. split; [lia|].
        exists (env s1). by rewrite Hquit.
    + rewrite Hd, Hq. lia.
  - by apply Hb.
Qed.

End Run.

(** ** The photo pipeline *)

(** One step of a proof of [post]: apply the rule of the outermost
    construct of the program. *)
Ltac post_step :=
  lazymatch goal with
  | |- post (_ ≫= _) _ _ => apply post_bind
  | |- post (try_except _ _) _ _ => apply post_try_except
  | |- post (attempt _) _ _ => apply post_attempt
  | |- post (ret _) _ _ => apply post_ret
  | |- post (raise _) _ _ => apply post_raise
  | |- post (logger _ _) _ _ => apply post_logger
  | |- post (gets _) _ _ => apply post_gets
  | |- post (modify _) _ _ => apply post_modify
  | |- post (call _) _ _ => apply post_call; intros ? ? ?
  | |- post (write_file _ _) _ _ => unfold write_file
  | |- post (if ?c then _ else _) _ _ => destruct c eqn:?
  | |- post (match ?x with _ => _ end) _ _ => destruct x eqn:?
  end.

Ltac post_auto := repeat (post_step; cbv beta iota).

Lemma accepted_spec (status_code : Z) (payload : list Byte.byte) :
  accepted status_code payload = true → status_code = 200 ∧ (1000 < length payload)%nat.
Proof. unfold accepted. intros [?%Z.eqb_eq ?%Z.ltb_lt]%andb_prop. lia. Qed.

Section Photos.
Context {W E : Type} `{!Env W E}.
Implicit Types s : state W.

Local Arguments photo_path : simpl never.
Local Arguments String.append : simpl never.
Local Arguments Py.str : simpl never.

Lemma files_set_cookies (jar : list (string * string)) s :
  files (fold_left (λ s c, set_cookie c.1 c.2 s) jar s) = files s.
Proof. revert s. induction jar as [|c jar IH]; intros s; [done|]. simpl. by rewrite IH. Qed.

Lemma download_photo_post self folder i src paths s :
  post (download_photo self folder i src paths) s
    (λ r s', match r with
             | Ok paths' => photo_saved self folder i paths paths' s s'
             | Raise _ => False
             | OutOfFuel => True
             end).
Proof.
  unfold download_photo. post_auto.
  all: try (left; done).
  all: try done.
  all: match goal with
       | Ha : accepted _ _ = true, Hg : session_get _ _ _ = _ |- _ =>
           apply accepted_spec in Ha as [-> Hsize];
           right; eexists _, _; split; [done|]; split; [done|];
           eexists _, _, _, _; rewrite Hg; split; [done|]; split; [done|]
       end.
  - right. split; [done|]. split; [done|].
    eexists _, _. split; [|done].
    match goal with Hg : image_encode _ _ _ = _ |- _ => by rewrite Hg end.
  - by left.
  - by left.
  - by left.
Qed.

Lemma photo_round_post self folder i img paths s :
  post (photo_round self folder (i, img) paths) s
    (λ r s', match r with
             | Ok (Continue paths') => photo_saved self folder i paths paths' s s'
             | Ok (Break _) => False
             | Raise _ => files s' = files s
             | OutOfFuel => True
             end).
Proof.
  unfold photo_round. post_auto.
  all: try done.
  all: try (left; done).
  eapply post_mono; [apply download_photo_post|].
  intros [paths'|e|] s'; simpl; done.
Qed.

Lemma saved_upto_mono self k k' saved :
  (k ≤ k')%nat → saved_upto self k saved → saved_upto self k' saved.
Proof.
  intros Hk (Hall & Hsorted & Hlen). split; [|split; [done|lia]].
  eapply Forall_impl; [exact Hall|]. simpl. intros x [? ?]. split; [done|lia].
Qed.

Lemma saved_upto_snoc self k saved ext c :
  saved_upto self k saved → saved_content self ext c →
  saved_upto self (S k) (saved ++ [((k + 1)%nat, ext, c)])%list.
Proof.
  intros (Hall & Hsorted & Hlen) Hc. split; [|split].
  - apply Forall_app. split.
    + eapply Forall_impl; [exact Hall|]. simpl. intros x [? ?]. split; [done|lia].
    + apply Forall_singleton. simpl. split; [done|lia].
  - rewrite map_app. simpl.
    induction saved as [|x saved IH]; simpl in *.
    + repeat constructor.
    + apply StronglySorted_inv in Hsorted as [Hs Hx].
      apply Forall_cons in Hall as [[_ Hx1] Hall].
      constructor.
      * apply IH; [done..|lia].
      * apply Forall_app. split; [done|]. apply Forall_singleton. lia.
  - rewrite length_app. simpl. lia.
Qed.

(** The photo loop from candidate number [k] on. *)
Lemma photo_loop_post self folder (n k : nat) (rest : list E) saved s0 s :
  (k + length rest = n)%nat →
  saved_upto self k saved →
  files s = (files s0 ++ map (saved_file folder) saved)%list →
  post (for_ (enumerate_from k rest) (photo_round self folder) (map (saved_path folder) saved)) s
    (λ r s', match r with
             | Ok (paths, _) =>
                 ∃ saved', paths = map (saved_path folder) saved'
                           ∧ files s' = (files s0 ++ map (saved_file folder) saved')%list
                           ∧ saved_upto self n saved'
             | Raise _ => False
             | OutOfFuel => True
             end).
Proof.
  intros Hn Hsaved Hfiles.
  apply (post_for_ (λ l paths s,
           ∃ k rest saved, l = enumerate_from k rest ∧ (k + length rest = n)%nat
                           ∧ saved_upto self k saved
                           ∧ paths = map (saved_path folder) saved
                           ∧ files s = (files s0 ++ map (saved_file folder) saved)%list)).
  - by exists k, rest, saved.
  - clear. intros [i img] l' paths s (k & rest & saved & Hl & Hn & Hsaved & -> & Hfiles).
    destruct rest as [|img' rest]; simplify_eq/=.
    eapply post_mono; [apply photo_round_post|].
    intros [[paths'|paths']|e|] s'; simpl; try done.
    + intros [[-> Hf]|(ext & c & -> & Hf & Hc)].
      * exists (S k), rest, saved.
        split; [done|]. split; [lia|].
        split; [apply (saved_upto_mono self k); [lia|done]|].
        split; [done|congruence].
      * exists (S k), rest, (saved ++ [((k + 1)%nat, ext, c)])%list.
        split; [done|]. split; [lia|]. split; [by apply saved_upto_snoc|].
        split; [by rewrite map_app|].
        rewrite Hf, Hfiles, map_app, (assoc_L (++)). done.
    + intros Hf. exists saved. split; [done|]. split; [congruence|].
      apply (saved_upto_mono self k); [lia|done].
  - clear. intros paths s (k & rest & saved & Hl & Hn & Hsaved & -> & Hfiles).
    destruct rest; simplify_eq/=. exists saved.
    split; [done|]. split; [done|].
    apply (saved_upto_mono self k); [lia|done].
Qed.

Lemma slice_to_length {A} (n : Z) (l : list A) :
  0 ≤ n → (Z.of_nat (length (Py.slice_to n l)) ≤ n).
Proof.
  intros Hn. unfold Py.slice_to. destruct (0 <=? n) eqn:H0; [|lia].
  rewrite length_take. lia.
Qed.

(** What [_extract_photos] returns and writes: it never raises; the paths
    are those of the photos it saved, file for file, in order; the numbers
    in the file names grow and stay within the cap. *)
Lemma _extract_photos_post self folder s :
  0 ≤ max_photos self →
  post (_extract_photos self folder) s
    (λ r s', match r with
             | Ok paths =>
                 ∃ saved, paths = map (saved_path folder) saved
                          ∧ files s' = (files s ++ map (saved_file folder) saved)%list
                          ∧ saved_upto self (Z.to_nat (max_photos self)) saved
             | Raise _ => False
             | OutOfFuel => True
             end).
Proof.
  intros Hmax.
  assert (Hnone : saved_upto self (Z.to_nat (max_photos self)) []).
  { split; [constructor|]. split; [constructor|simpl; lia]. }
  unfold _extract_photos. apply post_bind, post_attempt. post_auto.
  all: try (exists []; rewrite ?app_nil_r; done).
  - unfold enumerate.
    eapply post_mono.
    + apply (photo_loop_post self folder (length (Py.slice_to (max_photos self) a0)) 0
               _ [] s).
      * done.
      * split; [constructor|]. split; [constructor|done].
      * simpl. rewrite files_set_cookies. simpl. by rewrite app_nil_r.
    + intros [[paths pending]|e|] s'; simpl; try done.
      intros (saved & -> & Hf & Hs).
      assert (saved_upto self (Z.to_nat (max_photos self)) saved).
      { eapply saved_upto_mono; [|exact Hs].
        pose proof (slice_to_length (max_photos self) a0 Hmax). lia. }
      destruct pending; post_auto; exists saved; done.
  - exists []. simpl. rewrite files_set_cookies. simpl. by rewrite app_nil_r.
Qed.

End Photos.

(** ** The review pipeline, and the records of [_extract_details] *)

Lemma truthy_nonempty (t : string) : Py.truthy t = true ↔ t ≠ "".
Proof. by destruct t. Qed.

Lemma review_kept_valid (r : Review.t) : review_kept r = true ↔ review_valid r.
Proof.
  unfold review_kept, review_valid.
  rewrite andb_true_iff, orb_true_iff, !truthy_nonempty. tauto.
Qed.

(** Run a program whose result does not matter to the goal. *)
Ltac post_skip :=
  apply post_bind, post_any; intros [?|?|] ?; cbv beta iota.

Section Details.
Context {W E : Type} `{!Env W E}.
Implicit Types s : state W.

Lemma review_round_post item reviews s :
  post (review_round item reviews) s
    (λ r _, match r with
            | Ok (Continue reviews') =>
                reviews' = reviews
                ∨ ∃ rv, review_valid rv ∧ reviews' = (reviews ++ [rv])%list
            | Ok (Break _) => False
            | Raise _ => False
            | OutOfFuel => True
            end).
Proof.
  unfold review_round. apply post_try_except.
  do 6 (post_skip; [|post_auto; by left|done]).
  post_auto.
  - right. eexists. split; [|done]. by apply review_kept_valid.
  - by left.
Qed.

Lemma _extract_reviews_post s :
  post _extract_reviews s
    (λ r _, match r with
            | Ok reviews => (length reviews ≤ 5)%nat ∧ Forall review_valid reviews
            | Raise _ => False
            | OutOfFuel => True
            end).
Proof.
  unfold _extract_reviews. apply post_bind, post_attempt, post_any.
  intros [review_items|e|] s1; cbv beta iota;
    [|post_auto; split; [simpl; lia|constructor]|done].
  apply post_bind.
  apply (post_for_ (λ l reviews _,
           (length reviews + length l ≤ 5)%nat ∧ Forall review_valid reviews)).
  - simpl. rewrite length_take. split; [lia|constructor].
  - intros item l' reviews s2 [Hlen Hall].
    eapply post_mono; [apply review_round_post|].
    intros [[reviews'|?]|?|] s3; simpl in *; try done.
    intros [->|(rv & Hrv & ->)]; (split; [|by rewrite ?Forall_app, ?Forall_singleton]).
    + lia.
    + rewrite length_app. simpl. lia.
  - intros reviews s2 [Hlen Hall]. post_auto. split; [simpl in Hlen; lia|done].
Qed.

Lemma details_photos_post (P : list string → Prop) self folder s :
  P [] →
  (∀ s, post (_extract_photos self folder) s
          (λ r _, match r with Ok photos => P photos | _ => True end)) →
  post (details_photos self folder) s
    (λ r _, match r with Ok photos => P photos | _ => True end).
Proof.
  intros Hnil Hphotos. unfold details_photos.
  destruct (scrape_photos self); [|by apply post_ret].
  do 2 (post_skip; [|done..]).
  apply post_bind. eapply post_mono; [apply Hphotos|].
  intros [photos|?|] s3; cbv beta iota; try done.
  intros HP. post_skip; [|done..]. by apply post_ret.
Qed.

(** A record has the photos [_extract_photos] returned (none when photos
    are off) and the reviews [_extract_reviews] returned (none when reviews
    are off). *)
Lemma _extract_details_post (P : list string → Prop) (R : list Review.t → Prop)
    self index query s :
  P [] → R [] →
  (∀ folder s, post (_extract_photos self folder) s
                 (λ r _, match r with Ok photos => P photos | _ => True end)) →
  (∀ s, post _extract_reviews s
          (λ r _, match r with Ok reviews => R reviews | _ => True end)) →
  post (_extract_details self index query) s
    (λ r _, match r with
            | Ok (Some d) => P (Place.photos d) ∧ R (Place.reviews d)
            | _ => True
            end).
Proof.
  intros HP HR Hphotos Hreviews.
  unfold _extract_details, handle_errors. apply post_try_except.
  assert (Hhandler : ∀ e s1,
    post (logger WARNING ("⚠️ Handled error in " +:+ "_extract_details" +:+ ": " +:+ exn_msg e);;
          (if false then raise e else ret None)) s1
      (λ (r : outcome (option Place.t)) _,
         match r with
         | Ok (Some d) => P (Place.photos d) ∧ R (Place.reviews d)
         | _ => True
         end)).
  { intros e s1. by post_auto. }
  post_skip; [|apply Hhandler|done].
  destruct (negb _); [by apply post_ret|].
  do 8 (post_skip; [|apply Hhandler|done]).
  post_skip; [|apply Hhandler|done].
  apply post_bind. eapply post_mono; [by apply details_photos_post|].
  intros [photos|?|] s3; cbv beta iota; [|intros _; apply Hhandler|done].
  intros Hp.
  do 9 (post_skip; [|apply Hhandler|done]).
  apply post_bind.
  destruct (scrape_reviews self).
  - eapply post_mono; [apply Hreviews|].
    intros [reviews|?|] s4; cbv beta iota; [|intros _; apply Hhandler|done].
    intros Hr. by apply post_ret.
  - apply post_ret. by apply post_ret.
Qed.

(** C3. Every record [_extract_details] produces has at most 5 reviews,
    each with a rating and with a text or an author.  [_extract_reviews]
    itself never raises: whatever the page does, it returns such a list, so
    a parsed review that fails the test is left out without an error. *)
Theorem reviews_capped_and_valid :
  (∀ s, ∃ reviews, (_extract_reviews s).1 = Ok reviews
                   ∧ (length reviews ≤ 5)%nat ∧ Forall review_valid reviews)
  ∧ (∀ self index query s d s',
       _extract_details self index query s = (Ok (Some d), s') →
       (length (Place.reviews d) ≤ 5)%nat ∧ Forall review_valid (Place.reviews d)).
Proof.
  split.
  - intros s. pose proof (_extract_reviews_post s) as Hpost.
    destruct (tame__extract_reviews true s) as [_ Hfuel].
    unfold post in Hpost.
    destruct (_extract_reviews s).1 as [reviews|e|]; [by exists reviews|done|].
    by destruct Hfuel.
  - intros self index query s d s' Hrun.
    assert (Hpost : post (_extract_details self index query) s
              (λ r _, match r with
                      | Ok (Some d) =>
                          True ∧ (length (Place.reviews d) ≤ 5)%nat
                                 ∧ Forall review_valid (Place.reviews d)
                      | _ => True
                      end)).
    { apply (_extract_details_post (λ _, True)
               (λ reviews, (length reviews ≤ 5)%nat ∧ Forall review_valid reviews)).
      - done.
      - split; [simpl; lia|constructor].
      - intros folder s1. apply post_any. by intros [].
      - intros s1. eapply post_mono; [apply _extract_reviews_post|]. by intros []. }
    unfold post in Hpost. rewrite Hrun in Hpost. apply Hpost.
Qed.

Lemma _extract_photos_saved self folder s :
  0 ≤ max_photos self →
  ∃ saved, (_extract_photos self folder s).1 = Ok (map (saved_path folder) saved)
           ∧ files (_extract_photos self folder s).2
             = (files s ++ map (saved_file folder) saved)%list
           ∧ saved_upto self (Z.to_nat (max_photos self)) saved.
Proof.
  intros Hmax. pose proof (_extract_photos_post self folder s Hmax) as Hpost.
  destruct (tame__extract_photos true self folder s) as [_ Hfuel].
  unfold post in Hpost.
  destruct (_extract_photos self folder s).1 as [paths|e|]; [|done|by destruct Hfuel].
  destruct Hpost as (saved & -> & Hfiles & Hsaved). by exists saved.
Qed.

(** C4, as the code has it.  [_extract_photos] never raises and returns at
    most [max_photos] paths, so every record has at most that many photos.
    The files it writes are exactly those of the paths it returns, one
    each, in order.  Each was written after a response with status 200 and
    a payload of more than 1000 bytes; what was written is that payload,
    or, for a scraper that converts to webp or png, what the encoder made
    of it, whose size is not checked.  A scraper that does not convert
    writes more than 1000 bytes to every path it records. *)
Theorem photos_capped_and_accepted (self : scraper) :
  0 ≤ max_photos self →
  (∀ folder s,
     ∃ paths written,
       (_extract_photos self folder s).1 = Ok paths
       ∧ Z.of_nat (length paths) ≤ max_photos self
       ∧ files (_extract_photos self folder s).2 = (files s ++ written)%list
       ∧ map fst written = paths
       ∧ Forall (λ pc : string * content,
           ∃ url jar w payload,
             (session_get url jar w).1 = inl (200, payload)
             ∧ (1000 < length payload)%nat
             ∧ (pc.2 = Bytes payload
                ∨ (converts self = true
                   ∧ ∃ w' encoded,
                       (image_encode (photo_format self) payload w').1 = inl encoded
                       ∧ pc.2 = Bytes encoded))) written
       ∧ (converts self = false →
          Forall (λ pc : string * content,
            ∃ payload, pc.2 = Bytes payload ∧ (1000 < length payload)%nat) written))
  ∧ (∀ index query s d s',
       _extract_details self index query s = (Ok (Some d), s') →
       Z.of_nat (length (Place.photos d)) ≤ max_photos self).
Proof.
  intros Hmax. split.
  - intros folder s.
    destruct (_extract_photos_saved self folder s Hmax)
      as (saved & Hpaths & Hfiles & Hall & _ & Hlen).
    exists (map (saved_path folder) saved), (map (saved_file folder) saved).
    split; [done|]. split; [rewrite length_map; lia|]. split; [done|].
    split; [by rewrite map_map|]. split.
    + apply Forall_map. eapply Forall_impl; [exact Hall|]. simpl.
      intros [[n ext] c] [(url & jar & w & payload & Hget & Hsize & Hc) _]. simpl in *.
      exists url, jar, w, payload. split; [done|]. split; [done|].
      destruct Hc as [[_ ->]|(Hconv & _ & Henc)]; [by left|by right].
    + intros Hconv. apply Forall_map. eapply Forall_impl; [exact Hall|]. simpl.
      intros [[n ext] c] [(url & jar & w & payload & Hget & Hsize & Hc) _]. simpl in *.
      destruct Hc as [[_ ->]|(Hconv' & _)]; [by exists payload|congruence].
  - intros index query s d s' Hrun.
    assert (Hpost : post (_extract_details self index query) s
              (λ r _, match r with
                      | Ok (Some d) =>
                          Z.of_nat (length (Place.photos d)) ≤ max_photos self ∧ True
                      | _ => True
                      end)).
    { apply (_extract_details_post
               (λ photos, Z.of_nat (length photos) ≤ max_photos self) (λ _, True)).
      - simpl. lia.
      - done.
      - intros folder s1. eapply post_mono; [by apply _extract_photos_post|].
        intros [photos|?|] ?; try done.
        intros (saved & -> & _ & _ & _ & Hlen). rewrite length_map. lia.
      - intros s1. apply post_any. by intros []. }
    unfold post in Hpost. rewrite Hrun in Hpost. apply Hpost.
Qed.


End Details.

(** ** Listing discovery *)

Lemma first_links_length self links :
  0 ≤ max_results self → Z.of_nat (length (first_links self links)) ≤ max_results self.
Proof. apply slice_to_length. Qed.

Lemma first_links_NoDup self links : NoDup (first_links self links).
Proof.
  unfold first_links, Py.slice_to.
  destruct (0 <=? max_results self);
    (eapply sublist_NoDup; [apply (NoDup_elements links)|apply sublist_take]).
Qed.

Lemma first_links_full self links :
  0 ≤ max_results self → max_results self ≤ Z.of_nat (size links) →
  Z.of_nat (length (first_links self links)) = max_results self.
Proof.
  intros H0 Hsize. unfold first_links, Py.slice_to.
  destruct (0 <=? max_results self) eqn:Hle; [|lia].
  unfold size, set_size in Hsize. simpl in Hsize. rewrite length_take. lia.
Qed.

Lemma repeat_snoc {A} (c : A) (n : nat) : (repeat c n ++ [c])%list = repeat c (S n).
Proof. induction n as [|n IH]; simpl; [done|]. by rewrite IH. Qed.

Section Discovery.
Context {W E : Type} `{!Env W E}.
Implicit Types s : state W.

Local Arguments first_links : simpl never.
Local Arguments String.append : simpl never.
Local Arguments Py.str : simpl never.
Local Arguments pretty : simpl never.
Local Arguments Nat.leb : simpl never.
Local Arguments Nat.eqb : simpl never.
Local Arguments Z.leb : simpl never.

(** The loop, from any round on: [attempts] counts the rounds just passed
    whose count was [last_count], the count of the round before them. *)
Lemma scroll_loop_post fuel self last_count attempts links seen s :
  0 < max_results self →
  (∃ pre, (0%nat :: seen) = (pre ++ repeat last_count (S attempts))%list) →
  post (scroll_loop fuel self last_count attempts links seen) s
    (λ r _, match r with Ok d => discovery_ok self d | _ => True end).
Proof.
  intros Hmax. revert last_count attempts links seen s.
  induction fuel as [|fuel IH]; intros last_count attempts links seen s Hinv; [done|].
  simpl.
  apply post_bind, post_any; intros [a|?|] s1; cbv beta iota; [|done..].
  apply post_bind, post_any; intros [a0|?|] s2; cbv beta iota; [|done..].
  destruct (max_results self <=? Z.of_nat (size a0)) eqn:Htarget.
  { post_auto. split; [apply first_links_length; lia|]. split; [apply first_links_NoDup|].
    simpl. rewrite first_links_full; [lia|lia|]. by apply Z.leb_le. }
  assert (Hbounds : ∀ how counts,
            Z.of_nat (length (found (Discovery how counts (first_links self a0))))
              ≤ max_results self
            ∧ NoDup (found (Discovery how counts (first_links self a0)))).
  { intros. split; [apply first_links_length; lia|apply first_links_NoDup]. }
  assert (Hscroll : ∀ attempts' s3,
    (∃ pre, (0%nat :: (seen ++ [length a])%list)
            = (pre ++ repeat (length a) (S attempts'))%list) →
    post (logger INFO ("   Loaded " +:+ Py.str (length a) +:+ " snippets, "
                       +:+ Py.str (size a0) +:+ " unique links...");;
          r ← attempt
                (match last a with
                 | Some el =>
                     call (driver_execute_script "arguments[0].scrollIntoView(true);" (Some el));;
                     sleep 1500
                 | None => ret tt
                 end);
          match r with
          | inr _ => ret (Discovery ScrollFailed (seen ++ [length a])%list (first_links self a0))
          | inl _ => scroll_loop fuel self (length a) attempts' a0 (seen ++ [length a])%list
          end) s3
      (λ r _, match r with Ok d => discovery_ok self d | _ => True end)).
  { intros attempts' s3 Hinv'. post_skip; [|done..].
    apply post_bind, post_any; intros [r|?|] s4; cbv beta iota; [|done..].
    destruct r as [[]|e].
    - by apply IH.
    - apply post_ret. destruct (Hbounds ScrollFailed (seen ++ [length a])%list).
      split; [done|]. split; [done|]. intros _. by left. }
  destruct (length a =? last_count)%nat eqn:Hsame.
  - apply Nat.eqb_eq in Hsame. destruct Hinv as [pre Hpre].
    assert (Hnext : (0%nat :: (seen ++ [length a])%list)
                    = (pre ++ repeat (length a) (S (attempts + 1)))%list).
    { rewrite app_comm_cons, Hpre, Hsame, <- (assoc_L (++)), repeat_snoc.
      by replace (attempts + 1)%nat with (S attempts) by lia. }
    destruct (max_attempts <=? attempts + 1)%nat eqn:Hstall.
    + post_auto. destruct (Hbounds Stalled (seen ++ [length a])%list).
      split; [done|]. split; [done|]. intros _. right. split; [done|].
      apply Nat.leb_le in Hstall. unfold max_attempts in Hstall.
      exists (pre ++ repeat (length a) (S (attempts + 1) - 6))%list, (length a).
      simpl counts. rewrite Hnext, <- (assoc_L (++)), <- repeat_app.
      do 2 f_equal. lia.
    + apply Hscroll. by exists pre.
  - apply Hscroll. exists (0%nat :: seen). by rewrite app_comm_cons.
Qed.


End Discovery.

(** ** The program on concrete pages *)

(** From here on a state over a [page] is run with the scripted
    environment. *)
Global Existing Instance page_env.

Example run_on_cafe_page :
  let r := run 10 cafe_scraper "Coffee shop Moscow" (fresh cafe_page) in
  r.1 = Ok tt
  ∧ driver r.2 = true ∧ quits r.2 = 1%nat
  ∧ map fst (files r.2)
    = [session_dir +:+ "/places_data.json"; session_dir +:+ "/places_data.csv";
       session_dir +:+ "/places_data.db"; session_dir +:+ "/places_data.xlsx"]
  ∧ ∃ d, head (files r.2) = Some (session_dir +:+ "/places_data.json", JsonDoc [d])
         ∧ Place.name d = "Cafe Pushkin" ∧ Place.rating d = "4.9"
         ∧ Place.reviews d = [Review.mk "" "Great coffee" "5" ""]
         ∧ Place.search_query d = Some "Coffee shop Moscow".
Proof. vm_compute. repeat split. eexists. repeat split. Qed.

(** A record of the cafe page, under the theorem on reviews. *)
Lemma reviews_capped_witness :
  match (_extract_details cafe_scraper 1 "Coffee shop Moscow"
           (set_session_dir session_dir (fresh cafe_page))).1 with
  | Ok (Some d) =>
      Place.reviews d = [Review.mk "" "Great coffee" "5" ""]
      ∧ (length (Place.reviews d) ≤ 5)%nat
      ∧ Forall review_valid (Place.reviews d)
  | _ => False
  end.
Proof.
  destruct (_extract_details cafe_scraper 1 "Coffee shop Moscow"
              (set_session_dir session_dir (fresh cafe_page)))
    as [[[d|]|e|] s'] eqn:Hrun; simpl.
  - split; [|exact (proj2 reviews_capped_and_valid _ _ _ _ _ _ Hrun)].
    vm_compute in Hrun. by simplify_eq.
  - vm_compute in Hrun. discriminate.
  - vm_compute in Hrun. discriminate.
  - vm_compute in Hrun. discriminate.
Defined.

(** *** Field extractors and a stale element (C1) *)

Section NothingFound.
Context {W E : Type} `{!Env W E}.

Lemma _get_text_nothing_found (selectors : list string) (s : state W) :
  nothing_found selectors → (_get_text selectors s).1 = Ok "".
Proof.
  revert s. induction selectors as [|selector rest IH]; intros s Hnone; [done|].
  destruct (Hnone selector (env s)) as (e & He & Hcls); [by left|].
  simpl. unfold try_except_on, try_except, attempt, call, mbind, M_bind, bind.
  destruct (driver_find_element CSS_SELECTOR selector (env s)) as [r w].
  simpl in He. subst r. simpl. rewrite Hcls. simpl.
  apply IH. intros sel w' Hin. apply Hnone. by right.
Qed.

Lemma _get_attribute_nothing_found (selectors : list string) (a : string) (s : state W) :
  nothing_found selectors → (_get_attribute selectors a s).1 = Ok "".
Proof.
  revert s. induction selectors as [|selector rest IH]; intros s Hnone; [done|].
  destruct (Hnone selector (env s)) as (e & He & Hcls); [by left|].
  simpl. unfold try_except_on, try_except, attempt, call, mbind, M_bind, bind.
  destruct (driver_find_element CSS_SELECTOR selector (env s)) as [r w].
  simpl in He. subst r. simpl. rewrite Hcls. simpl.
  apply IH. intros sel w' Hin. apply Hnone. by right.
Qed.

End NothingFound.

(** C1.  The claim fails on the code where an element is found and then
    goes stale.  [_get_text] catches [NoSuchElementException] only: on the
    page whose title raises [StaleElementReferenceException] when read, the
    exception leaves [_get_text]; [handle_errors] turns it into [None] for
    [_extract_details], and [run] drops the listing: the JSON document is
    written with no record, where the same page with a readable title
    gives one. *)
Theorem stale_title_drops_listing :
  (_get_text title_selectors (fresh stale_title_page)).1 = Raise stale
  ∧ (_extract_details cafe_scraper 1 "Coffee shop Moscow" (fresh stale_title_page)).1
    = Ok None
  ∧ files (run 10 cafe_scraper "Coffee shop Moscow" (fresh stale_title_page)).2
    = [(session_dir +:+ "/places_data.json", JsonDoc [])]
  ∧ (_get_text title_selectors (fresh cafe_page)).1 = Ok "Cafe Pushkin".
Proof. vm_compute. repeat split. Qed.

(** The helpers beside [_get_text] do swallow the stale element. *)
Example stale_element_swallowed_by_siblings :
  (_get_text_from_element
     (Node (inl "") [] [(".business-review-view__date", Node (inr stale) [] [])])
     ".business-review-view__date" (fresh blank_page)).1 = Ok ""
  ∧ (_get_text_list title_selectors (fresh stale_title_page)).1 = Ok [].
Proof. vm_compute. repeat split. Qed.

(** *** Discovery (C2) *)



Example discovery_stalls_after_five_rounds :
  (scroll_loop 10 three_scraper 0 0 ∅ [] (fresh one_result_page)).1
  = Ok (Discovery Stalled [1; 1; 1; 1; 1; 1]%nat [cafe_link]).
Proof. by vm_compute. Qed.

(** *** Photos (C4, C5, C6) *)

(** C4 fails as stated for a scraper that converts: the payload has 1001
    bytes and status 200, the encoder gives 120 bytes, and the path of
    the file of 120 bytes is recorded. *)
Lemma converted_photo_can_be_small :
  (_extract_photos png_scraper "out" (fresh tiny_png_page)).1
  = Ok ["out/photos/photo_1.png"]
  ∧ files (_extract_photos png_scraper "out" (fresh tiny_png_page)).2
    = [("out/photos/photo_1.png", Bytes tiny_image)]
  ∧ (length tiny_image ≤ 1000)%nat
  ∧ accepted 200 payload_1001 = true.
Proof. vm_compute. repeat split; lia. Qed.

Lemma photos_capped_witness :
  0 ≤ max_photos jpg_scraper
  ∧ (∃ paths written,
       (_extract_photos jpg_scraper "out" (fresh gallery_page)).1 = Ok paths
       ∧ Z.of_nat (length paths) ≤ max_photos jpg_scraper
       ∧ files (_extract_photos jpg_scraper "out" (fresh gallery_page)).2
         = (files (fresh gallery_page) ++ written)%list
       ∧ map fst written = paths
       ∧ Forall (λ pc : string * content,
           ∃ url jar w payload,
             (session_get url jar w).1 = inl (200, payload)
             ∧ (1000 < length payload)%nat
             ∧ (pc.2 = Bytes payload
                ∨ (converts jpg_scraper = true
                   ∧ ∃ w' encoded,
                       (image_encode (photo_format jpg_scraper) payload w').1 = inl encoded
                       ∧ pc.2 = Bytes encoded))) written
       ∧ (converts jpg_scraper = false →
          Forall (λ pc : string * content,
            ∃ payload, pc.2 = Bytes payload ∧ (1000 < length payload)%nat) written)).
Proof.
  split; [vm_compute; discriminate|].
  apply (photos_capped_and_accepted jpg_scraper).
  vm_compute; discriminate.
Defined.



Lemma replace_absent (old new s : string) :
  Py.contains old s = false → Py.replace old new s = s.
Proof.
  destruct old as [|c old]; [by destruct s|].
  unfold Py.replace. induction s as [|d s IH]; [done|].
  intros Hc.
  change (Py.contains (String c old) (String d s))
    with (String.prefix (String c old) (String d s) || Py.contains (String c old) s) in Hc.
  apply orb_false_elim in Hc as [Hp Hc].
  change (Py.replace_go (String c old) new (String d s) 0)
    with (if String.prefix (String c old) (String d s)
          then new +:+ Py.replace_go (String c old) new s (String.length (String c old) - 1)
          else String d (Py.replace_go (String c old) new s 0)).
  rewrite Hp. by rewrite IH.
Qed.

Lemma upgrade_src_unmarked (src : string) :
  Forall (λ marker, Py.contains marker src = false) size_markers →
  upgrade_src src = src.
Proof.
  unfold size_markers. rewrite !Forall_cons.
  intros (H1 & H2 & H3 & H4 & H5 & H6 & H7 & H8 & H9 & _).
  unfold upgrade_src. rewrite H1, H2, H3. cbn [orb].
  rewrite (replace_absent "M_height" "XL" src H4).
  rewrite (replace_absent "L_height" "XL" src H5).
  rewrite (replace_absent "200x200" "orig" src H6).
  rewrite (replace_absent "400x400" "orig" src H7).
  rewrite (replace_absent "600x600" "orig" src H8).
  by rewrite (replace_absent "priority-headline-background" "XL" src H9).
Qed.

(** C6.  The claim fails on the code for the markers [XXS_height],
    [XS_height] and [XXS].  [S_height] is replaced first, so the two
    longer markers, which end in it, become [XXXL] and [XXL] and the
    replacements written for them never apply; a bare [XXS] enters the
    branch and is left as it is.  [S_height] and the fixed sizes are
    rewritten as claimed, and a URL with no marker is not changed. *)
Theorem upgrade_src_misses_markers :
  upgrade_src "https://avatars.mds.yandex.net/get-altay/1/XXS_height"
  = "https://avatars.mds.yandex.net/get-altay/1/XXXL"
  ∧ upgrade_src "https://avatars.mds.yandex.net/get-altay/1/XS_height"
    = "https://avatars.mds.yandex.net/get-altay/1/XXL"
  ∧ upgrade_src "https://avatars.mds.yandex.net/get-altay/1/XXS"
    = "https://avatars.mds.yandex.net/get-altay/1/XXS"
  ∧ upgrade_src "https://avatars.mds.yandex.net/get-altay/1/S_height"
    = "https://avatars.mds.yandex.net/get-altay/1/XL"
  ∧ upgrade_src "https://avatars.mds.yandex.net/get-altay/1/200x200"
    = "https://avatars.mds.yandex.net/get-altay/1/orig"
  ∧ (∀ src, Forall (λ marker, Py.contains marker src = false) size_markers →
            upgrade_src src = src).
Proof. repeat (split; [reflexivity|]). exact upgrade_src_unmarked. Qed.

(** *** Exports and the end of a run (C7, C8, C10) *)

Example csv_failure_is_isolated :
  let r := run 10 cafe_scraper "Coffee shop Moscow" (fresh csv_refused_page) in
  r.1 = Ok tt
  ∧ map fst (files r.2)
    = [session_dir +:+ "/places_data.json"; session_dir +:+ "/places_data.db";
       session_dir +:+ "/places_data.xlsx"]
  ∧ (ERROR, "Failed to export CSV: permission denied") ∈ log r.2.
Proof.
  vm_compute. split; [done|]. split; [done|].
  repeat first [by apply list_elem_of_here|apply list_elem_of_further].
Qed.

Example empty_run_writes_json_only :
  let r := run 10 cafe_scraper "Coffee shop Moscow" (fresh no_result_page) in
  r.1 = Ok tt
  ∧ files r.2 = [(session_dir +:+ "/places_data.json", JsonDoc [])]
  ∧ quits r.2 = 1%nat.
Proof. by vm_compute. Qed.

(** The exports of an empty run, under the theorem on them. *)
Lemma empty_run_exports_witness :
  Py.truthy (current_session_dir (set_session_dir session_dir (fresh no_result_page))) = true
  ∧ (save_json [] (set_session_dir session_dir (fresh no_result_page))).1
    = Ok (session_dir +:+ "/places_data.json")
  ∧ files (save_results [] (set_session_dir session_dir (fresh no_result_page))).2
    = [(session_dir +:+ "/places_data.json", JsonDoc [])]
  ∧ (export_to_csv [] (set_session_dir session_dir (fresh no_result_page))).1 = Ok "".
Proof.
  pose proof (empty_run_exports (set_session_dir session_dir (fresh no_result_page)))
    as (Hcsv & _ & _ & Hjson).
  specialize (Hjson eq_refl). destruct Hcsv as [Hcsv _].
  split; [reflexivity|].
  destruct Hjson as (Hpath & _ & Hfiles).
  split; [exact Hpath|]. split; [exact Hfiles|exact Hcsv].
Defined.

(** A fatal error before the browser exists: the default browser, Chrome,
    for which [setup_driver] raises [NameError]. *)
Example run_without_browser :
  let chrome := YandexMapsScraper false 10 true true "jpg" 5 "chrome" "20260101_120000" in
  let r := run 10 chrome "Coffee shop Moscow" (fresh cafe_page) in
  r.1 = Ok tt ∧ driver r.2 = false ∧ quits r.2 = 0%nat ∧ files r.2 = []
  ∧ (CRITICAL, "Critical failure: name 'sys' is not defined") ∈ log r.2.
Proof.
  vm_compute. repeat (split; [done|]).
  repeat first [by apply list_elem_of_here|apply list_elem_of_further].
Qed.

(** A fatal error with the browser up: the search box never appears. *)
Example run_with_search_timeout :
  let r := run 10 cafe_scraper "Coffee shop Moscow" (fresh blank_page) in
  r.1 = Ok tt ∧ driver r.2 = true ∧ quits r.2 = 1%nat ∧ files r.2 = []
  ∧ (CRITICAL, "Critical failure: timeout") ∈ log r.2.
Proof.
  vm_compute. repeat (split; [done|]).
  repeat first [by apply list_elem_of_here|apply list_elem_of_further].
Qed.

Example rating_read_from_page :
  (_extract_rating (fresh cafe_page)).1 = Ok "4.9"
  ∧ (_extract_reviews_count (fresh cafe_page)).1 = Ok "".
Proof. by vm_compute. Qed.

(** *** A results panel that never stops growing *)

Section Growing.
Local Existing Instance growing_env.
Implicit Types s : state nat.

Local Arguments String.append : simpl never.
Local Arguments Py.str : simpl never.
Local Arguments pretty : simpl never.
Local Arguments Nat.leb : simpl never.
Local Arguments Nat.eqb : simpl never.
Local Arguments Z.leb : simpl never.

Lemma growing_snippet_href el s :
  post (snippet_href el) s (λ r s', r = Ok None ∧ env s' = env s).
Proof. unfold snippet_href, snippet_link_selectors. by vm_compute. Qed.

Lemma growing_collect_links (n : nat) (links : gset string) s :
  post (collect_links (repeat tt n) links) s (λ r s', r = Ok links ∧ env s' = env s).
Proof.
  unfold collect_links. apply post_bind.
  apply (post_for_ (λ _ b s', b = links ∧ env s' = env s)).
  - done.
  - intros el l' b s1 [-> Henv]. apply post_try_except, post_bind.
    eapply post_mono; [apply growing_snippet_href|].
    intros r s2 [-> Henv']. simpl. apply post_ret. split; [done|congruence].
  - intros b s1 [-> Henv]. by post_auto.
Qed.

(** While the count grows the loop goes on: no amount of fuel is enough. *)
Lemma growing_scroll_loop fuel self last_count attempts seen s :
  0 < max_results self → (last_count < env s)%nat →
  (scroll_loop fuel self last_count attempts ∅ seen s).1 = OutOfFuel.
Proof.
  intros Hmax. revert last_count attempts seen s.
  induction fuel as [|fuel IH]; intros last_count attempts seen s Hlast; [done|].
  change ((scroll_loop (S fuel) self last_count attempts ∅ seen s).1 = OutOfFuel)
    with (post (scroll_loop (S fuel) self last_count attempts ∅ seen) s
            (λ r _, r = OutOfFuel)).
  simpl. apply post_bind, post_call; [|done].
  intros elements w [= <- <-]. cbv beta iota. rewrite repeat_length.
  apply post_bind. eapply post_mono; [apply growing_collect_links|].
  intros r s1 [-> Henv]. cbv beta iota. simpl in Henv.
  replace (max_results self <=? Z.of_nat (size (∅ : gset string))) with false
    by (symmetry; apply Z.leb_gt; rewrite size_empty; lia).
  replace (env s =? last_count)%nat with false by (symmetry; apply Nat.eqb_neq; lia).
  destruct (env s) as [|n] eqn:Hn; [lia|].
  replace (last (repeat tt (S n))) with (Some tt)
    by (symmetry; rewrite <- repeat_snoc; apply last_snoc).
  post_auto; simplify_eq/=.
  apply IH. simpl. lia.
Qed.

End Growing.

(** The third case of [run_closes_browser] does occur: on the growing
    panel the discovery loop does not end, whatever the fuel. *)
Example discovery_can_run_forever (fuel : nat) :
  (_scroll_and_collect_results (Env0:=growing_env) fuel three_scraper (fresh 1%nat)).1
  = OutOfFuel.
Proof.
  pose proof (growing_scroll_loop fuel three_scraper 0 0 []
                (add_log INFO "📜 Scrolling to load results..." (fresh 1%nat))) as Hloop.
  unfold _scroll_and_collect_results, logger, modify, mbind, M_bind, bind.
  cbv beta iota.
  destruct (scroll_loop fuel three_scraper 0 0 ∅ [] _) as [[d|e|] s1]; simpl in *;
    [discriminate Hloop; [done|lia]..|done].
Qed.

Section Diverging.
Context {W : Type}.
Implicit Types s : state W.

Lemma bind_after {A B} (m : M W A) (k : A → M W B) s a s1 :
  m s = (Ok a, s1) → (k a s1).1 = OutOfFuel → ((m ≫= k) s).1 = OutOfFuel.
Proof. intros Hm Hk. unfold mbind, M_bind, bind. by rewrite Hm. Qed.

Lemma bind_out_of_fuel {A B} (m : M W A) (k : A → M W B) s :
  (m s).1 = OutOfFuel → ((m ≫= k) s).1 = OutOfFuel.
Proof.
  intros Hm. unfold mbind, M_bind, bind. by destruct (m s) as [[a|e|] s1]; simplify_eq/=.
Qed.

Lemma attempt_out_of_fuel {A} (m : M W A) s :
  (m s).1 = OutOfFuel → (attempt m s).1 = OutOfFuel.
Proof. intros Hm. unfold attempt. by destruct (m s) as [[a|e|] s1]; simplify_eq/=. Qed.

End Diverging.

Section GrowingRun.
Local Existing Instance growing_env.

Lemma growing_discovery fuel self (s : state nat) :
  0 < max_results self → (0 < env s)%nat →
  (_scroll_and_collect_results fuel self s).1 = OutOfFuel.
Proof.
  intros Hmax Henv. unfold _scroll_and_collect_results.
  eapply bind_after; [reflexivity|].
  apply bind_out_of_fuel. by apply growing_scroll_loop.
Qed.

(** C8 fails as stated where it says that a run always terminates: on the
    results panel that grows at every scroll and shows no new link, the
    discovery loop, and [run] with it, does not end. *)
Lemma run_can_run_forever :
  diverges (λ fuel, run fuel three_scraper "Coffee shop Moscow") (fresh 1%nat).
Proof.
  intros fuel. unfold run, log_execution.
  eapply bind_after; [reflexivity|].
  unfold try_except at 1. apply bind_out_of_fuel, attempt_out_of_fuel.
  apply bind_out_of_fuel.
  unfold try_finally. apply bind_out_of_fuel, attempt_out_of_fuel.
  unfold try_except. apply bind_out_of_fuel, attempt_out_of_fuel.
  unfold run_body.
  do 6 (eapply bind_after; [reflexivity|]).
  apply bind_out_of_fuel, growing_discovery; [done|simpl; lia].
Qed.

End GrowingRun.

(** * Further properties of the code

    What the functions around those above do: how the storage names its
    directories, what the tables of the exports hold, what the helpers of
    the scraper return, what a run writes and where, which browsers a run
    can start, and how the dashboard pages through the folders. *)

Local Arguments Py.zfill3 : simpl never.

(** ** Strings: reversal, stripping, splitting *)

Lemma append_assoc (a b c : string) : (a +:+ b) +:+ c = a +:+ (b +:+ c).
Proof. induction a as [|x a IH]; [done|]. by rewrite !append_cons, IH. Qed.

Lemma rev_app_append (s1 s2 : string) : String.rev_app s1 s2 = String.rev s1 +:+ s2.
Proof.
  unfold String.rev. revert s2. induction s1 as [|a s1 IH]; intros s2; simpl; [done|].
  rewrite (IH (String a s2)), (IH (String a "")), append_assoc. done.
Qed.

Lemma rev_cons (a : ascii) (s : string) : String.rev (String a s) = String.rev s +:+ String a "".
Proof. unfold String.rev at 1. simpl. apply rev_app_append. Qed.

Lemma rev_append (s1 s2 : string) : String.rev (s1 +:+ s2) = String.rev s2 +:+ String.rev s1.
Proof.
  induction s1 as [|a s1 IH].
  - by rewrite append_empty_l, append_empty_r.
  - by rewrite append_cons, !rev_cons, IH, append_assoc.
Qed.

Lemma rev_involutive (s : string) : String.rev (String.rev s) = s.
Proof.
  induction s as [|a s IH]; [done|].
  by rewrite rev_cons, rev_append, IH.
Qed.

Lemma str_forall_append p (s1 s2 : string) :
  str_forall p (s1 +:+ s2) = str_forall p s1 && str_forall p s2.
Proof.
  induction s1 as [|a s1 IH]; [done|].
  rewrite append_cons. simpl. by rewrite IH, andb_assoc.
Qed.

Lemma str_forall_rev p (s : string) : str_forall p (String.rev s) = str_forall p s.
Proof.
  induction s as [|a s IH]; [done|].
  rewrite rev_cons, str_forall_append, IH. simpl. by rewrite andb_true_r, andb_comm.
Qed.

Lemma str_forall_filter p (s : string) : str_forall p (str_filter p s) = true.
Proof.
  induction s as [|a s IH]; [done|]. simpl.
  destruct (p a) eqn:Ha; simpl; [by rewrite Ha|done].
Qed.

Lemma str_forall_lstrip_by p q (s : string) :
  str_forall p s = true → str_forall p (Py.lstrip_by q s) = true.
Proof.
  induction s as [|a s IH]; [done|]. simpl. intros [Ha Hs]%andb_prop.
  destruct (q a); [by apply IH|]. simpl. by rewrite Ha, Hs.
Qed.

Lemma str_forall_rstrip_by p q (s : string) :
  str_forall p s = true → str_forall p (Py.rstrip_by q s) = true.
Proof.
  intros Hs. unfold Py.rstrip_by. rewrite str_forall_rev.
  apply str_forall_lstrip_by. by rewrite str_forall_rev.
Qed.

Lemma str_forall_strip p (s : string) :
  str_forall p s = true → str_forall p (Py.strip s) = true.
Proof. intros Hs. by apply str_forall_rstrip_by, str_forall_lstrip_by. Qed.

Lemma str_forall_prefix_of p n (s : string) :
  str_forall p s = true → str_forall p (Py.prefix_of n s) = true.
Proof.
  unfold Py.prefix_of. revert n. induction s as [|a s IH]; intros [|n]; simpl; try done.
  intros [Ha Hs]%andb_prop. by rewrite Ha, IH.
Qed.

Lemma length_prefix_of n (s : string) : (String.length (Py.prefix_of n s) ≤ n)%nat.
Proof.
  unfold Py.prefix_of. revert n. induction s as [|a s IH]; intros [|n]; simpl; try lia.
  specialize (IH n). lia.
Qed.

(** What is left of a string stripped on the left ends where the string
    ends, and starts with a character that is kept. *)
Lemma lstrip_by_all p (s : string) : str_forall p s = true → Py.lstrip_by p s = "".
Proof.
  induction s as [|a s IH]; [done|]. simpl. intros [Ha Hs]%andb_prop. rewrite Ha. by apply IH.
Qed.

Lemma lstrip_by_snoc p (s : string) (c : ascii) :
  Py.lstrip_by p (s +:+ String c "")
  = if str_forall p s then (if p c then "" else String c "")
    else Py.lstrip_by p s +:+ String c "".
Proof.
  induction s as [|a s IH]; [done|].
  rewrite append_cons. simpl. destruct (p a); simpl; [done|]. by rewrite append_cons.
Qed.

Lemma lstrip_by_empty p (s : string) :
  Py.lstrip_by p s = "" → str_forall p s = true.
Proof.
  induction s as [|a s IH]; [done|]. simpl. destruct (p a); [done|discriminate].
Qed.

Lemma rev_empty (s : string) : String.rev s = "" → s = "".
Proof. intros Hs. rewrite <- (rev_involutive s), Hs. done. Qed.

(** [rstrip_by], read from the left. *)
Lemma rstrip_by_cons p (c : ascii) (s : string) :
  Py.rstrip_by p (String c s)
  = match Py.rstrip_by p s with
    | EmptyString => if p c then "" else String c ""
    | String _ _ as r => String c r
    end.
Proof.
  unfold Py.rstrip_by. rewrite rev_cons, lstrip_by_snoc, str_forall_rev.
  destruct (str_forall p s) eqn:Hs.
  - rewrite lstrip_by_all by (by rewrite str_forall_rev). simpl. by destruct (p c).
  - rewrite rev_append. simpl.
    destruct (String.rev (Py.lstrip_by p (String.rev s))) eqn:Hr; [|done].
    apply rev_empty, lstrip_by_empty in Hr. rewrite str_forall_rev in Hr. congruence.
Qed.

Lemma lstrip_by_starts_kept p s : starts_kept p (Py.lstrip_by p s) = true.
Proof. induction s as [|a s IH]; [done|]. simpl. destruct (p a) eqn:Ha; [done|]. simpl. by rewrite Ha. Qed.

Lemma lstrip_by_fixed p s : starts_kept p s = true → Py.lstrip_by p s = s.
Proof. destruct s as [|a s]; [done|]. simpl. by destruct (p a). Qed.

Lemma rstrip_by_ends_kept p s : ends_kept p (Py.rstrip_by p s) = true.
Proof.
  induction s as [|a s IH]; [done|]. rewrite rstrip_by_cons.
  destruct (Py.rstrip_by p s) as [|b r] eqn:Hr.
  - destruct (p a) eqn:Ha; simpl; [done|by rewrite Ha].
  - done.
Qed.

Lemma rstrip_by_fixed p s : ends_kept p s = true → Py.rstrip_by p s = s.
Proof.
  induction s as [|a s IH]; [done|]. rewrite rstrip_by_cons. simpl.
  destruct s as [|b s].
  - change (Py.rstrip_by p "") with "". simpl. by destruct (p a).
  - intros Hs. rewrite (IH Hs). done.
Qed.

Lemma rstrip_by_starts_kept p s :
  starts_kept p s = true → starts_kept p (Py.rstrip_by p s) = true.
Proof.
  destruct s as [|a s]; [done|]. rewrite rstrip_by_cons. simpl. intros Ha.
  destruct (Py.rstrip_by p s); [|done]. destruct (p a) eqn:Hpa; simpl; [done|by rewrite Hpa].
Qed.

Lemma strip_starts_kept s : starts_kept Py.isspace (Py.strip s) = true.
Proof. apply rstrip_by_starts_kept, lstrip_by_starts_kept. Qed.

Lemma strip_ends_kept s : ends_kept Py.isspace (Py.strip s) = true.
Proof. apply rstrip_by_ends_kept. Qed.

Lemma strip_fixed s :
  starts_kept Py.isspace s = true → ends_kept Py.isspace s = true → Py.strip s = s.
Proof. intros H1 H2. unfold Py.strip. by rewrite lstrip_by_fixed, rstrip_by_fixed. Qed.

Lemma strip_idempotent s : Py.strip (Py.strip s) = Py.strip s.
Proof. apply strip_fixed; [apply strip_starts_kept|apply strip_ends_kept]. Qed.


(** ** src/storage.py: the names of the directories *)

Lemma path_join_one a b : Py.path_join a [b] = Py.path_join2 a b.
Proof. done. Qed.

Lemma truthy_append_r (a b : string) : Py.truthy b = true → Py.truthy (a +:+ b) = true.
Proof. destruct a; [by rewrite append_empty_l|done]. Qed.

Lemma path_join2_truthy a b : Py.truthy b = true → Py.truthy (Py.path_join2 a b) = true.
Proof.
  intros Hb. unfold Py.path_join2.
  destruct (String.prefix "/" b); [done|].
  destruct (negb (Py.truthy a) || String.prefix "/" (String.rev a)).
  - by apply truthy_append_r.
  - by apply truthy_append_r, truthy_append_r.
Qed.

Section Storage.
Context {W E : Type} `{!Env W E}.
Implicit Types s : state W.


(** X2. Without a session directory [create_place_folder] raises
    [ValueError] before it touches the disk: no directory is asked for and
    no file is written. *)
Theorem create_place_folder_needs_session (place_name : string) (index : nat) s :
  current_session_dir s = "" →
  (create_place_folder place_name index s).1
  = Raise (Exn ValueError "Session directory not set. Call setup_session_directory first.")
  ∧ env (create_place_folder place_name index s).2 = env s
  ∧ files (create_place_folder place_name index s).2 = files s.
Proof.
  intros Hdir.
  unfold create_place_folder, log_execution, try_except, logger, modify, gets, call,
    attempt, ret, raise, mbind, M_bind, bind. simpl. rewrite Hdir. simpl. done.
Qed.


End Storage.

(** ** Numbers in file names *)

Lemma pretty_N_char_digit (x : N) : Py.isdigit (pretty_N_char x) = true.
Proof. unfold pretty_N_char. by repeat case_match. Qed.

Lemma pretty_N_go_digits (x : N) (s : string) :
  all_digits s = true → all_digits (pretty_N_go x s) = true.
Proof.
  revert s. induction (N.lt_wf_0 x) as [x _ IH]; intros s Hs.
  assert (x = 0 ∨ 0 < x)%N as [->|Hx] by lia; [by rewrite pretty_N_go_0|].
  rewrite pretty_N_go_step by done. apply IH; [by apply N.div_lt|].
  simpl. by rewrite pretty_N_char_digit.
Qed.

Lemma str_digits (n : nat) : all_digits (Py.str n) = true.
Proof.
  unfold Py.str, pretty, pretty_nat, pretty, pretty_N.
  case_decide; [done|]. by apply pretty_N_go_digits.
Qed.

(** A number is read off the front of a file name up to the first
    character that is no digit. *)
Lemma digits_then_inj (a b x y : string) (c : ascii) :
  all_digits a = true → all_digits b = true → Py.isdigit c = false →
  a +:+ String c x = b +:+ String c y → a = b ∧ x = y.
Proof.
  intros Ha Hb Hc. revert b Hb. induction a as [|d a IH]; intros [|e b] Hb; simpl in *.
  - rewrite !append_empty_l. by intros [= ->].
  - rewrite append_empty_l, append_cons. intros [= <- _].
    apply andb_prop in Hb as [He _]. congruence.
  - rewrite append_empty_l, append_cons. intros [= -> _].
    apply andb_prop in Ha as [Hd _]. congruence.
  - rewrite !append_cons. intros [= -> Heq].
    apply andb_prop in Ha as [_ Ha]. apply andb_prop in Hb as [_ Hb].
    destruct (IH Ha b Hb Heq) as [-> ->]. done.
Qed.

Lemma photo_filename_inj (n m : nat) (ext ext' : string) :
  photo_filename n ext = photo_filename m ext' → n = m ∧ ext = ext'.
Proof.
  unfold photo_filename. intros Heq.
  apply (inj (String.append "photo_")) in Heq.
  apply digits_then_inj in Heq as [Hn ->]; [|apply str_digits..|done].
  split; [|done]. by apply (inj pretty) in Hn.
Qed.

Lemma path_join2_inj (a b b' : string) :
  String.prefix "/" b = false → String.prefix "/" b' = false →
  Py.path_join2 a b = Py.path_join2 a b' → b = b'.
Proof.
  unfold Py.path_join2. intros -> ->.
  destruct (negb (Py.truthy a) || String.prefix "/" (String.rev a)); intros Heq.
  - by apply (inj (String.append a)) in Heq.
  - apply (inj (String.append a)) in Heq. by apply (inj (String.append "/")) in Heq.
Qed.

Lemma photo_path_inj (folder : string) (n m : nat) (ext ext' : string) :
  photo_path folder n ext = photo_path folder m ext' → n = m ∧ ext = ext'.
Proof.
  unfold photo_path, Py.path_join. simpl. intros Heq.
  apply path_join2_inj in Heq; [by apply photo_filename_inj|done..].
Qed.

Lemma saved_paths_NoDup (folder : string) (saved : list (nat * string * content)) :
  StronglySorted lt (map (λ x, x.1.1) saved) → NoDup (map (saved_path folder) saved).
Proof.
  induction saved as [|x saved IH]; simpl; [constructor|].
  intros [Hs Hx]%StronglySorted_inv. apply NoDup_cons. split; [|by apply IH].
  intros Hin. apply list_elem_of_fmap in Hin as (y & Heq & Hy).
  apply photo_path_inj in Heq as [Heq _].
  rewrite Forall_forall in Hx.
  assert (Hlt : (x.1.1 < y.1.1)%nat).
  { apply Hx. apply list_elem_of_fmap. by exists y. }
  lia.
Qed.

Section PhotoPaths.
Context {W E : Type} `{!Env W E}.
Implicit Types s : state W.

(** X4. [_extract_photos] never raises, and no two of the paths it
    returns are the same: within a listing no photo file is written over
    another.  The files it writes are those paths, in order. *)
Theorem photo_paths_are_distinct (self : scraper) (folder : string) s :
  ∃ paths written,
    (_extract_photos self folder s).1 = Ok paths
    ∧ NoDup paths
    ∧ files (_extract_photos self folder s).2 = (files s ++ written)%list
    ∧ map fst written = paths.
Proof.
  assert (Hpost : post (_extract_photos self folder) s
            (λ r s', match r with
                     | Ok paths =>
                         ∃ saved n, paths = map (saved_path folder) saved
                                    ∧ files s' = (files s ++ map (saved_file folder) saved)%list
                                    ∧ saved_upto self n saved
                     | Raise _ => False
                     | OutOfFuel => True
                     end)).
  { assert (Hnone : saved_upto self 0 []).
    { split; [constructor|]. split; [constructor|done]. }
    unfold _extract_photos. apply post_bind, post_attempt. post_auto.
    all: try (exists [], 0%nat; rewrite ?app_nil_r; done).
    - unfold enumerate. eapply post_mono.
      + apply (photo_loop_post self folder (length (Py.slice_to (max_photos self) a0)) 0
                 _ [] s); [done|done|].
        simpl. rewrite files_set_cookies. simpl. by rewrite app_nil_r.
      + intros [[paths pending]|e|] s'; simpl; try done.
        intros (saved & -> & Hf & Hs). destruct pending; post_auto; by eexists saved, _.
    - exists [], 0%nat. simpl. rewrite files_set_cookies. simpl. by rewrite app_nil_r. }
  destruct (tame__extract_photos true self folder s) as [_ Hfuel].
  unfold post in Hpost.
  destruct (_extract_photos self folder s) as [[paths|e|] s'] eqn:Hrun; simpl in *; [|done|by destruct Hfuel].
  destruct Hpost as (saved & n & -> & Hf & _ & Hsorted & _).
  exists (map (saved_path folder) saved), (map (saved_file folder) saved).
  split; [done|]. split; [by apply saved_paths_NoDup|]. split; [done|].
  by rewrite map_map.
Qed.

End PhotoPaths.

(** ** streamlit_app.py: folder names and pages *)

Lemma all_digits_forall s : all_digits s = str_forall Py.isdigit s.
Proof. induction s as [|c s IH]; [done|]. simpl. by rewrite IH. Qed.

Lemma int_go_append acc a b : int_go acc (a +:+ b) = int_go (int_go acc a) b.
Proof.
  revert acc. induction a as [|c a IH]; intros acc; [done|].
  rewrite append_cons. simpl. apply IH.
Qed.

Lemma pretty_N_go_append (x : N) (s : string) : pretty_N_go x s = pretty_N_go x "" +:+ s.
Proof.
  revert s. induction (N.lt_wf_0 x) as [x _ IH]; intros s.
  assert (x = 0 ∨ 0 < x)%N as [->|Hx] by lia; [by rewrite !pretty_N_go_0|].
  rewrite !(pretty_N_go_step x) by done.
  rewrite (IH (x `div` 10)%N) by (by apply N.div_lt).
  rewrite (IH (x `div` 10)%N (N.div_lt x 10 Hx eq_refl) (String _ "")).
  by rewrite append_assoc.
Qed.

Lemma pretty_N_char_code (d : N) : (d < 10)%N → (Py.code (pretty_N_char d) - 48)%nat = N.to_nat d.
Proof.
  intros Hd.
  assert (d = 0 ∨ d = 1 ∨ d = 2 ∨ d = 3 ∨ d = 4 ∨ d = 5 ∨ d = 6 ∨ d = 7 ∨ d = 8 ∨ d = 9)%N
    as Hcases by lia.
  repeat (destruct Hcases as [->|Hcases]; [done|]). by subst.
Qed.

Lemma int_pretty_N_go (x : N) : int (pretty_N_go x "") = N.to_nat x.
Proof.
  unfold int. induction (N.lt_wf_0 x) as [x _ IH].
  assert (x = 0 ∨ 0 < x)%N as [->|Hx] by lia; [done|].
  rewrite pretty_N_go_step, pretty_N_go_append, int_go_append by done.
  rewrite IH by (by apply N.div_lt). simpl.
  rewrite pretty_N_char_code by (by apply N.mod_lt).
  pose proof (N.div_mod x 10 ltac:(done)). lia.
Qed.

Lemma int_str (n : nat) : int (Py.str n) = n.
Proof.
  unfold Py.str, pretty, pretty_nat, pretty, pretty_N.
  case_decide as Hn; [by destruct n|].
  rewrite int_pretty_N_go. lia.
Qed.

Lemma zfill3_padded (n : nat) :
  ∃ zeros, Py.zfill3 n = zeros +:+ Py.str n ∧ int zeros = 0%nat
           ∧ str_forall Py.isdigit zeros = true.
Proof.
  unfold Py.zfill3. cbv zeta.
  assert (Hk : (3 - String.length (Py.str n) ≤ 3)%nat) by lia.
  destruct (3 - String.length (Py.str n))%nat as [|[|[|[|k]]]]; [..|lia];
    eexists; (split; [reflexivity|]); done.
Qed.

Lemma truthy_str (n : nat) : Py.truthy (Py.str n) = true.
Proof.
  unfold Py.str, pretty, pretty_nat, pretty, pretty_N.
  case_decide as Hn; [done|].
  assert (0 < N.of_nat n)%N as Hpos by lia.
  rewrite pretty_N_go_step by done. rewrite pretty_N_go_append.
  by apply truthy_append_r.
Qed.

Lemma int_zfill3 (n : nat) : int (Py.zfill3 n) = n.
Proof.
  destruct (zfill3_padded n) as (zeros & -> & Hz & _).
  unfold int in *. by rewrite int_go_append, Hz, int_str.
Qed.

Lemma zfill3_isdigit (n : nat) : str_isdigit (Py.zfill3 n) = true.
Proof.
  destruct (zfill3_padded n) as (zeros & -> & _ & Hd).
  unfold str_isdigit. rewrite str_forall_append, Hd, <- all_digits_forall, str_digits.
  by rewrite truthy_append_r by apply truthy_str.
Qed.

(** Splitting at a character the front of the string does not have. *)
Lemma split_front (sep : ascii) (a b : string) :
  str_forall (λ c, negb (Ascii.eqb c sep)) a = true →
  Py.first (Py.split sep (a +:+ String sep b)) = a.
Proof.
  induction a as [|c a IH]; simpl.
  - intros _. rewrite ?append_empty_l. simpl. by rewrite Ascii.eqb_refl.
  - intros [Hc Ha]%andb_prop. rewrite ?append_cons. simpl.
    destruct (Ascii.eqb c sep); [done|]. specialize (IH Ha).
    destruct (Py.split sep (a +:+ String sep b)); simpl in *; by subst.
Qed.

Lemma split1_front (sep : ascii) (a b : string) :
  str_forall (λ c, negb (Ascii.eqb c sep)) a = true →
  Py.split1 sep (a +:+ String sep b) = (a, Some b).
Proof.
  induction a as [|c a IH]; simpl.
  - intros _. rewrite ?append_empty_l. simpl. by rewrite Ascii.eqb_refl.
  - intros [Hc Ha]%andb_prop. rewrite ?append_cons. simpl.
    destruct (Ascii.eqb c sep); [done|]. by rewrite (IH Ha).
Qed.

Lemma prefix_empty (s : string) : String.prefix "" s = true.
Proof. by destruct s. Qed.

Lemma contains_after (c : ascii) (a b : string) :
  Py.contains (String c "") (a +:+ String c b) = true.
Proof.
  induction a as [|d a IH].
  - rewrite append_empty_l. simpl. destruct (ascii_dec c c); [|done].
    by rewrite prefix_empty.
  - rewrite append_cons. simpl. rewrite IH. apply orb_true_r.
Qed.

Lemma digits_no_underscore (s : string) :
  str_forall Py.isdigit s = true → str_forall (λ c, negb (Ascii.eqb c "_")) s = true.
Proof.
  induction s as [|c s IH]; [done|]. simpl. intros [Hc Hs]%andb_prop.
  rewrite (IH Hs), andb_true_r.
  destruct (Ascii.eqb c "_") eqn:Heq; [|done].
  apply Ascii.eqb_eq in Heq as ->. done.
Qed.

(** X5. The dashboard reads back what [create_place_folder] wrote into a
    folder name: from [NNN_name] it recovers the index [NNN] stands for,
    whatever the padding, and the name. *)
Theorem dashboard_reads_back_the_folder_name (index : nat) (safe_name : string) :
  folder_index (Py.zfill3 index +:+ "_" +:+ safe_name) = Some index
  ∧ display_name (Py.zfill3 index +:+ "_" +:+ safe_name) = safe_name.
Proof.
  pose proof (zfill3_isdigit index) as Hd.
  assert (Hno : str_forall (λ c, negb (Ascii.eqb c "_")) (Py.zfill3 index) = true).
  { apply digits_no_underscore. by apply andb_prop in Hd as [_ ?]. }
  change ("_" +:+ safe_name) with (String "_" safe_name).
  split.
  - unfold folder_index. cbv zeta. rewrite split_front by done.
    by rewrite Hd, int_zfill3.
  - unfold display_name. rewrite contains_after, split1_front by done. done.
Qed.

Lemma current_places_chunk {A} (place_dirs : list A) (p : nat) :
  (1 ≤ p)%nat → (10 * (p - 1) ≤ length place_dirs)%nat →
  current_places place_dirs (Z.of_nat p) = take 10 (drop (10 * (p - 1)) place_dirs).
Proof.
  intros Hp Hlen. unfold current_places, slice, end_idx, start_idx, slice_bound, items_per_page.
  destruct ((Z.of_nat p - 1) * 10 <? 0) eqn:H1; [apply Z.ltb_lt in H1; lia|].
  destruct (Z.min ((Z.of_nat p - 1) * 10 + 10) (Z.of_nat (length place_dirs)) <? 0) eqn:H2;
    [apply Z.ltb_lt in H2; lia|].
  replace (Z.to_nat (Z.min ((Z.of_nat p - 1) * 10) (Z.of_nat (length place_dirs))))
    with (10 * (p - 1))%nat by lia.
  destruct (decide (10 * (p - 1) + 10 ≤ length place_dirs)%nat) as [Hfull|Hpart].
  - f_equal. lia.
  - rewrite !take_ge; [done|rewrite length_drop; lia..].
Qed.

Lemma chunks_concat {A} (l : list A) (n : nat) :
  concat (map (λ p, take 10 (drop (10 * (p - 1)) l)) (seq 1 n)) = take (10 * n) l.
Proof.
  induction n as [|n IH]; [done|].
  rewrite seq_S, map_app, concat_app, IH. cbn [map concat]. rewrite app_nil_r.
  replace (1 + n - 1)%nat with n by lia.
  rewrite take_take_drop. f_equal. lia.
Qed.

(** X6. The pages of the gallery, ten places each, show every place once
    and in order; a page between 1 and [total_pages] is never empty and
    holds at most ten places, and the two buttons keep the page within
    that range. *)
Theorem gallery_pages_cover_every_place {A} (place_dirs : list A) :
  concat (map (λ p, current_places place_dirs (Z.of_nat p))
              (seq 1 (Z.to_nat (total_pages (Z.of_nat (length place_dirs))))))
  = place_dirs
  ∧ (∀ p, 1 ≤ p ≤ total_pages (Z.of_nat (length place_dirs)) →
          (1 ≤ length (current_places place_dirs p) ≤ 10)%nat
          ∧ ∀ b, 1 ≤ press b (total_pages (Z.of_nat (length place_dirs))) p
                 ≤ total_pages (Z.of_nat (length place_dirs))).
Proof.
  destruct place_dirs as [|x rest] eqn:Hdirs.
  { split; [done|]. intros p Hp. change (total_pages (Z.of_nat (length []))) with 0 in Hp. lia. }
  assert (Hlen : (0 < length place_dirs)%nat) by (rewrite Hdirs; simpl; lia).
  rewrite <- Hdirs. clear Hdirs x rest.
  assert (Hpages : 10 * (total_pages (Z.of_nat (length place_dirs)) - 1)
                   < Z.of_nat (length place_dirs)
                   ≤ 10 * total_pages (Z.of_nat (length place_dirs))).
  { unfold total_pages, items_per_page.
    pose proof (Z.div_mod (Z.of_nat (length place_dirs) + 10 - 1) 10 ltac:(lia)).
    pose proof (Z.mod_pos_bound (Z.of_nat (length place_dirs) + 10 - 1) 10 ltac:(lia)).
    lia. }
  split.
  - rewrite (map_ext_in _ (λ p, take 10 (drop (10 * (p - 1)) place_dirs))).
    + rewrite chunks_concat. apply take_ge. lia.
    + intros p [Hp1 Hp2]%in_seq. apply current_places_chunk; [done|]. lia.
  - intros p Hp. split.
    + replace p with (Z.of_nat (Z.to_nat p)) by lia.
      rewrite current_places_chunk; [|lia|lia].
      rewrite length_take, length_drop. lia.
    + intros b. unfold press.
      destruct (1 <? _) eqn:H1; [|lia].
      destruct b; [destruct (1 <? p) eqn:H2|destruct (p <? _) eqn:H2];
        rewrite ?Z.ltb_lt, ?Z.ltb_ge in *; lia.
Qed.

(** ** src/storage.py: the rows of the tabular exports *)

(** Dicts as lists of entries: [dict_set], [dict_del] and the lookup. *)
Section Dict.
Context {V : Type}.
Implicit Types d : list (string * V).

Lemma assoc_dict_set_eq k v d : assoc k (dict_set k v d) = Some v.
Proof.
  induction d as [|[k' v'] d IH]; simpl.
  - by rewrite String.eqb_refl.
  - destruct (String.eqb k' k) eqn:Hk; simpl.
    + by rewrite String.eqb_refl.
    + by rewrite Hk.
Qed.

Lemma assoc_dict_set_ne k k' v d : k ≠ k' → assoc k' (dict_set k v d) = assoc k' d.
Proof.
  intros Hne. induction d as [|[k0 v0] d IH]; simpl.
  - by apply String.eqb_neq in Hne as ->.
  - destruct (String.eqb k0 k) eqn:Hk; simpl.
    + apply String.eqb_eq in Hk as ->. by apply String.eqb_neq in Hne as ->.
    + by rewrite IH.
Qed.

Lemma assoc_dict_del_eq k d : assoc k (dict_del k d) = None.
Proof.
  unfold dict_del. induction d as [|[k0 v0] d IH]; [done|].
  rewrite filter_cons. simpl. destruct (String.eqb k0 k) eqn:Hk; simpl; [done|].
  by rewrite Hk.
Qed.

Lemma assoc_dict_del_ne k k' d : k ≠ k' → assoc k' (dict_del k d) = assoc k' d.
Proof.
  intros Hne. unfold dict_del. induction d as [|[k0 v0] d IH]; [done|].
  rewrite filter_cons. simpl. destruct (String.eqb k0 k) eqn:Hk; simpl.
  - apply String.eqb_eq in Hk as ->. by apply String.eqb_neq in Hne as ->.
  - by rewrite IH.
Qed.

Lemma dict_set_keys k v d :
  ∀ k', k' ∈ (dict_set k v d).*1 ↔ k' = k ∨ k' ∈ d.*1.
Proof.
  intros k'. induction d as [|[k0 v0] d IH]; simpl.
  - rewrite list_elem_of_singleton, elem_of_nil. tauto.
  - destruct (String.eqb k0 k) eqn:Hk; simpl.
    + apply String.eqb_eq in Hk as ->. rewrite !elem_of_cons. tauto.
    + rewrite !elem_of_cons, IH. tauto.
Qed.

Lemma dict_set_NoDup k v d : NoDup d.*1 → NoDup (dict_set k v d).*1.
Proof.
  induction d as [|[k0 v0] d IH]; simpl; intros Hd.
  - apply NoDup_singleton.
  - apply NoDup_cons in Hd as [Hk0 Hd].
    destruct (String.eqb k0 k) eqn:Hk; simpl.
    + apply String.eqb_eq in Hk as ->. by apply NoDup_cons.
    + apply NoDup_cons. split; [|by apply IH].
      rewrite dict_set_keys. intros [->|?]; [|done].
      by rewrite String.eqb_refl in Hk.
Qed.

Lemma dict_del_NoDup k d : NoDup d.*1 → NoDup (dict_del k d).*1.
Proof.
  unfold dict_del. induction d as [|[k0 v0] d IH]; [done|].
  simpl. intros [Hk0 Hd]%NoDup_cons. rewrite filter_cons. simpl.
  destruct (negb (String.eqb k0 k)); simpl; [|by apply IH].
  apply NoDup_cons. split; [|by apply IH].
  intros Hin. apply Hk0. apply list_elem_of_fmap in Hin as (x & -> & Hx).
  apply list_elem_of_filter in Hx as [_ Hx]. apply list_elem_of_fmap. by exists x.
Qed.

(** In a dict, the entries are what [assoc] finds. *)
Lemma elem_of_dict k v d : NoDup d.*1 → (k, v) ∈ d ↔ assoc k d = Some v.
Proof.
  induction d as [|[k0 v0] d IH]; simpl.
  - intros _. by rewrite elem_of_nil.
  - intros [Hk0 Hd]%NoDup_cons. rewrite elem_of_cons, (IH Hd).
    destruct (String.eqb k0 k) eqn:Hk.
    + apply String.eqb_eq in Hk as ->. split.
      * intros [[= <-]|Hin]; [done|]. destruct Hk0.
        apply list_elem_of_fmap. exists (k, v). split; [done|]. by apply (IH Hd).
      * intros [= <-]. by left.
    + apply String.eqb_neq in Hk. split; [|by right].
      intros [[= <- <-]|?]; done.
Qed.

End Dict.

Lemma flat_except_set K k v d :
  scalar v = true → flat_except (k :: K) d → flat_except K (dict_set k v d).
Proof.
  intros Hv Hd k' c. destruct (decide (k = k')) as [<-|Hne].
  - rewrite assoc_dict_set_eq. intros [= <-]. by left.
  - rewrite assoc_dict_set_ne by done. intros Hc.
    destruct (Hd k' c Hc) as [?|Hin]; [by left|].
    apply elem_of_cons in Hin as [?|?]; [congruence|by right].
Qed.

Lemma flat_except_weaken K k d : flat_except K d → flat_except (k :: K) d.
Proof. intros Hd k' c Hc. destruct (Hd k' c Hc); [by left|right; by apply elem_of_cons; right]. Qed.

Lemma flat_except_del K k d : flat_except (k :: K) d → flat_except K (dict_del k d).
Proof.
  intros Hd k' c. destruct (decide (k = k')) as [<-|Hne].
  - by rewrite assoc_dict_del_eq.
  - rewrite assoc_dict_del_ne by done. intros Hc.
    destruct (Hd k' c Hc) as [?|Hin]; [by left|].
    apply elem_of_cons in Hin as [?|?]; [congruence|by right].
Qed.

Lemma flat_except_perm K K' d : K ⊆ K' → flat_except K d → flat_except K' d.
Proof. intros HK Hd k c Hc. destruct (Hd k c Hc); [by left|right; by apply HK]. Qed.

Lemma item_copy_NoDup item : NoDup (item_copy item).*1.
Proof.
  unfold item_copy. destruct (Place.search_query item); simpl;
    apply (bool_decide_unpack _); by vm_compute.
Qed.

Lemma item_copy_flat item : flat_except nested_keys (item_copy item).
Proof.
  intros k c. unfold item_copy, nested_keys.
  destruct (Place.search_query item); cbn [app assoc];
    repeat (case_match; [match goal with H : String.eqb _ _ = true |- _ =>
                            apply String.eqb_eq in H as <- end;
                         intros [= <-]; simpl; rewrite ?elem_of_cons; auto 10|]);
    done.
Qed.

Lemma feature_cell_scalar v : scalar (feature_cell v) = true.
Proof. by destruct v. Qed.

(** The loop over the features of a record. *)
Lemma feature_columns_flat K (fs : list (string * feature_value)) d :
  flat_except K d →
  flat_except K (fold_left (λ d kv, dict_set ("feat_" +:+ str_filter column_char kv.1)
                                             (feature_cell kv.2) d) fs d).
Proof.
  revert d. induction fs as [|[k v] fs IH]; intros d Hd; [done|].
  simpl. apply IH, flat_except_set; [apply feature_cell_scalar|by apply flat_except_weaken].
Qed.

Lemma feature_columns_NoDup (fs : list (string * feature_value)) (d : row) :
  NoDup d.*1 →
  NoDup (fold_left (λ d kv, dict_set ("feat_" +:+ str_filter column_char kv.1)
                                      (feature_cell kv.2) d) fs d).*1.
Proof.
  revert d. induction fs as [|[k v] fs IH]; intros d Hd; [done|].
  simpl. by apply IH, dict_set_NoDup.
Qed.

Lemma flat_photos_summary_NoDup item d : NoDup d.*1 → NoDup (flat_photos_summary item d).*1.
Proof. intros Hd. unfold flat_photos_summary. destruct (Place.photos item); auto using dict_set_NoDup. Qed.

Lemma flat_reviews_summary_NoDup item d : NoDup d.*1 → NoDup (flat_reviews_summary item d).*1.
Proof. intros Hd. unfold flat_reviews_summary. destruct (Place.reviews item); auto using dict_set_NoDup. Qed.

Lemma flat_joined_lists_NoDup item d : NoDup d.*1 → NoDup (flat_joined_lists item d).*1.
Proof. intros Hd. unfold flat_joined_lists. auto using dict_set_NoDup. Qed.

Lemma flatten_item_NoDup item : NoDup (flatten_item item).*1.
Proof.
  unfold flatten_item.
  auto 10 using flat_joined_lists_NoDup, dict_del_NoDup, flat_reviews_summary_NoDup,
    flat_photos_summary_NoDup, feature_columns_NoDup, item_copy_NoDup.
Qed.

Lemma flatten_item_sqlite_NoDup item : NoDup (flatten_item_sqlite item).*1.
Proof.
  unfold flatten_item_sqlite.
  auto 10 using flat_joined_lists_NoDup, dict_set_NoDup, flat_reviews_summary_NoDup,
    flat_photos_summary_NoDup, item_copy_NoDup.
Qed.

Lemma flat_photos_summary_flat K item d :
  flat_except K d → flat_except K (flat_photos_summary item d).
Proof.
  intros Hd. unfold flat_photos_summary.
  destruct (Place.photos item); repeat (apply flat_except_set; [done|apply flat_except_weaken]); done.
Qed.

Lemma flat_reviews_summary_flat K item d :
  flat_except K d → flat_except K (flat_reviews_summary item d).
Proof.
  intros Hd. unfold flat_reviews_summary.
  destruct (Place.reviews item); repeat (apply flat_except_set; [done|apply flat_except_weaken]); done.
Qed.

Lemma flatten_item_flat item : flat_except [] (flatten_item item).
Proof.
  unfold flatten_item, flat_joined_lists.
  do 2 (apply flat_except_set; [done|]).
  apply flat_except_del, flat_reviews_summary_flat.
  apply flat_except_del, flat_photos_summary_flat.
  apply flat_except_del.
  eapply flat_except_perm; [|apply feature_columns_flat, item_copy_flat].
  unfold nested_keys. intros x. rewrite !elem_of_cons. tauto.
Qed.

Ltac assoc_steps :=
  repeat first
    [ rewrite assoc_dict_set_eq
    | rewrite assoc_dict_del_eq
    | rewrite assoc_dict_set_ne by done
    | rewrite assoc_dict_del_ne by done ].

Lemma flatten_item_drops item k :
  k ∈ ["features"; "photos"; "reviews"] → assoc k (flatten_item item) = None.
Proof.
  rewrite !elem_of_cons, elem_of_nil.
  unfold flatten_item, flat_joined_lists, flat_reviews_summary, flat_photos_summary.
  intros [->|[->|[->|[]]]];
    destruct (Place.reviews item); destruct (Place.photos item); by assoc_steps.
Qed.

(** X7. A row of the CSV and Excel tables holds scalars only: the nested
    values of a record are summarised or joined, and the keys [features],
    [photos] and [reviews] are gone. *)
Theorem flattened_rows_are_flat (item : Place.t) :
  Forall (λ kc, scalar kc.2 = true ∧ kc.1 ∉ ["features"; "photos"; "reviews"])
         (flatten_item item).
Proof.
  apply Forall_forall. intros [k c] Hin. simpl.
  apply elem_of_dict in Hin; [|apply flatten_item_NoDup]. split.
  - destruct (flatten_item_flat item k c Hin) as [?|Hk]; [done|]. by apply elem_of_nil in Hk.
  - intros Hk. by rewrite (flatten_item_drops item k Hk) in Hin.
Qed.

(** X8. In the three tabular exports the column [reviews_count] holds
    the number of reviews extracted for the record, not the count read
    from the page, which the record carries under the same key and which
    the flattening overwrites; [photos_count] holds the number of photos. *)
Theorem reviews_count_column_is_overwritten (item : Place.t) :
  assoc "reviews_count" (item_copy item) = Some (CStr (Place.reviews_count item))
  ∧ assoc "reviews_count" (flatten_item item)
    = Some (CInt (Z.of_nat (length (Place.reviews item))))
  ∧ assoc "reviews_count" (flatten_item_sqlite item)
    = Some (CInt (Z.of_nat (length (Place.reviews item))))
  ∧ assoc "photos_count" (flatten_item item)
    = Some (CInt (Z.of_nat (length (Place.photos item))))
  ∧ assoc "photos_count" (flatten_item_sqlite item)
    = Some (CInt (Z.of_nat (length (Place.photos item)))).
Proof.
  split; [done|].
  unfold flatten_item, flatten_item_sqlite, flat_joined_lists, flat_reviews_summary,
    flat_photos_summary.
  repeat split; destruct (Place.reviews item); destruct (Place.photos item); by assoc_steps.
Qed.

Lemma feature_column_ne_literal k (lit : string) :
  String.prefix "feat_" lit = false → feature_column k ≠ lit.
Proof.
  unfold feature_column. intros Hp <-.
  by destruct (str_filter column_char k); vm_compute in Hp.
Qed.

Lemma literal_ne_feature_column k (lit : string) :
  String.prefix "feat_" lit = false → lit ≠ feature_column k.
Proof. intros Hp Heq. by apply (feature_column_ne_literal k lit). Qed.

Lemma feature_columns_last (fs1 fs2 : list (string * feature_value)) k v (d : row) :
  Forall (λ kv, feature_column kv.1 ≠ feature_column k) fs2 →
  assoc (feature_column k)
        (fold_left (λ d kv, dict_set ("feat_" +:+ str_filter column_char kv.1)
                                     (feature_cell kv.2) d) (fs1 ++ (k, v) :: fs2) d)
  = Some (feature_cell v).
Proof.
  intros Hfs2. rewrite fold_left_app. simpl.
  generalize (fold_left (λ d kv, dict_set ("feat_" +:+ str_filter column_char kv.1)
                                          (feature_cell kv.2) d) fs1 d).
  intros d1.
  assert (Hstart : assoc (feature_column k)
            (dict_set ("feat_" +:+ str_filter column_char k) (feature_cell v) d1)
          = Some (feature_cell v)) by apply assoc_dict_set_eq.
  revert Hstart. generalize (dict_set ("feat_" +:+ str_filter column_char k) (feature_cell v) d1).
  induction Hfs2 as [|[k2 v2] fs2 Hk2 _ IH]; intros d2 Hd2; [done|].
  simpl. apply IH. simpl in Hk2. by rewrite assoc_dict_set_ne.
Qed.


Lemma flat_except_set_json K k v d :
  flat_except K d → flat_except (k :: K) (dict_set k v d).
Proof.
  intros Hd k' c. destruct (decide (k = k')) as [<-|Hne].
  - intros _. right. by apply elem_of_cons; left.
  - rewrite assoc_dict_set_ne by done. intros Hc.
    destruct (Hd k' c Hc) as [?|Hin]; [by left|right; by apply elem_of_cons; right].
Qed.

(** X10. A row of the SQLite table keeps [features], [photos] and
    [reviews] as JSON text; every other value is a scalar. *)
Theorem sqlite_rows_keep_nested_values_as_json (item : Place.t) :
  assoc "features" (flatten_item_sqlite item) = Some (CJson (CFeatures (Place.features item)))
  ∧ assoc "photos" (flatten_item_sqlite item) = Some (CJson (CStrings (Place.photos item)))
  ∧ assoc "reviews" (flatten_item_sqlite item) = Some (CJson (CReviews (Place.reviews item)))
  ∧ Forall (λ kc, scalar kc.2 = true ∨ json_text kc.2 = true) (flatten_item_sqlite item).
Proof.
  assert (H3 : assoc "features" (flatten_item_sqlite item)
               = Some (CJson (CFeatures (Place.features item)))
             ∧ assoc "photos" (flatten_item_sqlite item)
               = Some (CJson (CStrings (Place.photos item)))
             ∧ assoc "reviews" (flatten_item_sqlite item)
               = Some (CJson (CReviews (Place.reviews item)))).
  { unfold flatten_item_sqlite, flat_joined_lists, flat_reviews_summary, flat_photos_summary.
    repeat split; destruct (Place.reviews item); destruct (Place.photos item); by assoc_steps. }
  destruct H3 as (Hf & Hp & Hr). repeat (split; [done|]).
  apply Forall_forall. intros [k c] Hin. simpl.
  apply elem_of_dict in Hin; [|apply flatten_item_sqlite_NoDup].
  assert (Hflat : flat_except ["reviews"; "photos"; "features"] (flatten_item_sqlite item)).
  { unfold flatten_item_sqlite, flat_joined_lists.
    do 2 (apply flat_except_set; [done|]).
    eapply flat_except_perm; last first.
    - apply flat_except_set_json, flat_reviews_summary_flat.
      apply flat_except_set_json, flat_photos_summary_flat.
      apply flat_except_set_json.
      apply item_copy_flat.
    - unfold nested_keys. intros x. rewrite !elem_of_cons. tauto. }
  destruct (Hflat k c Hin) as [?|Hk]; [by left|]. right.
  rewrite !elem_of_cons, elem_of_nil in Hk.
  destruct Hk as [->|[->|[->|[]]]]; rewrite ?Hf, ?Hp, ?Hr in Hin; by injection Hin as <-.
Qed.

(** ** src/scraper.py: what the helpers return *)

Local Arguments Py.strip : simpl never.

Section Helpers.
Context {W E : Type} `{!Env W E}.
Implicit Types s : state W.

(** A program that ends and does not raise, with what holds of its result. *)
Lemma post_total {A} (m : M W A) s (P : A → Prop) :
  tame true m →
  post m s (λ r _, match r with Ok a => P a | Raise _ => False | OutOfFuel => True end) →
  ∃ a, (m s).1 = Ok a ∧ P a.
Proof.
  intros Ht Hp. destruct (Ht s) as [_ Hfuel]. unfold post in Hp.
  destruct (m s).1 as [a|e|]; [by exists a|done|by destruct Hfuel].
Qed.

Lemma stripped_strip t : stripped (Py.strip t).
Proof. apply strip_idempotent. Qed.

Lemma stripped_empty : stripped "".
Proof. done. Qed.

Lemma strip_attr_post (v : option string) s :
  post (strip_attr v) s (λ r _, match r with Ok t => stripped t | _ => True end).
Proof. destruct v; simpl; [apply stripped_strip|done]. Qed.

Lemma _get_text_post (selectors : list string) s :
  post (_get_text selectors) s (λ r _, match r with Ok t => stripped t | _ => True end).
Proof.
  revert s. induction selectors as [|selector rest IH]; intros s; simpl; [done|].
  apply post_bind.
  apply (post_mono _ _ (λ r _, match r with
                               | Ok (Some t) => stripped t
                               | _ => True
                               end)).
  - unfold try_except_on. apply post_try_except. post_auto; try done.
    + apply stripped_strip.
    + eapply post_mono; [apply strip_attr_post|].
      intros [t|e|] s'; simpl; try done; intros Ht; post_auto; done.
  - intros [[t|]|e|] s'; simpl; done.
Qed.

Lemma _get_attribute_post (selectors : list string) (attribute : string) s :
  post (_get_attribute selectors attribute) s
    (λ r _, match r with Ok t => stripped t | _ => True end).
Proof.
  revert s. induction selectors as [|selector rest IH]; intros s; simpl; [done|].
  apply post_bind.
  apply (post_mono _ _ (λ r _, match r with
                               | Ok (Some t) => stripped t
                               | _ => True
                               end)).
  - unfold try_except_on. apply post_try_except. post_auto; try done.
    apply stripped_strip.
  - intros [[t|]|e|] s'; simpl; done.
Qed.

Lemma text_or_content_post (el : E) s :
  post (text_or_content el) s (λ r _, match r with Ok t => stripped t | _ => True end).
Proof.
  unfold text_or_content. post_auto; try done.
  - apply strip_attr_post.
  - apply stripped_strip.
Qed.

Lemma text_list_ok_snoc results text :
  text_list_ok results → Py.truthy text = true → stripped text → text ∉ results →
  text_list_ok (results ++ [text]).
Proof.
  intros [Hnd Hall] Ht Hs Hin. split.
  - apply NoDup_app. split; [done|]. split; [|apply NoDup_singleton].
    intros x Hx ->%list_elem_of_singleton. done.
  - apply Forall_app. split; [done|]. by apply Forall_singleton.
Qed.

Lemma _get_text_list_post (selectors : list string) s :
  post (_get_text_list selectors) s
    (λ r _, match r with
            | Ok results => text_list_ok results
            | Raise _ => False
            | OutOfFuel => True
            end).
Proof.
  unfold _get_text_list. apply post_bind.
  apply (post_for_ (λ _ results _, text_list_ok results)).
  - split; constructor.
  - intros selector l' results s1 Hok. apply post_bind, post_attempt, post_any.
    intros [elements|e|] s2; cbv beta iota; [|by apply post_ret|done].
    apply post_bind.
    apply (post_for_ (λ _ results _, text_list_ok results)); [done|..].
    + intros el l'' results' s3 Hok'. apply post_bind.
      eapply post_mono; [apply text_or_content_post|].
      intros [text|e|] s4; cbv beta iota; [|done..].
      intros Hs. apply post_ret.
      destruct (Py.truthy text) eqn:Ht; simpl; [|done].
      case_bool_decide; simpl; [done|]. by apply text_list_ok_snoc.
    + intros results' s3 Hok'. post_auto; done.
  - intros results s1 Hok. by apply post_ret.
Qed.

Lemma _get_all_attributes_post (selector attribute : string) s :
  post (_get_all_attributes selector attribute) s
    (λ r _, match r with
            | Ok results => Forall stripped results
            | Raise _ => False
            | OutOfFuel => True
            end).
Proof.
  unfold _get_all_attributes. apply post_bind, post_attempt, post_any.
  intros [elements|e|] s1; cbv beta iota; [|by apply post_ret; constructor|done].
  apply post_bind.
  apply (post_for_ (λ _ results _, Forall stripped results)); [constructor|..].
  - intros el l' results s2 Hok. post_auto; try done.
    destruct (Py.truthy_opt _); [|done].
    apply Forall_app. split; [done|]. apply Forall_singleton, stripped_strip.
  - intros results s2 Hok. by apply post_ret.
Qed.

Lemma _extract_social_links_post s :
  post _extract_social_links s
    (λ r _, match r with
            | Ok links => Forall (λ href, Py.truthy href = true) links
            | Raise _ => False
            | OutOfFuel => True
            end).
Proof.
  unfold _extract_social_links. apply post_bind, post_attempt, post_any.
  intros [elements|e|] s1; cbv beta iota; [|by apply post_ret; constructor|done].
  apply post_bind.
  apply (post_for_ (λ _ links _, Forall (λ href, Py.truthy href = true) links));
    [constructor|..].
  - intros el l' links s2 Hok. post_auto; try done.
    destruct (Py.truthy_opt _) eqn:Hhref; [|done].
    apply Forall_app. split; [done|]. apply Forall_singleton.
    match goal with H : Py.truthy_opt ?a = true |- _ => by destruct a end.
  - intros links s2 Hok. by apply post_ret.
Qed.

Lemma _get_text_from_element_post (parent : E) (selector : string) s :
  post (_get_text_from_element parent selector) s
    (λ r _, match r with
            | Ok t => stripped t
            | Raise _ => False
            | OutOfFuel => True
            end).
Proof.
  unfold _get_text_from_element. post_auto; try done. apply stripped_strip.
Qed.

Lemma _switch_to_overview_post s :
  post _switch_to_overview s
    (λ r _, match r with Raise _ => False | _ => True end).
Proof.
  unfold _switch_to_overview. apply post_try_except, post_any.
  intros [[]|e|] s1; done.
Qed.

Lemma open_gallery_post s :
  post open_gallery s (λ r _, match r with Raise _ => False | _ => True end).
Proof.
  unfold open_gallery. apply post_try_except, post_any.
  intros [[]|e|] s1; done.
Qed.

Lemma features_ok_set features k v :
  features_ok features → Py.truthy k = true → features_ok (dict_set k v features).
Proof.
  intros [Hnd Hall] Hk. split; [by apply dict_set_NoDup|].
  clear Hnd. induction Hall as [|[k' v'] features Hk' Hall IH]; simpl.
  - by apply Forall_singleton.
  - destruct (String.eqb k' k); constructor; done.
Qed.

Lemma details_features_post s :
  post details_features s
    (λ r _, match r with
            | Ok features => features_ok features
            | Raise _ => False
            | OutOfFuel => True
            end).
Proof.
  assert (Hnil : features_ok []) by (split; constructor).
  unfold details_features. apply post_bind, post_attempt, post_any.
  intros [bool_features|e|] s1; cbv beta iota; [|by post_auto|done].
  apply post_bind.
  apply (post_for_ (λ _ features _, features_ok features)); [done|..].
  - intros bf l' features s2 Hok. post_auto; try done.
    destruct (Py.truthy _) eqn:Hk; [|done]. by apply features_ok_set.
  - intros features s2 Hok. cbv beta iota. apply post_bind, post_attempt, post_any.
    intros [valued_features|e|] s3; cbv beta iota; [|by post_auto|done].
    apply post_bind.
    apply (post_for_ (λ _ features _, features_ok features)); [done|..].
    + intros vf l' features' s4 Hok'. post_auto; try done.
      destruct (_ && _) eqn:Hk; [|done].
      apply features_ok_set; [done|]. by apply andb_prop in Hk as [? ?].
    + intros features' s4 Hok'. by post_auto.
Qed.

End Helpers.

Section HelperTheorems.
Context {W E : Type} `{!Env W E}.
Implicit Types s : state W.

(** X11. [_get_text_list] never raises; the texts it returns are
    non-empty, stripped, and pairwise different. *)
Theorem text_list_is_clean (selectors : list string) s :
  ∃ results,
    (_get_text_list selectors s).1 = Ok results
    ∧ NoDup results
    ∧ Forall (λ t, t ≠ "" ∧ Py.strip t = t) results.
Proof.
  destruct (post_total (_get_text_list selectors) s text_list_ok) as (results & Hrun & Hnd & Hall).
  - apply tame__get_text_list.
  - apply _get_text_list_post.
  - exists results. split; [done|]. split; [done|].
    eapply Forall_impl; [exact Hall|]. simpl. intros t [Ht Hs]. split; [|done].
    by apply truthy_nonempty.
Qed.

(** X12. The helpers that swallow every exception return whatever the
    page does: [_switch_to_overview] ends normally,
    [_get_text_from_element] returns a stripped text,
    [_get_all_attributes] stripped values and [_extract_social_links]
    non-empty links. *)
Theorem best_effort_helpers_never_raise s :
  (_switch_to_overview s).1 = Ok tt
  ∧ (∀ parent selector,
       ∃ t, (_get_text_from_element parent selector s).1 = Ok t ∧ Py.strip t = t)
  ∧ (∀ selector attribute,
       ∃ values, (_get_all_attributes selector attribute s).1 = Ok values
                 ∧ Forall (λ v, Py.strip v = v) values)
  ∧ (∃ links, (_extract_social_links s).1 = Ok links ∧ Forall (λ href, href ≠ "") links).
Proof.
  split; [|split; [|split]].
  - destruct (post_total _switch_to_overview s (λ _, True)) as ([] & Hrun & _); [| |done].
    + apply tame__switch_to_overview.
    + eapply post_mono; [apply _switch_to_overview_post|]. by intros [?|?|] ?.
  - intros parent selector. apply post_total.
    + apply tame__get_text_from_element.
    + apply _get_text_from_element_post.
  - intros selector attribute. apply (post_total _ _ (Forall stripped)).
    + apply tame__get_all_attributes.
    + apply _get_all_attributes_post.
  - destruct (post_total _extract_social_links s
                (Forall (λ href, Py.truthy href = true))) as (links & Hrun & Hall).
    + apply tame__extract_social_links.
    + apply _extract_social_links_post.
    + exists links. split; [done|]. eapply Forall_impl; [exact Hall|].
      intros href. apply truthy_nonempty.
Qed.

(** X13. Two blocks of [_extract_details] that swallow every exception:
    the collecting of the features always yields a dict, whose keys are
    non-empty (and, as keys of a dict, distinct), and the opening of the
    photo gallery always ends normally. *)
Theorem features_and_gallery_never_raise s :
  (∃ features, (details_features s).1 = Ok features
               ∧ NoDup features.*1 ∧ Forall (λ kv, kv.1 ≠ "") features)
  ∧ (open_gallery s).1 = Ok tt.
Proof.
  split.
  - destruct (post_total details_features s features_ok) as (features & Hrun & Hnd & Hall).
    + apply tame_details_features.
    + apply details_features_post.
    + exists features. split; [done|]. split; [done|]. eapply Forall_impl; [exact Hall|].
      intros kv. apply truthy_nonempty.
  - destruct (post_total open_gallery s (λ _, True)) as ([] & Hrun & _); [| |done].
    + apply tame_open_gallery.
    + eapply post_mono; [apply open_gallery_post|]. by intros [?|?|] ?.
Qed.

End HelperTheorems.

(** ** src/scraper.py: the record of a listing *)

(** Run a program with what is known of its result. *)
Ltac post_use lem :=
  apply post_bind; eapply post_mono; [apply lem|]; intros [?|?|] ?; cbv beta iota.

Section Record.
Context {W E : Type} `{!Env W E}.
Implicit Types s : state W.

Lemma post_weaken {A} (m : M W A) s (P : A → Prop) :
  post m s (λ r _, match r with Ok a => P a | Raise _ => False | OutOfFuel => True end) →
  post m s (λ r _, match r with Ok a => P a | _ => True end).
Proof. intros H. eapply post_mono; [exact H|]. by intros [?|?|] ?. Qed.

Lemma details_name_post s :
  post details_name s (λ r _, match r with Ok t => stripped t | _ => True end).
Proof.
  unfold details_name. post_use _get_text_post; [|done..].
  intros Hs. destruct (negb _); [apply _get_attribute_post|by apply post_ret].
Qed.

Lemma details_address_post s :
  post details_address s (λ r _, match r with Ok t => stripped t | _ => True end).
Proof.
  unfold details_address. post_use _get_attribute_post; [|done..].
  intros Hs. destruct (negb _); [apply _get_text_post|by apply post_ret].
Qed.

Lemma details_website_post s :
  post details_website s (λ r _, match r with Ok t => stripped t | _ => True end).
Proof.
  unfold details_website. post_use _get_attribute_post; [|done..].
  intros Hs. destruct (negb _); [apply _get_text_post|by apply post_ret].
Qed.

Lemma details_working_hours_post s :
  post details_working_hours s
    (λ r _, match r with Ok hours => Forall stripped hours | _ => True end).
Proof.
  unfold details_working_hours.
  apply post_bind. eapply post_mono; [apply post_weaken, _get_all_attributes_post|].
  intros [hours|?|] s1; cbv beta iota; [|done..]. intros Hs.
  destruct (is_empty hours); [|by apply post_ret].
  post_use _get_text_post; [|done..].
  intros Ht. destruct (Py.truthy _); apply post_ret; [by apply Forall_singleton|done].
Qed.

Lemma rating_number_clean t : clean_rating (rating_number t).
Proof.
  unfold rating_number, clean_rating. destruct (Py.truthy t); [|by left].
  destruct (Py.re_search_decimal t) as [m|] eqn:Hm; [|by left].
  right. by apply re_search_decimal_fixed in Hm as [_ ?].
Qed.

Lemma count_number_digits t : all_digits (count_number t) = true.
Proof.
  unfold count_number, Py.re_search_int. destruct (Py.truthy t); [|done].
  destruct (Py.search_digits t) as [[d r]|] eqn:Hs; [|done].
  simpl. by apply search_digits_spec in Hs as (_ & ? & _).
Qed.

Lemma _extract_rating_post s :
  post _extract_rating s (λ r _, match r with Ok t => clean_rating t | _ => True end).
Proof.
  unfold _extract_rating. apply post_bind, post_any. intros [t|?|] s1; cbv beta iota; [|done..].
  apply post_ret, rating_number_clean.
Qed.

Lemma _extract_reviews_count_post s :
  post _extract_reviews_count s
    (λ r _, match r with Ok t => all_digits t = true | _ => True end).
Proof.
  unfold _extract_reviews_count. apply post_bind, post_any.
  intros [t|?|] s1; cbv beta iota; [|done..].
  apply post_ret, count_number_digits.
Qed.

Lemma details_photos_off self folder s :
  post (details_photos self folder) s
    (λ r _, match r with
            | Ok photos => scrape_photos self = false → photos = []
            | _ => True
            end).
Proof.
  unfold details_photos. destruct (scrape_photos self); [|by apply post_ret].
  apply post_any. by intros [?|?|] ?.
Qed.

Lemma _extract_details_clean self index query s :
  post (_extract_details self index query) s
    (λ r _, match r with
            | Ok (Some d) => clean_record self index d
            | Ok None => True
            | Raise _ => False
            | OutOfFuel => True
            end).
Proof.
  unfold _extract_details, handle_errors. apply post_try_except.
  assert (Hhandler : ∀ e s1,
    post (logger WARNING ("⚠️ Handled error in " +:+ "_extract_details" +:+ ": " +:+ exn_msg e);;
          (if false then raise e else ret None)) s1
      (λ (r : outcome (option Place.t)) _,
         match r with
         | Ok (Some d) => clean_record self index d
         | Ok None => True
         | Raise _ => False
         | OutOfFuel => True
         end)).
  { intros e s1. by post_auto. }
  post_skip; [|apply Hhandler|done].
  destruct (negb _); [by apply post_ret|].
  do 5 (post_skip; [|apply Hhandler|done]).
  post_use details_name_post; [|intros _; apply Hhandler|done]. intros Hname.
  post_skip; [|apply Hhandler|done].
  post_use _get_text_post; [|intros _; apply Hhandler|done]. intros Hdescription.
  post_skip; [|apply Hhandler|done].
  post_use details_photos_off; [|intros _; apply Hhandler|done]. intros Hphotos.
  apply post_bind. eapply post_mono; [apply post_weaken, details_features_post|].
  intros [features|?|] ?; cbv beta iota; [|intros _; apply Hhandler|done]. intros Hfeatures.
  post_use details_address_post; [|intros _; apply Hhandler|done]. intros Haddress.
  post_use details_website_post; [|intros _; apply Hhandler|done]. intros Hwebsite.
  post_use _get_text_post; [|intros _; apply Hhandler|done]. intros Hphone.
  post_use details_working_hours_post; [|intros _; apply Hhandler|done]. intros Hhours.
  apply post_bind. eapply post_mono; [apply post_weaken, _extract_social_links_post|].
  intros [social|?|] ?; cbv beta iota; [|intros _; apply Hhandler|done]. intros Hsocial.
  post_use _extract_rating_post; [|intros _; apply Hhandler|done]. intros Hrating.
  post_use _extract_reviews_count_post; [|intros _; apply Hhandler|done]. intros Hcount.
  post_skip; [|apply Hhandler|done].
  apply post_bind.
  destruct (scrape_reviews self) eqn:Hrev.
  - apply post_any. intros [reviews|?|] ?; cbv beta iota; [|apply Hhandler|done].
    apply post_ret. unfold clean_record; simpl. repeat (split; [done|]). congruence.
  - apply post_ret, post_ret. unfold clean_record; simpl. repeat (split; [done|]). done.
Qed.

(** X14. [_extract_details] never raises: under [handle_errors] it
    returns a record or [None].  A record carries the index as its id and
    no query yet; its name, description, address, website and phone are
    stripped, its rating is empty or a number, its review count is a
    string of digits, its social links are non-empty, the keys of its
    features are non-empty, and it has no photos when photos are off and
    no reviews when reviews are off. *)
Theorem extracted_record_is_clean (self : scraper) (index : nat) (query : string) s :
  match (_extract_details self index query s).1 with
  | Ok (Some d) => clean_record self index d
  | Ok None => True
  | Raise _ => False
  | OutOfFuel => False
  end.
Proof.
  pose proof (_extract_details_clean self index query s) as Hpost.
  destruct (tame__extract_details true self index query s) as [_ Hfuel].
  unfold post in Hpost.
  destruct (_extract_details self index query s).1 as [[d|]|e|]; try done. by destruct Hfuel.
Qed.

End Record.

(** ** src/scraper.py: what a run writes, and where *)

Local Arguments Py.str : simpl never.
Local Arguments photo_path : simpl never.

(** Paths below a directory. *)

Lemma prefix_refl_append (D y : string) : String.prefix D (D +:+ y) = true.
Proof.
  induction D as [|c D IH]; [by destruct y|].
  rewrite append_cons. simpl. by destruct (ascii_dec c c).
Qed.

Lemma under_append (D p y : string) : under D p → under D (p +:+ y).
Proof.
  unfold under. revert p. induction D as [|c D IH]; intros p; [by destruct (p +:+ y)|].
  destruct p as [|d p]; [done|]. rewrite append_cons. simpl.
  destruct (ascii_dec c d); [apply IH|done].
Qed.

Lemma under_refl (D : string) : under D D.
Proof. unfold under. rewrite <- (append_empty_r D) at 2. apply prefix_refl_append. Qed.

Lemma under_path_join2 (D a b : string) :
  String.prefix "/" b = false → under D a → under D (Py.path_join2 a b).
Proof.
  intros Hb Ha. unfold Py.path_join2. rewrite Hb.
  destruct (negb (Py.truthy a) || String.prefix "/" (String.rev a)); by apply under_append.
Qed.

Lemma under_join2 (D b : string) :
  String.prefix "/" b = false → under D (Py.path_join D [b]).
Proof. intros Hb. apply under_path_join2; [done|apply under_refl]. Qed.

Lemma under_photo_path (D folder : string) (n : nat) (ext : string) :
  under D folder → under D (photo_path folder n ext).
Proof.
  intros Hf. unfold photo_path, Py.path_join. simpl.
  apply under_path_join2; [done|]. by apply under_path_join2.
Qed.

Lemma zfill3_name_not_absolute (index : nat) (rest : string) :
  String.prefix "/" (Py.zfill3 index +:+ rest) = false.
Proof.
  pose proof (zfill3_isdigit index) as [Ht Hd]%andb_prop.
  destruct (Py.zfill3 index) as [|c r]; [done|].
  simpl in Hd. apply andb_prop in Hd as [Hc _].
  rewrite append_cons.
  change (String.prefix "/" (String c (r +:+ rest)))
    with (if ascii_dec "/" c then String.prefix "" (r +:+ rest) else false).
  destruct (ascii_dec "/" c) as [<-|]; [|done]. by vm_compute in Hc.
Qed.

Create HintDb appends discriminated.


Section Appends.
Context {W E : Type} `{!Env W E}.
Implicit Types s : state W.
Implicit Types P : string * content → Prop.
Implicit Types D : string.

Lemma appends_same {A} D P (m : M W A) :
  (∀ s, files (m s).2 = files s ∧ current_session_dir (m s).2 = current_session_dir s) →
  appends D P m.
Proof.
  intros Hm s Hs. destruct (Hm s) as [Hf Hd]. exists [].
  rewrite Hf, Hd, app_nil_r. by split.
Qed.

Lemma appends_mono {A} D P P' (m : M W A) :
  (∀ f, P f → P' f) → appends D P m → appends D P' m.
Proof.
  intros HP Hm s Hs. destruct (Hm s Hs) as (new & Hf & Hnew & Hd). exists new.
  split; [done|]. split; [|done]. eapply Forall_impl; [exact Hnew|done].
Qed.

Lemma appends_ret {A} D P (a : A) : appends (W:=W) D P (ret a).
Proof. by apply appends_same. Qed.

Lemma appends_raise {A} D P (e : exn) : appends (W:=W) (A:=A) D P (raise e).
Proof. by apply appends_same. Qed.

Lemma appends_out_of_fuel {A} D P : appends (W:=W) (A:=A) D P out_of_fuel.
Proof. by apply appends_same. Qed.

Lemma appends_gets {A} D P (f : state W → A) : appends D P (gets f).
Proof. by apply appends_same. Qed.

Lemma appends_modify D P (f : state W → state W) :
  (∀ s, files (f s) = files s ∧ current_session_dir (f s) = current_session_dir s) →
  appends D P (modify f).
Proof. intros Hf. by apply appends_same. Qed.

Lemma appends_logger D P l msg : appends (W:=W) D P (logger l msg).
Proof. by apply appends_same. Qed.

Lemma appends_sleep D P ms : appends D P (sleep ms).
Proof. by apply appends_same. Qed.

Lemma appends_call {A} D P (op : W → answer A * W) : appends D P (call op).
Proof.
  apply appends_same. intros s. unfold call. by destruct (op (env s)) as [[a|e] w].
Qed.

Lemma appends_bind {A B} D P (m : M W A) (k : A → M W B) :
  appends D P m → (∀ a, appends D P (k a)) → appends D P (m ≫= k).
Proof.
  intros Hm Hk s Hs. unfold mbind, M_bind, bind.
  destruct (Hm s Hs) as (new & Hf & Hnew & Hd). destruct (m s) as [[a|e|] s1]; simpl in *.
  - destruct (Hk a s1 Hd) as (new' & Hf' & Hnew' & Hd'). exists (new ++ new')%list.
    rewrite Hf', Hf, (assoc_L (++)). split; [done|]. split; [by apply Forall_app|done].
  - by exists new.
  - by exists new.
Qed.

(** The same, with what is known of the result of [m]. *)
Lemma appends_bind_post {A B} D P (m : M W A) (k : A → M W B) (R : A → Prop) :
  appends D P m →
  (∀ s, current_session_dir s = D →
        post m s (λ r _, match r with Ok a => R a | _ => True end)) →
  (∀ a, R a → appends D P (k a)) →
  appends D P (m ≫= k).
Proof.
  intros Hm HR Hk s Hs. unfold mbind, M_bind, bind.
  destruct (Hm s Hs) as (new & Hf & Hnew & Hd). specialize (HR s Hs). unfold post in HR.
  destruct (m s) as [[a|e|] s1]; simpl in *.
  - destruct (Hk a HR s1 Hd) as (new' & Hf' & Hnew' & Hd'). exists (new ++ new')%list.
    rewrite Hf', Hf, (assoc_L (++)). split; [done|]. split; [by apply Forall_app|done].
  - by exists new.
  - by exists new.
Qed.

Lemma appends_attempt {A} D P (m : M W A) : appends D P m → appends D P (attempt m).
Proof.
  intros Hm s Hs. unfold attempt. destruct (Hm s Hs) as (new & Hf & Hnew & Hd).
  destruct (m s) as [[a|e|] s1]; simpl in *; by exists new.
Qed.

Lemma appends_try_except {A} D P (m : M W A) (h : exn → M W A) :
  appends D P m → (∀ e, appends D P (h e)) → appends D P (try_except m h).
Proof.
  intros Hm Hh. apply appends_bind; [by apply appends_attempt|].
  intros [a|e]; [apply appends_ret|apply Hh].
Qed.

Lemma appends_try_except_on {A} D P cls (m : M W A) (h : exn → M W A) :
  appends D P m → (∀ e, appends D P (h e)) → appends D P (try_except_on cls m h).
Proof.
  intros Hm Hh. apply appends_try_except; [done|].
  intros e. destruct (exn_class_eqb _ _); [apply Hh|apply appends_raise].
Qed.

Lemma appends_reraise D P (pending : option exn) : appends (W:=W) D P (reraise pending).
Proof. destruct pending; [apply appends_raise|apply appends_ret]. Qed.

Lemma appends_for_ {A B} D P (l : list A) (body : A → B → M W (flow B)) (b : B) :
  (∀ x b, appends D P (body x b)) → appends D P (for_ l body b).
Proof.
  intros Hbody. revert b. induction l as [|x l IH]; intros b s Hs.
  - exists []. by rewrite app_nil_r.
  - simpl. destruct (Hbody x b s Hs) as (new & Hf & Hnew & Hd).
    destruct (body x b s) as [[[b'|b']|e|] s1]; simpl in *; try by exists new.
    destruct (IH b' s1 Hd) as (new' & Hf' & Hnew' & Hd'). exists (new ++ new')%list.
    rewrite Hf', Hf, (assoc_L (++)). split; [done|]. split; [by apply Forall_app|done].
Qed.

Lemma appends_log_execution {A} D P name (m : M W A) :
  appends D P m → appends D P (log_execution name m).
Proof.
  intros Hm. unfold log_execution.
  apply appends_bind; [apply appends_logger|intros _].
  apply appends_try_except.
  - apply appends_bind; [done|intros a].
    apply appends_bind; [apply appends_logger|intros _; apply appends_ret].
  - intros e. apply appends_bind; [apply appends_logger|intros _; apply appends_raise].
Qed.

Lemma appends_handle_errors {A} D P (d : A) (re : bool) name (m : M W A) :
  appends D P m → appends D P (handle_errors d re name m).
Proof.
  intros Hm. unfold handle_errors. apply appends_try_except; [done|].
  intros e. apply appends_bind; [apply appends_logger|intros _].
  destruct re; [apply appends_raise|apply appends_ret].
Qed.

Lemma appends_write_file D P path c : P (path, c) → appends D P (write_file path c).
Proof.
  intros HP s Hs. unfold write_file, call, modify, mbind, M_bind, bind.
  destruct (file_write path c (env s)) as [[[]|e] w]; simpl.
  - exists [(path, c)]. split; [done|]. split; [by apply Forall_singleton|done].
  - exists []. by rewrite app_nil_r.
Qed.

Lemma session_dir_set_cookies (jar : list (string * string)) s :
  current_session_dir (fold_left (λ s c, set_cookie c.1 c.2 s) jar s) = current_session_dir s.
Proof. revert s. induction jar as [|c jar IH]; intros s; [done|]. simpl. by rewrite IH. Qed.

(** What a program that is not run from a known directory writes. *)
Lemma writes_appends {A} P (m : M W A) : (∀ D, appends D P m) → writes P m.
Proof.
  intros Hm s. destruct (Hm (current_session_dir s) s eq_refl) as (new & Hf & Hnew & _).
  by exists new.
Qed.

Lemma writes_bind {A B} P (m : M W A) (k : A → M W B) :
  writes P m → (∀ a, writes P (k a)) → writes P (m ≫= k).
Proof.
  intros Hm Hk s. unfold mbind, M_bind, bind.
  destruct (Hm s) as (new & Hf & Hnew). destruct (m s) as [[a|e|] s1]; simpl in *.
  - destruct (Hk a s1) as (new' & Hf' & Hnew'). exists (new ++ new')%list.
    rewrite Hf', Hf, (assoc_L (++)). split; [done|]. by apply Forall_app.
  - by exists new.
  - by exists new.
Qed.

(** A program that writes nothing and leaves the directory [D], and what
    runs after it from [D]. *)
Lemma writes_bind_from {A B} D P (m : M W A) (k : A → M W B) :
  (∀ s, files (m s).2 = files s ∧ current_session_dir (m s).2 = D) →
  (∀ a, appends D P (k a)) →
  writes P (m ≫= k).
Proof.
  intros Hm Hk s. unfold mbind, M_bind, bind.
  destruct (Hm s) as [Hf Hd]. destruct (m s) as [[a|e|] s1]; simpl in *.
  - destruct (Hk a s1 Hd) as (new & Hf' & Hnew & _). exists new. by rewrite Hf', Hf.
  - exists []. by rewrite Hf, app_nil_r.
  - exists []. by rewrite Hf, app_nil_r.
Qed.

Lemma writes_attempt {A} P (m : M W A) : writes P m → writes P (attempt m).
Proof.
  intros Hm s. unfold attempt. destruct (Hm s) as (new & Hf & Hnew).
  destruct (m s) as [[a|e|] s1]; simpl in *; by exists new.
Qed.

Lemma writes_nothing {A} P (m : M W A) : (∀ s, files (m s).2 = files s) → writes P m.
Proof. intros Hm s. exists []. by rewrite Hm, app_nil_r. Qed.

Lemma writes_try_except {A} P (m : M W A) (h : exn → M W A) :
  writes P m → (∀ e, writes P (h e)) → writes P (try_except m h).
Proof.
  intros Hm Hh. apply writes_bind; [by apply writes_attempt|].
  intros [a|e]; [by apply writes_nothing|apply Hh].
Qed.

Lemma writes_try_finally {A} P (m : M W A) (fin : M W unit) :
  writes P m → writes P fin → writes P (try_finally m fin).
Proof.
  intros Hm Hfin. unfold try_finally.
  apply writes_bind; [by apply writes_attempt|]. intros r.
  apply writes_bind; [done|]. intros _. destruct r; by apply writes_nothing.
Qed.

Lemma writes_log_execution {A} P name (m : M W A) :
  writes P m → writes P (log_execution name m).
Proof.
  intros Hm. unfold log_execution.
  apply writes_bind; [by apply writes_nothing|intros _].
  apply writes_try_except.
  - apply writes_bind; [done|intros a].
    apply writes_bind; [by apply writes_nothing|intros _; by apply writes_nothing].
  - intros e. apply writes_bind; [by apply writes_nothing|intros _; by apply writes_nothing].
Qed.

End Appends.

Global Hint Resolve appends_ret appends_raise appends_out_of_fuel appends_gets appends_logger
  appends_sleep appends_call appends_reraise : appends.

Ltac appends_step :=
  match goal with
  | |- appends _ _ (if ?c then _ else _) => destruct c
  | |- appends _ _ (match ?x with _ => _ end) => destruct x
  | |- appends _ _ (_ ≫= _) => apply appends_bind
  | |- appends _ _ (try_except _ _) => apply appends_try_except
  | |- appends _ _ (try_except_on _ _ _) => apply appends_try_except_on
  | |- appends _ _ (attempt _) => apply appends_attempt
  | |- appends _ _ (for_ _ _ _) => apply appends_for_
  | |- appends _ _ (log_execution _ _) => apply appends_log_execution
  | |- appends _ _ (handle_errors _ _ _ _) => apply appends_handle_errors
  | |- appends _ _ (modify _) => apply appends_modify; intros; try (split; reflexivity)
  | |- appends _ _ _ => solve [auto with appends]
  | |- ∀ _, _ => intros
  end.

Ltac appends_auto := repeat appends_step.

Section AppendsProgram.
Context {W E : Type} `{!Env W E}.
Implicit Types P : string * content → Prop.
Implicit Types D : string.

Lemma appends_strip_attr D P v : appends (W:=W) D P (strip_attr v).
Proof. unfold strip_attr. appends_auto. Qed.

Lemma appends_attr_contains D P sub v : appends (W:=W) D P (attr_contains sub v).
Proof. unfold attr_contains. appends_auto. Qed.

Hint Resolve appends_strip_attr appends_attr_contains : appends.

Lemma appends__get_text D P selectors : appends D P (_get_text selectors).
Proof. induction selectors as [|sel rest IH]; simpl; appends_auto. Qed.

Lemma appends__get_attribute D P selectors a : appends D P (_get_attribute selectors a).
Proof. induction selectors as [|sel rest IH]; simpl; appends_auto. Qed.

Hint Resolve appends__get_text appends__get_attribute : appends.

Lemma appends_text_or_content D P el : appends D P (text_or_content el).
Proof. unfold text_or_content. appends_auto. Qed.

Hint Resolve appends_text_or_content : appends.

Lemma appends__get_text_list D P selectors : appends D P (_get_text_list selectors).
Proof. unfold _get_text_list. appends_auto. Qed.

Lemma appends__get_all_attributes D P sel a : appends D P (_get_all_attributes sel a).
Proof. unfold _get_all_attributes. appends_auto. Qed.

Lemma appends__get_text_from_element D P parent sel :
  appends D P (_get_text_from_element parent sel).
Proof. unfold _get_text_from_element. appends_auto. Qed.

Lemma appends__extract_rating D P : appends D P _extract_rating.
Proof. unfold _extract_rating. appends_auto. Qed.

Lemma appends__extract_reviews_count D P : appends D P _extract_reviews_count.
Proof. unfold _extract_reviews_count. appends_auto. Qed.

Lemma appends__extract_social_links D P : appends D P _extract_social_links.
Proof. unfold _extract_social_links. appends_auto. Qed.

Lemma appends__switch_to_overview D P : appends D P _switch_to_overview.
Proof. unfold _switch_to_overview. appends_auto. Qed.

Hint Resolve appends__get_all_attributes appends__get_text_from_element
  appends__extract_rating appends__extract_reviews_count appends__extract_social_links
  appends__switch_to_overview : appends.

Lemma appends_download_photo D self folder i src paths :
  appends D (photo_file folder) (download_photo self folder i src paths).
Proof.
  unfold download_photo. appends_auto.
  all: apply appends_write_file; by eexists _, _, _.
Qed.

Hint Resolve appends_download_photo : appends.

Lemma appends_photo_round D self folder candidate paths :
  appends D (photo_file folder) (photo_round self folder candidate paths).
Proof. unfold photo_round. appends_auto. Qed.

Hint Resolve appends_photo_round : appends.

Lemma appends__extract_photos D self folder :
  appends D (photo_file folder) (_extract_photos self folder).
Proof.
  unfold _extract_photos. appends_auto.
  split; [apply files_set_cookies|apply session_dir_set_cookies].
Qed.

Lemma appends_review_rating D P item : appends D P (review_rating item).
Proof. unfold review_rating. appends_auto. Qed.

Hint Resolve appends_review_rating : appends.

Lemma appends_review_round D P item reviews : appends D P (review_round item reviews).
Proof. unfold review_round. appends_auto. Qed.

Lemma appends_open_reviews D P : appends D P open_reviews.
Proof. unfold open_reviews. appends_auto. Qed.

Hint Resolve appends_review_round appends_open_reviews appends__extract_photos : appends.

Lemma appends__extract_reviews D P : appends D P _extract_reviews.
Proof. unfold _extract_reviews. appends_auto. Qed.

Lemma appends_create_place_folder D P name index : appends D P (create_place_folder name index).
Proof. unfold create_place_folder. appends_auto. Qed.

Hint Resolve appends__extract_reviews appends_create_place_folder : appends.

Lemma appends_details_name D P : appends D P details_name.
Proof. unfold details_name. appends_auto. Qed.

Lemma appends_details_category D P : appends D P details_category.
Proof. unfold details_category. appends_auto. Qed.

Lemma appends_open_gallery D P : appends D P open_gallery.
Proof. unfold open_gallery. appends_auto. Qed.

Lemma appends_goto_gallery D P : appends D P goto_gallery.
Proof. unfold goto_gallery. appends_auto. Qed.

Lemma appends_leave_gallery D P : appends D P leave_gallery.
Proof. unfold leave_gallery. appends_auto. Qed.

Lemma appends_details_features D P : appends D P details_features.
Proof. unfold details_features. appends_auto. Qed.

Lemma appends_details_address D P : appends D P details_address.
Proof. unfold details_address. appends_auto. Qed.

Lemma appends_details_website D P : appends D P details_website.
Proof. unfold details_website. appends_auto. Qed.

Lemma appends_details_working_hours D P : appends D P details_working_hours.
Proof. unfold details_working_hours. appends_auto. Qed.

Hint Resolve appends_details_name appends_details_category appends_open_gallery
  appends_goto_gallery appends_leave_gallery appends_details_features
  appends_details_address appends_details_website appends_details_working_hours : appends.

Lemma appends_details_photos D self folder :
  under D folder → appends D (listing_photo D self) (details_photos self folder).
Proof.
  intros Hfolder.
  unfold details_photos. destruct (scrape_photos self) eqn:Hp; [|apply appends_ret].
  appends_auto. eapply appends_mono; [|apply appends__extract_photos].
  intros f Hf. split; [done|]. by exists folder.
Qed.

Hint Resolve appends_details_photos : appends.

Lemma create_place_folder_under D name index (s : state W) :
  current_session_dir s = D →
  post (create_place_folder name index) s
    (λ r _, match r with Ok place_path => under D place_path | _ => True end).
Proof.
  intros Hs.
  unfold post, create_place_folder, log_execution, try_except, logger, modify, gets, call,
    attempt, ret, raise, mbind, M_bind, bind. simpl. rewrite Hs.
  destruct (Py.truthy D); simpl; [|done].
  destruct (os_makedirs _ (env s)) as [[[]|e] w]; simpl; [|done].
  destruct (os_makedirs _ w) as [[[]|e] w']; simpl; [|done].
  apply under_join2, zfill3_name_not_absolute.
Qed.

Lemma appends__extract_details D self index query :
  appends D (listing_photo D self) (_extract_details self index query).
Proof.
  unfold _extract_details. apply appends_handle_errors.
  apply appends_bind; [appends_auto|intros loaded].
  destruct (negb loaded); [apply appends_ret|].
  do 8 (apply appends_bind; [auto with appends|intros ?]).
  apply (appends_bind_post _ _ _ _ (under D));
    [auto with appends|intros s Hs; by apply create_place_folder_under|].
  intros place_folder Hfolder. appends_auto.
Qed.

Lemma appends_setup_driver D P self : appends D P (setup_driver self).
Proof. unfold setup_driver, sys_platform. appends_auto. Qed.

Lemma appends__perform_search D P query : appends D P (_perform_search query).
Proof. unfold _perform_search. appends_auto. Qed.

Lemma appends_progress D P self done total msg : appends D P (progress self done total msg).
Proof. unfold progress. appends_auto. Qed.

Hint Resolve appends__extract_details appends_setup_driver appends__perform_search
  appends_progress : appends.

Lemma appends_process_place D self query total entry data :
  appends D (listing_photo D self) (process_place self query total entry data).
Proof. unfold process_place. appends_auto. Qed.

Lemma appends_snippet_href D P el : appends D P (snippet_href el).
Proof. unfold snippet_href. appends_auto. Qed.

Hint Resolve appends_process_place appends_snippet_href : appends.

Lemma appends_collect_links D P elements links : appends D P (collect_links elements links).
Proof. unfold collect_links. appends_auto. Qed.

Hint Resolve appends_collect_links : appends.

Lemma appends_scroll_loop D P fuel self last_count attempts links seen :
  appends D P (scroll_loop fuel self last_count attempts links seen).
Proof.
  revert last_count attempts links seen.
  induction fuel as [|fuel IH]; intros; simpl; appends_auto.
Qed.

Hint Resolve appends_scroll_loop : appends.

Lemma appends__scroll_and_collect_results D P fuel self :
  appends D P (_scroll_and_collect_results fuel self).
Proof. unfold _scroll_and_collect_results. appends_auto. Qed.

Lemma appends_quit_driver D P : appends D P quit_driver.
Proof. unfold quit_driver. appends_auto. Qed.

End AppendsProgram.

Section RunFiles.
Context {W E : Type} `{!Env W E}.
Implicit Types s : state W.

Lemma process_place_post self query total i link data s :
  post (process_place self query total (i, link) data) s
    (λ r _, match r with
            | Ok (Continue data') =>
                data' = data
                ∨ ∃ d, clean_record self (i + 1) d ∧ data' = (data ++ [d])%list
            | Ok (Break _) => False
            | Raise _ => True
            | OutOfFuel => True
            end).
Proof.
  unfold process_place. do 2 (post_skip; [|done..]).
  apply post_try_except.
  do 2 (post_skip; [|by post_auto; left|done]).
  apply post_bind. eapply post_mono; [apply _extract_details_clean|].
  intros [[d|]|?|] s1; cbv beta iota; try done.
  - intros Hd. apply post_ret. right. by exists d.
  - intros _. apply post_ret. by left.
Qed.

Lemma collected_mono self k k' data :
  (k ≤ k')%nat → collected self k data → collected self k' data.
Proof.
  intros Hk [Hall Hsorted]. split; [|done].
  eapply Forall_impl; [exact Hall|]. simpl. intros d [? ?]. split; [lia|done].
Qed.

Lemma collected_snoc self k data d :
  collected self k data → clean_record self (k + 1) d →
  collected self (S k) (data ++ [d])%list.
Proof.
  intros [Hall Hsorted] Hd. pose proof Hd as (Hid & _). split.
  - apply Forall_app. split.
    + eapply Forall_impl; [exact Hall|]. simpl. intros x [? ?]. split; [lia|done].
    + apply Forall_singleton. split; [lia|by eexists].
  - rewrite map_app. simpl.
    induction data as [|x data IH]; simpl in *.
    + repeat constructor.
    + apply StronglySorted_inv in Hsorted as [Hs Hx].
      apply Forall_cons in Hall as [[Hx1 _] Hall].
      constructor.
      * by apply IH.
      * apply Forall_app. split; [done|]. apply Forall_singleton. lia.
Qed.

Lemma place_loop_post self query total (k : nat) (links : list string) data s :
  collected self k data →
  post (for_ (enumerate_from k links) (process_place self query total) data) s
    (λ r _, match r with
            | Ok (data', _) => collected self (k + length links) data'
            | _ => True
            end).
Proof.
  intros Hdata.
  apply (post_for_ (λ l data _,
           ∃ k' rest, l = enumerate_from k' rest
                      ∧ (k' + length rest = k + length links)%nat
                      ∧ collected self k' data)).
  - by exists k, links.
  - clear. intros [i link] l' data s (k' & rest & Hl & Hn & Hdata).
    destruct rest as [|link' rest]; simplify_eq/=.
    eapply post_mono; [apply process_place_post|].
    intros [[data'|data']|e|] s'; simpl; try done.
    + intros [->|(d & Hd & ->)]; exists (S k'), rest.
      * split; [done|]. split; [lia|]. apply (collected_mono self k'); [lia|done].
      * split; [done|]. split; [lia|]. by apply collected_snoc.
    + intros _. rewrite <- Hn. apply (collected_mono self k'); [lia|done].
  - clear. intros data s (k' & rest & Hl & Hn & Hdata).
    destruct rest; simplify_eq/=. rewrite <- Hn. apply (collected_mono self k'); [lia|done].
Qed.

Lemma stamped_records self query k data :
  collected self k data → run_records query (map (stamp query) data).
Proof.
  intros [Hall Hsorted]. split.
  - apply Forall_map. eapply Forall_impl; [exact Hall|]. simpl. intros d [? _]. split; [done|lia].
  - rewrite map_map. simpl. done.
Qed.

Lemma session_dir_read D (s : state W) :
  current_session_dir s = D →
  post (gets current_session_dir) s (λ r _, match r with Ok dir => dir = D | _ => True end).
Proof. by intros <-. Qed.

(** One export: its guard, then the writing of its document. *)
Lemma appends_export D (P : string * content → Prop) (name : string) (guard : string → bool)
    (write : string → M W string) :
  (∀ dir, dir = D → appends D P (write dir)) →
  appends D P
    (log_execution name
       (dir ← gets current_session_dir;
        if guard dir then ret "" else write dir)).
Proof.
  intros Hwrite. apply appends_log_execution.
  apply (appends_bind_post _ _ _ _ (λ dir, dir = D));
    [apply appends_gets|apply session_dir_read|].
  intros dir Hdir. destruct (guard dir); [apply appends_ret|by apply Hwrite].
Qed.

Lemma appends_save_results D (P : string * content → Prop) (data : list Place.t) :
  (∀ f, export_file D f ∧ match f.2 with JsonDoc d => d = data | _ => True end → P f) →
  appends (W:=W) D P (save_results data).
Proof.
  intros HP. unfold save_results.
  apply appends_bind; [|intros _; apply appends_bind; [|intros _; apply appends_bind;
    [|intros _; apply appends_bind; [|intros _; apply appends_ret]]]].
  - apply (appends_export D P "save_json" (λ dir, negb (Py.truthy dir))).
    intros dir ->. cbv zeta. appends_auto. by apply appends_write_file, HP.
  - apply (appends_export D P "export_to_csv"
             (λ dir, negb (Py.truthy dir) || is_empty data)).
    intros dir ->. cbv zeta. appends_auto. by apply appends_write_file, HP.
  - apply (appends_export D P "save_to_sqlite"
             (λ dir, negb (Py.truthy dir) || is_empty data)).
    intros dir ->. cbv zeta. appends_auto. by apply appends_write_file, HP.
  - apply (appends_export D P "export_to_excel"
             (λ dir, negb (Py.truthy dir) || is_empty data)).
    intros dir ->. cbv zeta. appends_auto. by apply appends_write_file, HP.
Qed.

Lemma setup_session_directory_sets self query (s : state W) :
  files (setup_session_directory self query s).2 = files s
  ∧ current_session_dir (setup_session_directory self query s).2 = session_path self query.
Proof.
  unfold setup_session_directory, log_execution, try_except, logger, modify, gets, call,
    attempt, ret, raise, mbind, M_bind, bind. simpl.
  by destruct (os_makedirs _ (env s)) as [[[]|e] w].
Qed.

(** [run] from the search on, with the session directory set. *)
Lemma appends_run_rest self query fuel :
  appends (session_path self query) (run_file self query)
    (call (driver_get "https://yandex.ru/maps");;
     logger INFO ("🔍 Searching for: " +:+ query);;
     _perform_search query;;
     progress self 0 (max_results self) "Scrolling and collecting links...";;
     place_links ← _scroll_and_collect_results fuel self;
     let total_links := length place_links in
     logger INFO ("📍 Found " +:+ Py.str total_links +:+ " places to process");;
     '(extracted_data, pending) ←
       for_ (enumerate place_links) (process_place self query total_links) [];
     reraise pending;;
     progress self total_links (Z.of_nat total_links) "Saving data...";;
     save_results (map (stamp query) extracted_data)).
Proof.
  do 4 (apply appends_bind; [auto using appends_call, appends_logger, appends__perform_search,
          appends_progress|intros _]).
  apply appends_bind; [apply appends__scroll_and_collect_results|intros place_links].
  cbv zeta.
  apply appends_bind; [apply appends_logger|intros _].
  apply (appends_bind_post _ _ _ _ (λ r, collected self (length place_links) r.1)).
  - apply appends_for_. intros [i link] data.
    eapply appends_mono; [|apply appends_process_place]. intros f Hf. by left.
  - intros s _. eapply post_mono.
    + apply (place_loop_post self query (length place_links) 0 place_links []).
      split; constructor.
    + by intros [[data pending]|?|] ?.
  - intros [data pending] Hdata. simpl in Hdata.
    apply appends_bind; [apply appends_reraise|intros _].
    apply appends_bind; [apply appends_progress|intros _].
    apply appends_save_results. intros f [Hf Hjson]. right. split; [done|].
    destruct f.2; try done. subst. by eapply stamped_records.
Qed.

Lemma writes_run_body self query fuel : writes (run_file self query) (run_body fuel self query).
Proof.
  unfold run_body.
  apply writes_bind; [apply writes_appends; intros D; apply appends_setup_driver|intros _].
  apply (writes_bind_from (session_path self query));
    [apply setup_session_directory_sets|intros _].
  apply appends_run_rest.
Qed.

Lemma writes_run self query fuel : writes (run_file self query) (run fuel self query).
Proof.
  unfold run. apply writes_log_execution, writes_try_finally.
  - apply writes_try_except; [apply writes_run_body|].
    intros e. by apply writes_nothing.
  - apply writes_appends. intros D. apply appends_quit_driver.
Qed.

End RunFiles.

Section RunTheorems.
Context {W E : Type} `{!Env W E}.
Implicit Types s : state W.

(** X15. An error while a listing is processed never ends the loop over
    the links and never costs a record collected before: [process_place]
    returns the records it was given, with at most one more, the record of
    its listing.  The one exception it lets through is that of the
    progress callback, which is called outside the [try]. *)
Theorem listing_errors_are_isolated (self : scraper) (query : string) (total_links i : nat)
    (link : string) (extracted_data : list Place.t) s :
  match (process_place self query total_links (i, link) extracted_data s).1 with
  | Ok (Continue data) =>
      data = extracted_data
      ∨ ∃ d, clean_record self (i + 1) d ∧ data = (extracted_data ++ [d])%list
  | Ok (Break _) => False
  | Raise e =>
      progress_set self = true
      ∧ ∃ done total msg w, (on_progress done total msg w).1 = inr e
  | OutOfFuel => False
  end.
Proof.
  assert (Hpost : post (process_place self query total_links (i, link) extracted_data) s
            (λ r _, match r with
                    | Ok (Continue data) =>
                        data = extracted_data
                        ∨ ∃ d, clean_record self (i + 1) d
                               ∧ data = (extracted_data ++ [d])%list
                    | Ok (Break _) => False
                    | Raise e =>
                        progress_set self = true
                        ∧ ∃ done total msg w, (on_progress done total msg w).1 = inr e
                    | OutOfFuel => True
                    end)).
  { unfold process_place. apply post_bind, post_logger. apply post_bind.
    apply (post_mono _ _ (λ r _, match r with
                                 | Raise e =>
                                     progress_set self = true
                                     ∧ ∃ done total msg w, (on_progress done total msg w).1 = inr e
                                 | _ => True
                                 end)).
    - unfold progress. destruct (progress_set self); [|done].
      apply post_call; [done|]. intros e w Hcall. split; [done|].
      eexists _, _, _, _. by rewrite Hcall.
    - intros [[]|e|] s1; try done. intros _.
      apply post_try_except.
      do 2 (post_skip; [|by post_auto; left|done]).
      apply post_bind. eapply post_mono; [apply _extract_details_clean|].
      intros [[d|]|?|] s2; cbv beta iota; try done.
      + intros Hd. apply post_ret. right. by exists d.
      + intros _. apply post_ret. by left. }
  destruct (tame_process_place true self query total_links (i, link) extracted_data s)
    as [_ Hfuel].
  unfold post in Hpost.
  destruct (process_place self query total_links (i, link) extracted_data s).1
    as [[data|data]|e|]; try done. by destruct Hfuel.
Qed.


(** X17. A JSON document a run writes is [places_data.json] of its
    session directory, and its records carry the query and, as ids, their
    positions in the list of links: the ids are at least 1 and grow
    strictly, so that no two records share an id. *)
Theorem saved_records_carry_query_and_position (fuel : nat) (self : scraper)
    (query : string) s (path : string) (data : list Place.t) :
  (path, JsonDoc data) ∈ files (run fuel self query s).2 →
  (path, JsonDoc data) ∈ files s
  ∨ (path = Py.path_join (session_path self query) ["places_data.json"]
     ∧ Forall (λ d, Place.search_query d = Some query ∧ (1 ≤ Place.id d)%nat) data
     ∧ StronglySorted lt (map Place.id data)).
Proof.
  destruct (writes_run self query fuel s) as (written & -> & Hw).
  intros [Hin|Hin]%elem_of_app; [by left|right].
  rewrite Forall_forall in Hw. destruct (Hw _ Hin) as [[_ Hp]|[He Hj]].
  - by destruct Hp as (? & ? & ? & ? & ? & [= _ ?]).
  - split; [exact He|exact Hj].
Qed.

End RunTheorems.

(** ** src/scraper.py and main.py: the browsers a run can start *)

Local Arguments Py.title : simpl never.

Section NoBrowser.
Context {W E : Type} `{!Env W E}.
Implicit Types s : state W.

Lemma setup_driver_no_browser (self : scraper) s :
  browser_type self ≠ "firefox" → browser_type self ≠ "edge" →
  setup_driver self s
  = (Raise (no_browser_error self),
     add_log ERROR ("❌ Error in " +:+ "setup_driver" +:+ ": " +:+ exn_msg (no_browser_error self))
       (add_log DEBUG ("▶️ Starting: " +:+ "setup_driver") s)).
Proof.
  intros Hf He. apply String.eqb_neq in Hf, He.
  unfold setup_driver, no_browser_error, sys_platform, log_execution, try_except, logger,
    modify, attempt, ret, raise, mbind, M_bind, bind.
  rewrite Hf, He.
  destruct (String.eqb (browser_type self) "chrome"); simpl; [done|].
  destruct (String.eqb (browser_type self) "safari"); simpl; done.
Qed.

Lemma bind_raise {A B} (m : M W A) (k : A → M W B) s e s1 :
  m s = (Raise e, s1) → (m ≫= k) s = (Raise e, s1).
Proof. unfold mbind, M_bind, bind. by intros ->. Qed.

Lemma run_body_no_browser (fuel : nat) (self : scraper) (query : string) s :
  browser_type self ≠ "firefox" → browser_type self ≠ "edge" →
  run_body fuel self query s
  = (Raise (no_browser_error self),
     add_log ERROR ("❌ Error in " +:+ "setup_driver" +:+ ": " +:+ exn_msg (no_browser_error self))
       (add_log DEBUG ("▶️ Starting: " +:+ "setup_driver") s)).
Proof. intros Hf He. unfold run_body. by apply bind_raise, setup_driver_no_browser. Qed.

Lemma run_no_browser (fuel : nat) (self : scraper) (query : string) s :
  browser_type self ≠ "firefox" → browser_type self ≠ "edge" → driver s = false →
  run fuel self query s
  = (Ok tt,
     add_log DEBUG "✅ Completed: run"
       (add_log CRITICAL ("Critical failure: " +:+ exn_msg (no_browser_error self))
          (add_log ERROR ("❌ Error in setup_driver: " +:+ exn_msg (no_browser_error self))
             (add_log DEBUG "▶️ Starting: setup_driver"
                (add_log DEBUG "▶️ Starting: run" s))))).
Proof.
  intros Hf He Hd.
  pose proof (run_body_no_browser fuel self query
                (add_log DEBUG ("▶️ Starting: " +:+ "run") s) Hf He) as Hbody.
  unfold run, log_execution, try_finally, try_except, quit_driver, logger, modify, gets,
    call, attempt, ret, raise, mbind, M_bind, bind.
  simpl in *. rewrite Hbody. simpl. rewrite Hd. done.
Qed.

(** X18. For every browser but Firefox and Edge, [run] ends before a
    browser exists: [setup_driver] raises ([NameError] for Chrome and
    Safari, whose branches read [sys.platform] in a module that does not
    import [sys]; [ValueError] for any other name), [run] logs the critical
    failure and returns.  The outside world, the files and the session
    directory are untouched, and [quit] is not called. *)
Theorem run_needs_firefox_or_edge (fuel : nat) (self : scraper) (query : string) s :
  browser_type self ≠ "firefox" → browser_type self ≠ "edge" → driver s = false →
  (run fuel self query s).1 = Ok tt
  ∧ env (run fuel self query s).2 = env s
  ∧ files (run fuel self query s).2 = files s
  ∧ driver (run fuel self query s).2 = false
  ∧ quits (run fuel self query s).2 = quits s
  ∧ current_session_dir (run fuel self query s).2 = current_session_dir s
  ∧ log (run fuel self query s).2
    = (log s ++
       [ (DEBUG, "▶️ Starting: run");
         (DEBUG, "▶️ Starting: setup_driver");
         (ERROR, "❌ Error in setup_driver: " +:+ exn_msg (no_browser_error self));
         (CRITICAL, "Critical failure: " +:+ exn_msg (no_browser_error self));
         (DEBUG, "✅ Completed: run") ])%list.
Proof.
  intros Hf He Hd. rewrite run_no_browser by done. simpl.
  repeat (split; [done|]). by rewrite <- !(assoc_L (++)).
Qed.

End NoBrowser.

Section MainProperties.
Context {W E : Type} `{!Env W E}.

(** X19. [main] builds its scraper with the default browser, Chrome.
    Whatever the arguments, its run ends in the critical failure of a
    browser that cannot be started: nothing is scraped or written, no
    session directory is set, and so the screenshot stage is skipped even
    when it is asked for. *)
Theorem main_never_starts_a_browser (os_path_exists : string → W → bool)
    (process_websites : string → M W unit) (fuel : nat) (args : Args.t) (now : string)
    (w : W) :
  main os_path_exists process_websites fuel args now (fresh w)
  = (Ok tt,
     State w
       [ (DEBUG, "▶️ Starting: run");
         (DEBUG, "▶️ Starting: setup_driver");
         (ERROR, "❌ Error in setup_driver: name 'sys' is not defined");
         (CRITICAL, "Critical failure: name 'sys' is not defined");
         (DEBUG, "✅ Completed: run") ]
       [] false 0 [] "").
Proof.
  unfold main, mbind, M_bind, bind. rewrite run_no_browser by done.
  unfold gets. simpl. by destruct (Args.screenshots args).
Qed.

End MainProperties.

(** ** src/scraper.py: discovery on an empty panel, and for no target *)

Local Arguments pretty : simpl never.
Local Arguments first_links : simpl never.

Section Barren.
Context {W E : Type} `{!Env W E}.
Implicit Types s : state W.

Lemma after_polls_S n w : after_polls (S n) w = after_polls n (poll_snippets w).2.
Proof. unfold after_polls. by rewrite Nat.iter_succ_r. Qed.

Lemma first_links_empty self : 0 ≤ max_results self → first_links self ∅ = [].
Proof.
  intros H0. unfold first_links, Py.slice_to. rewrite elements_empty.
  destruct (0 <=? max_results self); apply take_nil.
Qed.

Lemma collect_links_nil (links : gset string) s :
  collect_links [] links s = (Ok links, s).
Proof. done. Qed.

(** The loop on a panel that stays empty: [n] more rounds are due. *)
Lemma barren_loop self (n : nat) : ∀ (attempts fuel : nat) seen s,
  0 < max_results self →
  (attempts + S n = max_attempts)%nat → (S n ≤ fuel)%nat →
  (∀ k, (k ≤ n)%nat → (poll_snippets (after_polls k (env s))).1 = inl []) →
  ∃ seen' s',
    scroll_loop fuel self 0 attempts ∅ seen s = (Ok (Discovery Stalled seen' []), s')
    ∧ env s' = after_polls (S n) (env s).
Proof.
  induction n as [|n IH]; intros attempts fuel seen s Hmax Hatt Hfuel Hpoll.
  - destruct fuel as [|fuel]; [lia|].
    pose proof (Hpoll 0%nat (Nat.le_refl _)) as H0. simpl in H0.
    unfold scroll_loop; fold (@scroll_loop W E _).
    unfold mbind at 1, M_bind, bind, call at 1.
    unfold poll_snippets in H0.
    destruct (driver_find_elements CSS_SELECTOR ".search-snippet-view" (env s))
      as [r w] eqn:Hfind. simpl in H0. subst r. cbn beta iota.
    unfold mbind at 1, M_bind, bind. rewrite collect_links_nil.
    rewrite size_empty. simpl length.
    destruct (max_results self <=? Z.of_nat 0) eqn:Hle; [apply Z.leb_le in Hle; lia|].
    replace (0 =? 0)%nat with true by done.
    replace (max_attempts <=? attempts + 1)%nat with true
      by (symmetry; apply Nat.leb_le; lia).
    eexists _, _. split.
    + unfold mbind, M_bind, bind, logger, modify, ret. rewrite first_links_empty by lia. done.
    + rewrite after_polls_S. unfold poll_snippets. by rewrite Hfind.
  - destruct fuel as [|fuel]; [lia|].
    pose proof (Hpoll 0%nat (Nat.le_0_l _)) as H0. simpl in H0.
    unfold scroll_loop; fold (@scroll_loop W E _).
    unfold mbind at 1, M_bind, bind, call at 1.
    unfold poll_snippets in H0.
    destruct (driver_find_elements CSS_SELECTOR ".search-snippet-view" (env s))
      as [r w] eqn:Hfind. simpl in H0. subst r. cbn beta iota.
    unfold mbind at 1, M_bind, bind. rewrite collect_links_nil.
    rewrite size_empty. simpl length.
    destruct (max_results self <=? Z.of_nat 0) eqn:Hle; [apply Z.leb_le in Hle; lia|].
    replace (0 =? 0)%nat with true by done.
    replace (max_attempts <=? attempts + 1)%nat with false
      by (symmetry; apply Nat.leb_gt; lia).
    unfold mbind at 1, M_bind, bind, logger at 1, modify at 1. cbn beta iota.
    unfold mbind at 1, M_bind, bind, attempt, ret. simpl last. cbn beta iota.
    destruct (IH (attempts + 1)%nat fuel (seen ++ [0%nat])%list
                (add_log INFO ("   Loaded " +:+ Py.str 0 +:+ " snippets, "
                               +:+ Py.str 0 +:+ " unique links...") (set_env w s)))
      as (seen' & s' & Hloop & Henv); [done|lia|lia| |].
    + intros k Hk. specialize (Hpoll (S k)). rewrite after_polls_S in Hpoll.
      unfold poll_snippets at 2 in Hpoll. rewrite Hfind in Hpoll. apply Hpoll. lia.
    + exists seen', s'. split; [exact Hloop|].
      rewrite Henv. rewrite (after_polls_S (S n)). unfold poll_snippets at 1.
      by rewrite Hfind.
Qed.

(** X20. When the results panel shows no snippet, discovery does not
    wait: the scroll and the pause of a round are skipped for an empty
    list, so the five polls of the stall counter follow each other at once,
    and the loop returns no link.  Nothing but the five polls touches the
    outside world. *)
Theorem empty_results_end_discovery_without_waiting (fuel : nat) (self : scraper) s :
  0 < max_results self → (5 ≤ fuel)%nat →
  (∀ k, (k < 5)%nat → (poll_snippets (after_polls k (env s))).1 = inl []) →
  (_scroll_and_collect_results fuel self s).1 = Ok []
  ∧ env (_scroll_and_collect_results fuel self s).2 = after_polls 5 (env s).
Proof.
  intros Hmax Hfuel Hpoll.
  destruct (barren_loop self 4 0 fuel []
              (add_log INFO "📜 Scrolling to load results..." s))
    as (seen' & s' & Hloop & Henv); [done|done|lia| |].
  { intros k Hk. apply Hpoll. lia. }
  unfold _scroll_and_collect_results, mbind, M_bind, bind, logger, modify, ret.
  rewrite Hloop. done.
Qed.

End Barren.

Local Arguments Z.leb : simpl never.

Section ZeroTarget.
Context {W E : Type} `{!Env W E}.
Implicit Types s : state W.

Lemma collect_links_post (elements : list E) (links : gset string) s :
  post (collect_links elements links) s
    (λ r _, match r with Raise _ => False | _ => True end).
Proof.
  unfold collect_links. apply post_bind.
  apply (post_for_ (λ _ _ _, True)); [done|..].
  - intros el l' links' s1 _. apply post_try_except, post_any.
    intros [[?|?]|?|] ?; by post_auto.
  - intros links' s1 _. by post_auto.
Qed.


End ZeroTarget.

(** ** The properties above on concrete pages *)

(** The place folder, without and with a session directory. *)
Lemma create_place_folder_needs_session_witness :
  current_session_dir (fresh blank_page) = ""
  ∧ (create_place_folder "Cafe Pushkin" 1 (fresh blank_page)).1
    = Raise (Exn ValueError "Session directory not set. Call setup_session_directory first.")
  ∧ env (create_place_folder "Cafe Pushkin" 1 (fresh blank_page)).2 = env (fresh blank_page)
  ∧ files (create_place_folder "Cafe Pushkin" 1 (fresh blank_page)).2
    = files (fresh blank_page).
Proof.
  split; [reflexivity|].
  apply (create_place_folder_needs_session "Cafe Pushkin" 1 (fresh blank_page)).
  reflexivity.
Defined.

Example place_folder_of_the_cafe :
  (create_place_folder "Cafe Pushkin / №1!" 7 (set_session_dir session_dir (fresh blank_page))).1
  = Ok (session_dir +:+ "/007_Cafe Pushkin  1").
Proof. by vm_compute. Qed.



Example wifi_row :
  map fst (flatten_item wifi_record)
  = ["id"; "name"; "category"; "description"; "address"; "website"; "phone"; "rating";
     "reviews_count"; "working_hours"; "folder_path"; "link"; "social_media";
     "search_query"; "feat_WiFi"; "photos_count"]
  ∧ assoc "reviews_count" (item_copy wifi_record) = Some (CStr "1611")
  ∧ assoc "reviews_count" (flatten_item wifi_record) = Some (CInt 0).
Proof. by vm_compute. Qed.

(** The run of the scraper [main] builds. *)
Lemma run_needs_firefox_or_edge_witness :
  browser_type chrome_scraper ≠ "firefox"
  ∧ browser_type chrome_scraper ≠ "edge"
  ∧ (run 10 chrome_scraper "Coffee shop Moscow" (fresh cafe_page)).1 = Ok tt
  ∧ env (run 10 chrome_scraper "Coffee shop Moscow" (fresh cafe_page)).2 = cafe_page
  ∧ files (run 10 chrome_scraper "Coffee shop Moscow" (fresh cafe_page)).2 = [].
Proof.
  split; [discriminate|]. split; [discriminate|].
  destruct (run_needs_firefox_or_edge 10 chrome_scraper "Coffee shop Moscow" (fresh cafe_page))
    as (Hout & Henv & Hfiles & _); [discriminate|discriminate|reflexivity|].
  split; [exact Hout|]. split; [exact Henv|exact Hfiles].
Defined.

(** The JSON document of the run on the cafe page. *)
Lemma saved_records_witness :
  match head (files (run 10 cafe_scraper "Coffee shop Moscow" (fresh cafe_page)).2) with
  | Some (path, JsonDoc data) =>
      path = session_dir +:+ "/places_data.json"
      ∧ map Place.id data = [1%nat]
      ∧ Forall (λ d, Place.search_query d = Some "Coffee shop Moscow"
                     ∧ (1 ≤ Place.id d)%nat) data
      ∧ StronglySorted lt (map Place.id data)
  | _ => False
  end.
Proof.
  pose proof (saved_records_carry_query_and_position 10 cafe_scraper "Coffee shop Moscow"
                (fresh cafe_page)) as Hsaved.
  destruct (run 10 cafe_scraper "Coffee shop Moscow" (fresh cafe_page)) as [o s'] eqn:Hrun.
  vm_compute in Hrun.
  injection Hrun as <- <-.
  cbn [snd files head] in Hsaved |- *.
  destruct (Hsaved _ _ (list_elem_of_here _ _)) as [Hold|(_ & Hall & Hsorted)].
  - by apply elem_of_nil in Hold.
  - split; [reflexivity|]. split; [reflexivity|]. split; [exact Hall|exact Hsorted].
Defined.

(** Discovery on a page without results, and for the target 0. *)
Lemma empty_results_witness :
  0 < max_results three_scraper
  ∧ (_scroll_and_collect_results 10 three_scraper (fresh no_result_page)).1 = Ok []
  ∧ env (_scroll_and_collect_results 10 three_scraper (fresh no_result_page)).2
    = after_polls 5 (env (fresh no_result_page)).
Proof.
  split; [reflexivity|].
  apply (empty_results_end_discovery_without_waiting 10 three_scraper (fresh no_result_page)).
  - reflexivity.
  - lia.
  - intros k Hk. do 5 (destruct k as [|k]; [reflexivity|]). lia.
Defined.


Example zero_target_on_a_page_with_results :
  (_scroll_and_collect_results 1 zero_scraper (fresh one_result_page)).1 = Ok []
  ∧ (_scroll_and_collect_results 1 (firefox_scraper (-1) false false "jpg" 5)
       (fresh one_result_page)).1 = Ok [].
Proof. by vm_compute. Qed.

(** The dashboard on 23 folders: three pages, the last of three folders. *)
Lemma gallery_pages_witness :
  concat (map (λ p, current_places (seq 0 23) (Z.of_nat p)) (seq 1 3)) = seq 0 23
  ∧ (1 ≤ length (current_places (seq 0 23) 3) ≤ 10)%nat
  ∧ 1 ≤ press Next 3 3 ≤ 3.
Proof.
  destruct (gallery_pages_cover_every_place (seq 0 23)) as [Hcover Hpage].
  split; [exact Hcover|].
  destruct (Hpage 3) as [Hlen Hpress]; [vm_compute; split; discriminate|].
  split; [exact Hlen|exact (Hpress Next)].
Defined.

Example gallery_of_23_places :
  total_pages 23 = 3
  ∧ map (λ p, length (current_places (seq 0 23) p)) [1; 2; 3] = [10; 10; 3]%nat
  ∧ folder_index "007_Cafe Pushkin" = Some 7%nat
  ∧ display_name "007_Cafe Pushkin" = "Cafe Pushkin"
  ∧ folder_index "all_sources" = None.
Proof. by vm_compute. Qed.
